(** * DemandScan: the agent-sequencing state machine

    A shallow embedding of the client-side orchestration code of the
    DemandScan repository:

    - [src/data/agents.js]: the agent registry;
    - [src/pages/OpportunityEvaluation.jsx] (the component at the head of
      the file): session state, [processWithAgent],
      [runNextAgentInSequence], [startAnalysisSequence],
      [stopAnalysisSequence], [handleContentChange], [handleReset],
      [handleViewResult] and friends;
    - [src/pages/GradeTranscripts.jsx]: [checkApiKey], [runAnalysisRef],
      the progression effect and [resetAnalysisState].

    React state is modelled by explicit state passing.  An [async]
    function is the list of its synchronous segments (the code between
    two [await]s); what a callback reads from its closure is taken from
    the render it was created in, what it writes goes through setters on
    the live state.  The page is the live state with what is in flight:
    its steps are the inputs of the user, the renders with their effects,
    the resumption of a suspended task and the reload of the page. *)

From stdpp Require Import gmap strings list fin_maps pretty.
From Stdlib Require Import ZArith Lia Ascii DecimalString DecimalZ DecimalPos.

Open Scope string_scope.
Open Scope Z_scope.

#[local] Set Warnings "-register-all".

(* ===================================================================== *)
(** ** JavaScript values *)
(* ===================================================================== *)

Module JS.

(** JSON-shaped values: what the agents return, what the component keeps
    in its state objects, and what goes through [JSON.stringify]. An
    object is an association list in key-insertion order. *)
Inductive Value : Type :=
| VNull
| VBool (b : bool)
| VNum (n : Z)
| VStr (s : string)
| VArr (items : list Value)
| VObj (fields : list (string * Value)).

(** [!!v]: JavaScript truthiness. *)
Definition truthy (v : Value) : bool :=
  match v with
  | VNull => false
  | VBool b => b
  | VNum n => negb (n =? 0)
  | VStr s => negb (String.eqb s "")
  | VArr _ | VObj _ => true
  end.

(** Truthiness of a property read [o[k]]; a missing key reads as
    [undefined]. *)
Definition truthyO (o : option Value) : bool :=
  match o with
  | Some v => truthy v
  | None => false
  end.

(** [o[k]] on an object literal. *)
Fixpoint field (k : string) (fs : list (string * Value)) : option Value :=
  match fs with
  | [] => None
  | (k', v) :: fs' => if String.eqb k k' then Some v else field k fs'
  end.

(** [{...o, [k]: v}]: an existing key keeps its position. *)
Fixpoint obj_set (k : string) (v : Value) (fs : list (string * Value))
  : list (string * Value) :=
  match fs with
  | [] => [(k, v)]
  | (k', v') :: fs' =>
      if String.eqb k k' then (k, v) :: fs' else (k', v') :: obj_set k v fs'
  end.

(** [{...base, k1: v1, ..., kn: vn}]. *)
Definition spread (base extra : list (string * Value)) : list (string * Value) :=
  fold_left (fun acc kv => obj_set kv.1 kv.2 acc) extra base.

(** [v.k] where [v] may be any value. *)
Definition prop (k : string) (v : Value) : option Value :=
  match v with
  | VObj fs => field k fs
  | _ => None
  end.

Definition strs (l : list string) : Value := VArr (VStr <$> l).

(** A string stands for the JavaScript string of which it is the UTF-8
    encoding. *)

(** The white space and line terminators of one byte: tab, line feed,
    vertical tab, form feed, carriage return, space. *)
Definition is_space (c : Ascii.ascii) : bool :=
  let n := Ascii.nat_of_ascii c in
  (Nat.eqb n 32 || Nat.eqb n 9 || Nat.eqb n 10 || Nat.eqb n 11
   || Nat.eqb n 12 || Nat.eqb n 13)%bool.

Definition byte (c : Ascii.ascii) (n : nat) : bool := Nat.eqb (Ascii.nat_of_ascii c) n.

(** U+00A0, the no-break space. *)
Definition is_space2 (a b : Ascii.ascii) : bool := (byte a 194 && byte b 160)%bool.

(** The white space and line terminators of three bytes: U+1680,
    U+2000 to U+200A, U+2028, U+2029, U+202F, U+205F, U+3000 and
    U+FEFF. *)
Definition is_space3 (a b c : Ascii.ascii) : bool :=
  let n := Ascii.nat_of_ascii c in
  (byte a 225 && byte b 154 && byte c 128
   || byte a 226 && byte b 128
      && (Nat.leb 128 n && Nat.leb n 138 || byte c 168 || byte c 169 || byte c 175)
   || byte a 226 && byte b 129 && byte c 159
   || byte a 227 && byte b 128 && byte c 128
   || byte a 239 && byte b 187 && byte c 191)%bool.

(** [!s.trim()]: [trim] strips the white space and the line terminators
    at both ends, so that nothing is left exactly when the string is
    made of these characters. *)
Fixpoint blank (s : string) : bool :=
  match s with
  | EmptyString => true
  | String a s1 =>
      if is_space a then blank s1 else
      match s1 with
      | EmptyString => false
      | String b s2 =>
          if is_space2 a b then blank s2 else
          match s2 with
          | EmptyString => false
          | String c s3 => (is_space3 a b c && blank s3)%bool
          end
      end
  end.

(** [s.startsWith(p)] *)
Fixpoint startsWith (p s : string) : bool :=
  match p, s with
  | EmptyString, _ => true
  | String a p', String b s' => (Ascii.eqb a b && startsWith p' s')%bool
  | String _ _, EmptyString => false
  end.

(** [s.includes(p)] *)
Fixpoint includes (p s : string) : bool :=
  (startsWith p s
   || match s with
      | EmptyString => false
      | String _ s' => includes p s'
      end)%bool.

End JS.
Export JS.

(* ===================================================================== *)
(** ** The agent registry ([src/data/agents.js]) *)
(* ===================================================================== *)

Record Agent := {
  id : string;
  name : string;
  (** [requiresPreviousAgent]: absent, one identifier, or an array. The
      readers normalise with [Array.isArray(x) ? x : [x]]. *)
  requiresPreviousAgent : option (list string)
}.

Definition agents : list Agent := [
  {| id := "longContextChunking"; name := "Transcript optimization";
     requiresPreviousAgent := None |};
  {| id := "jtbd"; name := "View Customers Primary Goal";
     requiresPreviousAgent := Some ["longContextChunking"] |};
  {| id := "jtbdGains"; name := "View Customers Desired Outcomes";
     requiresPreviousAgent := Some ["jtbd"] |};
  {| id := "painExtractor"; name := "Pain and Friction Analysis";
     requiresPreviousAgent := Some ["jtbdGains"] |};
  {| id := "problemAwareness"; name := "Problem Awareness Level";
     requiresPreviousAgent := Some ["painExtractor"] |};
  {| id := "needsAnalysis"; name := "Needs Analysis Agent";
     requiresPreviousAgent := Some ["longContextChunking"] |};
  {| id := "demandAnalyst"; name := "Demand Analyst";
     requiresPreviousAgent := Some ["needsAnalysis"] |};
  {| id := "opportunityQualification"; name := "Opportunity Qualification Agent";
     requiresPreviousAgent := Some ["demandAnalyst"] |};
  {| id := "finalReport"; name := "Final Research Analysis Report";
     requiresPreviousAgent := Some ["problemAwareness"] |}
].

(** [registry.find(a => a.id === agentId)] *)
Definition find_agent (registry : list Agent) (agentId : string) : option Agent :=
  List.find (fun a => String.eqb (id a) agentId) registry.

(** The declared prerequisites of an agent; none for an identifier the
    registry does not know. *)
Definition prerequisites (registry : list Agent) (agentId : string) : list string :=
  default [] (find_agent registry agentId ≫= requiresPreviousAgent).

(** [AGENT_SEQUENCE] of the Opportunity Evaluation page. *)
Definition AGENT_SEQUENCE : list string :=
  ["longContextChunking"; "needsAnalysis"; "demandAnalyst";
   "opportunityQualification"; "finalReport"].

(** [visibleAgentSequence] of [runNextAgentInSequence]. *)
Definition visibleAgentSequence : list string :=
  ["needsAnalysis"; "demandAnalyst"; "opportunityQualification"; "finalReport"].

(* ===================================================================== *)
(** ** Session state of the Opportunity Evaluation page *)
(* ===================================================================== *)

(** What the component makes observable: toasts, the console lines that
    mark the start of an agent, calls to the chunking collaborator and the
    page reload. *)
Inductive Event : Type :=
| ToastError (msg : string)
| ToastSuccess (msg : string)
| ToastInfo (msg : string)
| StartingAgent (agentId : string)      (* the loop of startAnalysisSequence *)
| ProcessWithAgent (agentId : string)   (* entry of processWithAgent *)
| Running (agentId : string)            (* processWithAgent marks the agent as analyzing *)
| ChunkingCall (content : string)       (* processWithLongContextChunking *)
| Reload.                               (* window.location.reload() *)

(** The state variables of the component, with the local-storage key of
    those declared through [useLocalStorage]. [isProcessing] and
    [currentAnalysisIndex] are declared but never written and are left
    out. *)
#[projections(primitive)]
Record State := {
  transcript : string;                           (* 'opportunityTranscript' *)
  analyzingAgentsArray : list string;            (* 'opportunityAnalyzingAgents' *)
  analyzingAgents : gset string;                 (* useState, a Set *)
  hasAnalyzed : bool;                            (* 'opportunityHasAnalyzed' *)
  localAnalysisResults : gmap string Value;      (* 'opportunityResults' *)
  agentProgress : gmap string Value;             (* 'opportunityAgentProgress' *)
  showResult : option string;                    (* 'opportunityShowResult' *)
  userHasSelectedView : bool;                    (* 'opportunityUserSelectedView' *)
  apiKey : string;                               (* 'llmApiKey', read only *)
  currentAgent : option string;                  (* useState *)
  lastViewedResult : option string;              (* 'lastViewedOpportunityResult' *)
  isOptimizingTranscript : bool;                 (* 'opportunityIsOptimizing' *)
  optimizationProgress : Z;                      (* 'opportunityOptimizationProgress' *)
  finishedAgentsArray : list string;             (* 'opportunityFinishedAgents' *)
  finishedAgents : gset string;                  (* useState, a Set *)
  isSequenceRunning : bool;                      (* 'opportunityIsSequenceRunning' *)
  longContextResults : Value;                    (* 'opportunityLongContextResults' *)
  jtbdAnalysis : Value;                          (* 'opportunityJtbdAnalysis' *)
  gainAnalysis : Value;                          (* 'opportunityGainAnalysis' *)
  previousTranscriptRef : string;                (* useRef *)
  currentRunningAgent : option string;           (* 'opportunityCurrentAgent' *)
  localStorage : gmap string string;             (* window.localStorage *)
  trace : list Event                             (* toasts, console lines, calls: newest first *)
}.

Definition with_transcript (v : string) (s : State) : State :=
  let 'Build_State _ x1 x2 x3 x4 x5 x6 x7 x8 x9 x10 x11 x12 x13 x14 x15 x16
    x17 x18 x19 x20 x21 x22 := s in
  Build_State v x1 x2 x3 x4 x5 x6 x7 x8 x9 x10 x11 x12 x13 x14 x15 x16 x17 x18
    x19 x20 x21 x22.
Definition with_analyzingAgentsArray (v : list string) (s : State) : State :=
  let 'Build_State x0 _ x2 x3 x4 x5 x6 x7 x8 x9 x10 x11 x12 x13 x14 x15 x16
    x17 x18 x19 x20 x21 x22 := s in
  Build_State x0 v x2 x3 x4 x5 x6 x7 x8 x9 x10 x11 x12 x13 x14 x15 x16 x17 x18
    x19 x20 x21 x22.
Definition with_analyzingAgents (v : gset string) (s : State) : State :=
  let 'Build_State x0 x1 _ x3 x4 x5 x6 x7 x8 x9 x10 x11 x12 x13 x14 x15 x16
    x17 x18 x19 x20 x21 x22 := s in
  Build_State x0 x1 v x3 x4 x5 x6 x7 x8 x9 x10 x11 x12 x13 x14 x15 x16 x17 x18
    x19 x20 x21 x22.
Definition with_hasAnalyzed (v : bool) (s : State) : State :=
  let 'Build_State x0 x1 x2 _ x4 x5 x6 x7 x8 x9 x10 x11 x12 x13 x14 x15 x16
    x17 x18 x19 x20 x21 x22 := s in
  Build_State x0 x1 x2 v x4 x5 x6 x7 x8 x9 x10 x11 x12 x13 x14 x15 x16 x17 x18
    x19 x20 x21 x22.
Definition with_localAnalysisResults (v : gmap string Value) (s : State) : State :=
  let 'Build_State x0 x1 x2 x3 _ x5 x6 x7 x8 x9 x10 x11 x12 x13 x14 x15 x16
    x17 x18 x19 x20 x21 x22 := s in
  Build_State x0 x1 x2 x3 v x5 x6 x7 x8 x9 x10 x11 x12 x13 x14 x15 x16 x17 x18
    x19 x20 x21 x22.
Definition with_agentProgress (v : gmap string Value) (s : State) : State :=
  let 'Build_State x0 x1 x2 x3 x4 _ x6 x7 x8 x9 x10 x11 x12 x13 x14 x15 x16
    x17 x18 x19 x20 x21 x22 := s in
  Build_State x0 x1 x2 x3 x4 v x6 x7 x8 x9 x10 x11 x12 x13 x14 x15 x16 x17 x18
    x19 x20 x21 x22.
Definition with_showResult (v : option string) (s : State) : State :=
  let 'Build_State x0 x1 x2 x3 x4 x5 _ x7 x8 x9 x10 x11 x12 x13 x14 x15 x16
    x17 x18 x19 x20 x21 x22 := s in
  Build_State x0 x1 x2 x3 x4 x5 v x7 x8 x9 x10 x11 x12 x13 x14 x15 x16 x17 x18
    x19 x20 x21 x22.
Definition with_userHasSelectedView (v : bool) (s : State) : State :=
  let 'Build_State x0 x1 x2 x3 x4 x5 x6 _ x8 x9 x10 x11 x12 x13 x14 x15 x16
    x17 x18 x19 x20 x21 x22 := s in
  Build_State x0 x1 x2 x3 x4 x5 x6 v x8 x9 x10 x11 x12 x13 x14 x15 x16 x17 x18
    x19 x20 x21 x22.
Definition with_apiKey (v : string) (s : State) : State :=
  let 'Build_State x0 x1 x2 x3 x4 x5 x6 x7 _ x9 x10 x11 x12 x13 x14 x15 x16
    x17 x18 x19 x20 x21 x22 := s in
  Build_State x0 x1 x2 x3 x4 x5 x6 x7 v x9 x10 x11 x12 x13 x14 x15 x16 x17 x18
    x19 x20 x21 x22.
Definition with_currentAgent (v : option string) (s : State) : State :=
  let 'Build_State x0 x1 x2 x3 x4 x5 x6 x7 x8 _ x10 x11 x12 x13 x14 x15 x16
    x17 x18 x19 x20 x21 x22 := s in
  Build_State x0 x1 x2 x3 x4 x5 x6 x7 x8 v x10 x11 x12 x13 x14 x15 x16 x17 x18
    x19 x20 x21 x22.
Definition with_lastViewedResult (v : option string) (s : State) : State :=
  let 'Build_State x0 x1 x2 x3 x4 x5 x6 x7 x8 x9 _ x11 x12 x13 x14 x15 x16 x17
    x18 x19 x20 x21 x22 := s in
  Build_State x0 x1 x2 x3 x4 x5 x6 x7 x8 x9 v x11 x12 x13 x14 x15 x16 x17 x18
    x19 x20 x21 x22.
Definition with_isOptimizingTranscript (v : bool) (s : State) : State :=
  let 'Build_State x0 x1 x2 x3 x4 x5 x6 x7 x8 x9 x10 _ x12 x13 x14 x15 x16 x17
    x18 x19 x20 x21 x22 := s in
  Build_State x0 x1 x2 x3 x4 x5 x6 x7 x8 x9 x10 v x12 x13 x14 x15 x16 x17 x18
    x19 x20 x21 x22.
Definition with_optimizationProgress (v : Z) (s : State) : State :=
  let 'Build_State x0 x1 x2 x3 x4 x5 x6 x7 x8 x9 x10 x11 _ x13 x14 x15 x16 x17
    x18 x19 x20 x21 x22 := s in
  Build_State x0 x1 x2 x3 x4 x5 x6 x7 x8 x9 x10 x11 v x13 x14 x15 x16 x17 x18
    x19 x20 x21 x22.
Definition with_finishedAgentsArray (v : list string) (s : State) : State :=
  let 'Build_State x0 x1 x2 x3 x4 x5 x6 x7 x8 x9 x10 x11 x12 _ x14 x15 x16 x17
    x18 x19 x20 x21 x22 := s in
  Build_State x0 x1 x2 x3 x4 x5 x6 x7 x8 x9 x10 x11 x12 v x14 x15 x16 x17 x18
    x19 x20 x21 x22.
Definition with_finishedAgents (v : gset string) (s : State) : State :=
  let 'Build_State x0 x1 x2 x3 x4 x5 x6 x7 x8 x9 x10 x11 x12 x13 _ x15 x16 x17
    x18 x19 x20 x21 x22 := s in
  Build_State x0 x1 x2 x3 x4 x5 x6 x7 x8 x9 x10 x11 x12 x13 v x15 x16 x17 x18
    x19 x20 x21 x22.
Definition with_isSequenceRunning (v : bool) (s : State) : State :=
  let 'Build_State x0 x1 x2 x3 x4 x5 x6 x7 x8 x9 x10 x11 x12 x13 x14 _ x16 x17
    x18 x19 x20 x21 x22 := s in
  Build_State x0 x1 x2 x3 x4 x5 x6 x7 x8 x9 x10 x11 x12 x13 x14 v x16 x17 x18
    x19 x20 x21 x22.
Definition with_longContextResults (v : Value) (s : State) : State :=
  let 'Build_State x0 x1 x2 x3 x4 x5 x6 x7 x8 x9 x10 x11 x12 x13 x14 x15 _ x17
    x18 x19 x20 x21 x22 := s in
  Build_State x0 x1 x2 x3 x4 x5 x6 x7 x8 x9 x10 x11 x12 x13 x14 x15 v x17 x18
    x19 x20 x21 x22.
Definition with_jtbdAnalysis (v : Value) (s : State) : State :=
  let 'Build_State x0 x1 x2 x3 x4 x5 x6 x7 x8 x9 x10 x11 x12 x13 x14 x15 x16 _
    x18 x19 x20 x21 x22 := s in
  Build_State x0 x1 x2 x3 x4 x5 x6 x7 x8 x9 x10 x11 x12 x13 x14 x15 x16 v x18
    x19 x20 x21 x22.
Definition with_gainAnalysis (v : Value) (s : State) : State :=
  let 'Build_State x0 x1 x2 x3 x4 x5 x6 x7 x8 x9 x10 x11 x12 x13 x14 x15 x16
    x17 _ x19 x20 x21 x22 := s in
  Build_State x0 x1 x2 x3 x4 x5 x6 x7 x8 x9 x10 x11 x12 x13 x14 x15 x16 x17 v
    x19 x20 x21 x22.
Definition with_previousTranscriptRef (v : string) (s : State) : State :=
  let 'Build_State x0 x1 x2 x3 x4 x5 x6 x7 x8 x9 x10 x11 x12 x13 x14 x15 x16
    x17 x18 _ x20 x21 x22 := s in
  Build_State x0 x1 x2 x3 x4 x5 x6 x7 x8 x9 x10 x11 x12 x13 x14 x15 x16 x17
    x18 v x20 x21 x22.
Definition with_currentRunningAgent (v : option string) (s : State) : State :=
  let 'Build_State x0 x1 x2 x3 x4 x5 x6 x7 x8 x9 x10 x11 x12 x13 x14 x15 x16
    x17 x18 x19 _ x21 x22 := s in
  Build_State x0 x1 x2 x3 x4 x5 x6 x7 x8 x9 x10 x11 x12 x13 x14 x15 x16 x17
    x18 x19 v x21 x22.
Definition with_localStorage (v : gmap string string) (s : State) : State :=
  let 'Build_State x0 x1 x2 x3 x4 x5 x6 x7 x8 x9 x10 x11 x12 x13 x14 x15 x16
    x17 x18 x19 x20 _ x22 := s in
  Build_State x0 x1 x2 x3 x4 x5 x6 x7 x8 x9 x10 x11 x12 x13 x14 x15 x16 x17
    x18 x19 x20 v x22.
Definition with_trace (v : list Event) (s : State) : State :=
  let 'Build_State x0 x1 x2 x3 x4 x5 x6 x7 x8 x9 x10 x11 x12 x13 x14 x15 x16
    x17 x18 x19 x20 x21 _ := s in
  Build_State x0 x1 x2 x3 x4 x5 x6 x7 x8 x9 x10 x11 x12 x13 x14 x15 x16 x17
    x18 x19 x20 x21 v.

(* ===================================================================== *)
(** ** The browser: JSON, the clock, local storage *)
(* ===================================================================== *)

(** The built-ins the component relies on. [JSON_parse] returns [None]
    where [JSON.parse] throws. [Date_now] stands for
    [new Date().toISOString()]: wall-clock time is outside the model, every
    read returns the same stamp. *)
Class Browser := {
  JSON_stringify : Value → string;
  JSON_parse : string → option Value;
  Date_now : string
}.

Definition Act : Type := State → State.

(** A timer chain: the callback of a [setTimeout], followed by the
    callbacks of the timers it sets in turn. *)
Definition Chain : Type := list Act.

(** One synchronous segment of an [async] function and the timers it
    sets; the function is suspended after each segment but the last.
    [reloads] tells that the segment also sets the timer of 500 ms whose
    callback is [window.location.reload()]. *)
Record Seg := { act : Act; timers : list Chain; reloads : bool }.
Definition Task : Type := list Seg.

Definition seg (a : Act) : Seg := {| act := a; timers := []; reloads := false |}.

(** [f] then [g]. *)
Definition andThen (f g : Act) : Act := λ s, g (f s).
Infix ">>" := andThen (at level 61, left associativity).

Definition emit (e : Event) : Act := λ s, with_trace (e :: trace s) s.
Definition when (b : bool) (a : Act) : Act := if b then a else (λ s, s).

(** The state of a first visit: every variable at its default. *)
Definition initial : State :=
  {| transcript := ""; analyzingAgentsArray := []; analyzingAgents := ∅;
     hasAnalyzed := false; localAnalysisResults := ∅; agentProgress := ∅;
     showResult := None; userHasSelectedView := false; apiKey := "";
     currentAgent := None; lastViewedResult := None;
     isOptimizingTranscript := false; optimizationProgress := 0;
     finishedAgentsArray := []; finishedAgents := ∅; isSequenceRunning := false;
     longContextResults := VObj []; jtbdAnalysis := VObj []; gainAnalysis := VObj [];
     previousTranscriptRef := ""; currentRunningAgent := None;
     localStorage := ∅; trace := [] |}.

Section Component.
Context `{Browser}.

(** *** Encodings of the state variables as JSON values *)

Definition enc_opt (o : option string) : Value :=
  match o with Some x => VStr x | None => VNull end.
Definition enc_obj (m : gmap string Value) : Value := VObj (map_to_list m).

Definition dec_str (v : Value) : option string :=
  match v with VStr x => Some x | _ => None end.
Definition dec_bool (v : Value) : option bool :=
  match v with VBool b => Some b | _ => None end.
Definition dec_num (v : Value) : option Z :=
  match v with VNum n => Some n | _ => None end.
Definition dec_opt (v : Value) : option (option string) :=
  match v with VStr x => Some (Some x) | VNull => Some None | _ => None end.
Definition dec_strs (v : Value) : option (list string) :=
  match v with VArr l => mapM dec_str l | _ => None end.
Definition dec_obj (v : Value) : option (gmap string Value) :=
  match v with VObj fs => Some (list_to_map fs) | _ => None end.

(** *** Local storage *)

Definition setItem (key : string) (v : Value) : Act :=
  λ s, with_localStorage (<[key := JSON_stringify v]> (localStorage s)) s.
Definition removeItem (key : string) : Act :=
  λ s, with_localStorage (delete key (localStorage s)) s.

(** Modelled from the spec: the [useLocalStorage] hook
    ([src/hooks/useLocalStorage], not among the sources). The spec has
    the store "survive a full page reload by mirroring into persistent
    local storage" through "a simple string-keyed get/set/remove
    interface": the initial value is the parsed stored item, or the
    default when the item is absent or does not parse; the setter
    updates the state and writes the serialised value under the key. *)
Definition useLocalStorage_init {A} (key : string) (dec : Value → option A)
    (dflt : A) (store : gmap string string) : A :=
  match store !! key with
  | Some text => default dflt (JSON_parse text ≫= dec)
  | None => dflt
  end.

(** *** Setters *)

Definition setTranscript (v : string) : Act :=
  with_transcript v >> setItem "opportunityTranscript" (VStr v).
Definition setAnalyzingAgentsArray (v : list string) : Act :=
  with_analyzingAgentsArray v >> setItem "opportunityAnalyzingAgents" (strs v).
Definition setAnalyzingAgents (f : gset string → gset string) : Act :=
  λ s, with_analyzingAgents (f (analyzingAgents s)) s.
Definition setHasAnalyzed (v : bool) : Act :=
  with_hasAnalyzed v >> setItem "opportunityHasAnalyzed" (VBool v).
Definition setLocalAnalysisResults
    (f : gmap string Value → gmap string Value) : Act :=
  λ s, let v := f (localAnalysisResults s) in
       setItem "opportunityResults" (enc_obj v) (with_localAnalysisResults v s).
Definition setAgentProgress
    (f : gmap string Value → gmap string Value) : Act :=
  λ s, let v := f (agentProgress s) in
       setItem "opportunityAgentProgress" (enc_obj v) (with_agentProgress v s).
Definition setShowResult (v : option string) : Act :=
  with_showResult v >> setItem "opportunityShowResult" (enc_opt v).
Definition setUserHasSelectedView (v : bool) : Act :=
  with_userHasSelectedView v >> setItem "opportunityUserSelectedView" (VBool v).
Definition setCurrentAgent (v : option string) : Act := with_currentAgent v.
Definition setLastViewedResult (v : option string) : Act :=
  with_lastViewedResult v >> setItem "lastViewedOpportunityResult" (enc_opt v).
Definition setIsOptimizingTranscript (v : bool) : Act :=
  with_isOptimizingTranscript v >> setItem "opportunityIsOptimizing" (VBool v).
Definition setOptimizationProgress (v : Z) : Act :=
  with_optimizationProgress v >> setItem "opportunityOptimizationProgress" (VNum v).
Definition setFinishedAgentsArray (f : list string → list string) : Act :=
  λ s, let v := f (finishedAgentsArray s) in
       setItem "opportunityFinishedAgents" (strs v) (with_finishedAgentsArray v s).
Definition setFinishedAgents (f : gset string → gset string) : Act :=
  λ s, with_finishedAgents (f (finishedAgents s)) s.
Definition setIsSequenceRunning (v : bool) : Act :=
  with_isSequenceRunning v >> setItem "opportunityIsSequenceRunning" (VBool v).
Definition setLongContextResults (v : Value) : Act :=
  with_longContextResults v >> setItem "opportunityLongContextResults" v.
Definition setJtbdAnalysis (v : Value) : Act :=
  with_jtbdAnalysis v >> setItem "opportunityJtbdAnalysis" v.
Definition setGainAnalysis (v : Value) : Act :=
  with_gainAnalysis v >> setItem "opportunityGainAnalysis" v.
Definition setCurrentRunningAgent (v : option string) : Act :=
  with_currentRunningAgent v >> setItem "opportunityCurrentAgent" (enc_opt v).

(** *** Mounting the component: every state variable from its initial
    value *)
Definition mount (store : gmap string string) : State :=
  let analyzingArr :=
    useLocalStorage_init "opportunityAnalyzingAgents" dec_strs [] store in
  let finishedArr :=
    useLocalStorage_init "opportunityFinishedAgents" dec_strs [] store in
  {| transcript := useLocalStorage_init "opportunityTranscript" dec_str "" store;
     analyzingAgentsArray := analyzingArr;
     analyzingAgents := list_to_set analyzingArr;
     hasAnalyzed := useLocalStorage_init "opportunityHasAnalyzed" dec_bool false store;
     localAnalysisResults := useLocalStorage_init "opportunityResults" dec_obj ∅ store;
     agentProgress := useLocalStorage_init "opportunityAgentProgress" dec_obj ∅ store;
     showResult := useLocalStorage_init "opportunityShowResult" dec_opt None store;
     userHasSelectedView :=
       useLocalStorage_init "opportunityUserSelectedView" dec_bool false store;
     apiKey := useLocalStorage_init "llmApiKey" dec_str "" store;
     currentAgent := None;
     lastViewedResult :=
       useLocalStorage_init "lastViewedOpportunityResult" dec_opt None store;
     isOptimizingTranscript :=
       useLocalStorage_init "opportunityIsOptimizing" dec_bool false store;
     optimizationProgress :=
       useLocalStorage_init "opportunityOptimizationProgress" dec_num 0 store;
     finishedAgentsArray := finishedArr;
     finishedAgents := list_to_set finishedArr;
     isSequenceRunning :=
       useLocalStorage_init "opportunityIsSequenceRunning" dec_bool false store;
     longContextResults :=
       useLocalStorage_init "opportunityLongContextResults" Some (VObj []) store;
     jtbdAnalysis := useLocalStorage_init "opportunityJtbdAnalysis" Some (VObj []) store;
     gainAnalysis := useLocalStorage_init "opportunityGainAnalysis" Some (VObj []) store;
     previousTranscriptRef := "";
     currentRunningAgent :=
       useLocalStorage_init "opportunityCurrentAgent" dec_opt None store;
     localStorage := store;
     trace := [] |}.

(** The two effects that mirror the Sets into their stored arrays. The
    comparison is on the serialised arrays. *)
Definition storedArray (key : string) (s : State) : option Value :=
  match localStorage s !! key with
  | Some text => if String.eqb text "" then Some (VArr []) else JSON_parse text
  | None => Some (VArr [])
  end.

Definition syncAnalyzingAgents : Act := λ s,
  let currentArray := elements (analyzingAgents s) in
  match storedArray "opportunityAnalyzingAgents" s with
  | Some stored =>
      if String.eqb (JSON_stringify (strs currentArray)) (JSON_stringify stored)
      then s else setAnalyzingAgentsArray currentArray s
  | None => s
  end.

Definition syncFinishedAgents : Act := λ s,
  let currentArray := elements (finishedAgents s) in
  match storedArray "opportunityFinishedAgents" s with
  | Some stored =>
      if String.eqb (JSON_stringify (strs currentArray)) (JSON_stringify stored)
      then s else setFinishedAgentsArray (λ _, currentArray) s
  | None => s
  end.

(** Writing the statuses and payloads of a session to the store: each
    through the setter of its variable, then the two mirror effects. *)
Definition persistSession : Act :=
  setLocalAnalysisResults (λ prev, prev)
  >> setAgentProgress (λ prev, prev)
  >> syncAnalyzingAgents
  >> syncFinishedAgents.

(** [isDone(agentId)] *)
Definition isDone (s : State) (agentId : string) : bool :=
  let hasResults := truthyO (localAnalysisResults s !! agentId) in
  let isFinished := bool_decide (agentId ∈ finishedAgents s) in
  if ((String.eqb agentId "needsAnalysis" || String.eqb agentId "demandAnalyst")
      && bool_decide (is_Some (localAnalysisResults s !! agentId)))%bool
  then true
  else (hasResults || isFinished)%bool.

End Component.

(* ===================================================================== *)
(** ** The handlers of the Opportunity Evaluation page *)
(* ===================================================================== *)

Definition merge (a b : Seg) : Seg :=
  {| act := act a >> act b; timers := timers a ++ timers b;
     reloads := reloads a || reloads b |}.

(** [await f()]: the first segment of the callee runs in the caller's
    current segment, and the caller resumes in the callee's last one. *)
Fixpoint tseq (t1 t2 : Task) : Task :=
  match t1 with
  | [] => t2
  | a :: t1' =>
      match t1' with
      | [] => match t2 with [] => [a] | b :: t2' => merge a b :: t2' end
      | _ :: _ => a :: tseq t1' t2
      end
  end.

(** [array.findIndex(p)] *)
Fixpoint findIndex {A} (p : A → bool) (l : list A) : option nat :=
  match l with
  | [] => None
  | x :: l' => if p x then Some 0%nat else S <$> findIndex p l'
  end.

(** [completedAgents.has(agentId)], with
    [completedAgents = new Set(Object.keys(localAnalysisResults))]. *)
Definition completed (results : gmap string Value) (agentId : string) : bool :=
  bool_decide (is_Some (results !! agentId)).

(** [localAnalysisResults[id]] used as a condition. *)
Definition met (results : gmap string Value) (agentId : string) : bool :=
  truthyO (results !! agentId).

(** What one call of [runNextAgentInSequence] decides to do. *)
Inductive NextAction : Type :=
| NotRunning                          (* the captured flag is off: return *)
| AllDone                             (* nextAgentIndex === -1 *)
| RunNext (nextAgentId : string)      (* processWithAgent(nextAgentId, ...) *)
| RunPrerequisite (missingId : string)(* processWithAgent(missingId, ...) *)
| Blocked (agentName : string).       (* "Cannot run ..." and the flag is cleared *)

(** The test on a missing prerequisite: it has no prerequisites of its
    own, or all of them have results. *)
Definition canRun (registry : list Agent) (results : gmap string Value)
    (missingId : string) : bool :=
  match find_agent registry missingId ≫= requiresPreviousAgent with
  | None => true
  | Some ids => forallb (met results) ids
  end.

Definition nextAction (registry : list Agent) (cap : State) : NextAction :=
  if negb (isSequenceRunning cap) then NotRunning else
  let results := localAnalysisResults cap in
  let nextAgentIndex :=
    findIndex (λ agentId, negb (completed results agentId)) visibleAgentSequence in
  let nextAgentIndex :=
    match nextAgentIndex with
    | Some 0%nat => if completed results "needsAnalysis" then Some 1%nat else Some 0%nat
    | other => other
    end in
  match nextAgentIndex ≫= (λ i, visibleAgentSequence !! i) with
  | None => AllDone
  | Some nextAgentId =>
      let agentInfo := find_agent registry nextAgentId in
      match agentInfo ≫= requiresPreviousAgent with
      | None => RunNext nextAgentId
      | Some prerequisiteIds =>
          if forallb (met results) prerequisiteIds then RunNext nextAgentId
          else
            let missingPrerequisites :=
              List.filter (λ i, negb (met results i)) prerequisiteIds in
            match List.find (canRun registry results) missingPrerequisites with
            | Some missingId => RunPrerequisite missingId
            | None => Blocked (default "" (name <$> agentInfo))
            end
      end
  end.

(** The agent a call of [runNextAgentInSequence] hands to
    [processWithAgent], if any. *)
Definition nextRunnable (registry : list Agent) (cap : State) : option string :=
  match nextAction registry cap with
  | RunNext a | RunPrerequisite a => Some a
  | NotRunning | AllDone | Blocked _ => None
  end.

(** The first agent of the visible sequence without a stored result. *)
Definition candidate (results : gmap string Value) : option string :=
  List.find (λ agentId, negb (completed results agentId)) visibleAgentSequence.

(** Every declared prerequisite of the agent has a result that passes the
    check [localAnalysisResults[id]]. *)
Definition gated (registry : list Agent) (results : gmap string Value)
    (agentId : string) : bool :=
  forallb (met results) (prerequisites registry agentId).

(** Modelled on the spec's [nextRunnable]: "scans the registry in declared
    order; returns the first agent whose AgentRun is not success and whose
    prerequisites are all success". *)
Definition spec_nextRunnable (registry : list Agent) (results : gmap string Value)
    : option string :=
  id <$> List.find (λ a, negb (met results (id a)) && gated registry results (id a))
                   registry.

(** The selection the code makes, spelled out: the candidate when its
    prerequisites have results, else the first of its prerequisites that
    has no result and whose own prerequisites have. *)
Definition selection (registry : list Agent) (results : gmap string Value)
    : option string :=
  c ← candidate results;
  if gated registry results c then Some c
  else List.find (λ m, negb (met results m) && gated registry results m)
                 (prerequisites registry c).

Section Handlers.
Context `{Browser}.

(** [updateAgentProgress(agentId, progress, status = 'loading', error = null)] *)
Definition updateAgentProgress (agentId : string) (progress : Z)
    (status : string) (error : option string) : Act :=
  setAgentProgress (λ prev,
    <[agentId := VObj [("progress", VNum progress); ("status", VStr status);
                       ("error", enc_opt error); ("timestamp", VStr Date_now)]]> prev).

(** [cleanupAgentState(agentId)]: a 300 ms timer whose callback may set a
    100 ms timer. The inner callback reads the size of the analyzing set
    from a DOM attribute ([data-analyzing-agents]) that no element of the
    page carries, so it always reads ['0']. *)
Definition cleanupAgentState (cap : State) (agentId : string) : Chain :=
  let results := localAnalysisResults cap in
  let hasResults := negb (bool_decide (results = ∅)) in
  let lastAgent :=
    if met results "opportunityQualification" then Some "opportunityQualification"
    else if met results "demandAnalyst" then Some "demandAnalyst"
    else if met results "needsAnalysis" then Some "needsAnalysis"
    else None in
  let after300 : Act :=
    setAnalyzingAgents (λ prev, prev ∖ {[agentId]})
    >> when (bool_decide (currentRunningAgent cap = Some agentId))
            (setCurrentRunningAgent None)
    >> when hasResults (setHasAnalyzed true) in
  let after100 : Act :=
    when (negb (userHasSelectedView cap))
         (match lastAgent with
          | Some a => setShowResult (Some a)
          | None => λ s, s
          end) in
  if hasResults then [after300; after100] else [after300].

(** The data [processWithAgent] produces for an agent (its "test mode"
    switch). *)
Definition testResult (agentId : string) : Value :=
  if String.eqb agentId "longContextChunking" then
    VObj [("chunks", strs ["Dummy Chunk 1"; "Dummy Chunk 2"; "Dummy Chunk 3"]);
          ("summary", VStr "This is a test summary of the chunked transcript")]
  else if String.eqb agentId "needsAnalysis" then
    VObj [("immediateNeeds", strs ["Need better UI"; "Need faster response times"]);
          ("latentNeeds", strs ["Future scalability"; "Integration with other tools"]);
          ("urgencyAssessment", VObj [("overall", VStr "High")]);
          ("summary", VStr "Test needs analysis summary with dummy data");
          ("stakeholders", strs ["Product Manager"; "End Users"])]
  else if String.eqb agentId "demandAnalyst" then
    VObj [("demandLevel", VNum 2); ("confidence", VNum 80);
          ("summary", VStr "Test demand analysis with dummy data");
          ("indicators",
            VObj [("level1", strs ["Indicator 1"; "Indicator 2"]);
                  ("level2", strs ["Indicator 3"; "Indicator 4"]);
                  ("level3", strs ["Indicator 5"; "Indicator 6"])])]
  else if String.eqb agentId "opportunityQualification" then
    VObj [("qualified", VBool true); ("score", VNum 85);
          ("factors",
            VObj [("problemExperience", VStr "Strong evidence of problem experience");
                  ("activeSearch", VStr "Currently evaluating solutions");
                  ("problemFit", VStr "High alignment with our solution capabilities")]);
          ("overallAssessment", VStr "Strong Opportunity");
          ("summary", VStr "Test opportunity qualification with dummy data")]
  else if String.eqb agentId "finalReport" then
    VObj [("summary", VStr "Test final report summary");
          ("recommendations", strs ["Recommendation 1"; "Recommendation 2"]);
          ("reportUrl", VStr "#test-report")]
  else
    VObj [("summary", VStr ("Test data for " ++ agentId));
          ("completed", VBool true); ("timestamp", VStr Date_now)].

(** [!apiKey && agentId !== 'longContextChunking'] *)
Definition keyMissing (cap : State) (agentId : string) : bool :=
  (String.eqb (apiKey cap) "" && negb (String.eqb agentId "longContextChunking"))%bool.

Definition is100 (o : option Value) : bool :=
  match o with Some (VNum 100) => true | _ => false end.

(** [processWithAgent(agentId, content, previousResults)]. Neither
    argument after [agentId] is read. With a non-empty key the
    construction of the OpenAI client does not throw, and the checks on
    the imported functions always pass, so the [catch] is not reached. *)
Definition processWithAgent (cap : State) (agentId : string) : Task :=
  if keyMissing cap agentId then
    [ {| act := emit (ProcessWithAgent agentId)
                >> emit (ToastError "API key is missing. Please add it in Settings.");
         timers := [cleanupAgentState cap agentId]; reloads := false |} ]
  else
    let result := testResult agentId in
    let isChunking := String.eqb agentId "longContextChunking" in
    let needsOrDemand :=
      (String.eqb agentId "needsAnalysis" || String.eqb agentId "demandAnalyst")%bool in
    [ seg (emit (ProcessWithAgent agentId)
           >> setAnalyzingAgents (λ prev, prev ∪ {[agentId]})
           >> emit (Running agentId)
           >> setCurrentRunningAgent (Some agentId)
           >> updateAgentProgress agentId 0 "loading" None
           >> updateAgentProgress agentId 0 "loading" None);
      seg (updateAgentProgress agentId 25 "loading" None);
      seg (updateAgentProgress agentId 50 "loading" None);
      seg (updateAgentProgress agentId 75 "loading" None);
      {| act := when isChunking (setLongContextResults result)
                >> setLocalAnalysisResults (λ prev, <[agentId := result]> prev)
                >> updateAgentProgress agentId 100 "success" None
                >> setLocalAnalysisResults (λ prev,
                     if met prev agentId then prev else <[agentId := result]> prev)
                >> setAgentProgress (λ prev,
                     if is100 (prev !! agentId) then <[agentId := VNum 0]> prev else prev);
         timers :=
           (if needsOrDemand then
              [[ setHasAnalyzed true
                 >> when (negb (userHasSelectedView cap)
                          && (bool_decide (showResult cap = None)
                              || bool_decide (showResult cap = Some "longContextChunking")))
                         (setShowResult (Some agentId)) ]]
            else [])
           (* after 500 ms: the result is truthy, nothing is cleaned up *)
           ++ [[ λ s, s ]];
         reloads := false |} ].

(** What [processWithAgent] resolves to; [None] is [null]. *)
Definition processWithAgent_result (cap : State) (agentId : string) : option Value :=
  if keyMissing cap agentId then None else Some (testResult agentId).

(** [runNextAgentInSequence()]. The function re-invokes itself through
    the binding of the render it was created in, hence with the same
    captured state; [fuel] bounds how many of these re-invocations are
    unfolded. *)
Fixpoint runNextAgentInSequence (fuel : nat) (cap : State) : Task :=
  let results := localAnalysisResults cap in
  let again : Task :=
    match fuel with
    | O => []
    | S fuel' => runNextAgentInSequence fuel' cap
    end in
  let guards : Act :=
    when (bool_decide (showResult cap = Some "longContextChunking")) (setShowResult None)
    >> when (completed results "longContextChunking"
             && bool_decide (currentRunningAgent cap = Some "longContextChunking"))
            (setShowResult None) in
  let ending : Act :=
    setHasAnalyzed true
    >> when (bool_decide (showResult cap = None) && negb (userHasSelectedView cap))
            (if met results "opportunityQualification"
             then setShowResult (Some "opportunityQualification")
             else when (met results "needsAnalysis") (setShowResult (Some "needsAnalysis"))) in
  match nextAction agents cap with
  | NotRunning => [seg (λ s, s)]
  | AllDone => [seg (guards >> setIsSequenceRunning false)]
  | Blocked agentName =>
      [seg (guards
            >> emit (ToastError ("Cannot run " ++ agentName
                                 ++ ". Missing required prerequisite analyses."))
            >> setIsSequenceRunning false)]
  | RunPrerequisite missingId =>
      tseq (tseq [seg guards] (processWithAgent cap missingId))
           (if isSequenceRunning cap then again else [])
  | RunNext nextAgentId =>
      (* 800 ms before, 500 ms after *)
      seg guards :: processWithAgent cap nextAgentId
      ++ (if isSequenceRunning cap then again else [seg ending])
  end.

(** [handleRunSingleAgent(agentId)] *)
Definition handleRunSingleAgent (cap : State) (agentId : string) : Task :=
  if String.eqb (transcript cap) "" then
    [seg (emit (ToastError "Please upload or enter a transcript before running analysis."))]
  else
    let agentInfo := find_agent agents agentId in
    let missingPrerequisites :=
      List.filter (λ i, negb (met (localAnalysisResults cap) i))
                  (default [] (agentInfo ≫= requiresPreviousAgent)) in
    match missingPrerequisites with
    | _ :: _ =>
        let missingNames :=
          String.concat ", "
            ((λ i, default i (name <$> find_agent agents i)) <$> missingPrerequisites) in
        [seg (emit (ToastError (default "" (name <$> agentInfo) ++ " requires "
                                ++ missingNames ++ " to be run first.")))]
    | [] => processWithAgent cap agentId
    end.

(** [stopAnalysisSequence()] *)
Definition stopAnalysisSequence : Act :=
  setIsSequenceRunning false >> emit (ToastInfo "Analysis sequence stopped.").

(** [handleContentChange(content)] *)
Definition handleContentChange (content : string) : Act :=
  setAnalyzingAgents (λ _, ∅)
  >> setAgentProgress (λ _, ∅)
  >> setLocalAnalysisResults (λ _, ∅)
  >> setCurrentAgent None
  >> setHasAnalyzed false
  >> setTranscript content.

(** The keys [handleReset] removes. *)
Definition resetKeys : list string :=
  ["opportunityTranscript"; "opportunityAnalyzingAgents"; "opportunityHasAnalyzed";
   "opportunityResults"; "opportunityAgentProgress"; "opportunityShowResult";
   "opportunityUserSelectedView"; "lastViewedOpportunityResult";
   "opportunityIsOptimizing"; "opportunityOptimizationProgress";
   "opportunityFinishedAgents"; "opportunityIsSequenceRunning";
   "opportunityLongContextResults"; "opportunityJtbdAnalysis";
   "opportunityGainAnalysis"; "opportunityCurrentAgent"].

Definition removeItems (keys : list string) : Act :=
  λ s, fold_left (λ s k, removeItem k s) keys s.

(** [handleReset()]; [confirmed] is the answer to [window.confirm]:
    what the handler writes. The timer it sets last, which reloads the
    page 500 ms later, is in [handler]. *)
Definition handleReset (confirmed : bool) : Act :=
  when confirmed
    (setTranscript ""
     >> setAnalyzingAgents (λ _, ∅)
     >> setAnalyzingAgentsArray []
     >> setHasAnalyzed false
     >> setLongContextResults (VObj [])
     >> setJtbdAnalysis (VObj [])
     >> setGainAnalysis (VObj [])
     >> setLocalAnalysisResults (λ _, ∅)
     >> setAgentProgress (λ _, ∅)
     >> setShowResult None
     >> setLastViewedResult None
     >> setUserHasSelectedView false
     >> setCurrentRunningAgent None
     >> setIsSequenceRunning false
     >> setIsOptimizingTranscript false
     >> setOptimizationProgress 0
     >> with_previousTranscriptRef ""
     >> setFinishedAgents (λ _, ∅)
     >> setFinishedAgentsArray (λ _, [])
     >> removeItems resetKeys
     >> emit (ToastSuccess "Analysis reset successfully")).

(** [window.location.reload()]: the component is mounted again from
    what local storage holds. *)
Definition reload : Act :=
  λ s, with_trace (Reload :: trace s) (mount (localStorage s)).

(** [handleViewResult(agentId)]. Serialising a value the state holds
    does not throw; a stored text that does not parse is skipped by the
    [catch]. *)
Definition handleViewResult (cap : State) (agentId : string) : Act :=
  (match showResult cap with
   | Some shown =>
       match localAnalysisResults cap !! shown with
       | Some v => when (truthy v) (setItem ("analysisResult_" ++ shown) v)
       | None => λ s, s
       end
   | None => λ s, s
   end)
  >> (λ s,
       match localStorage s !! ("analysisResult_" ++ agentId) with
       | Some savedResults =>
           if String.eqb savedResults "" then s
           else match JSON_parse savedResults with
                | Some parsedResults =>
                    setLocalAnalysisResults (λ prev, <[agentId := parsedResults]> prev) s
                | None => s
                end
       | None => s
       end)
  >> setShowResult (Some agentId)
  >> setUserHasSelectedView true.

End Handlers.

(* ===================================================================== *)
(** ** [startAnalysisSequence] *)
(* ===================================================================== *)

(** What [processWithLongContextChunking] ([src/utils/longContextChunkingAgent],
    not among the sources) hands back: the properties the caller reads. *)
Record ChunkResult := {
  finalSummary : Value;
  chunks : Value;
  chunkSummaries : Value;
  sectionSummaries : Value;
  metadata : Value
}.

(** How the call to the chunking collaborator ends, after the progress
    values it reported through its callback. *)
Inductive ChunkOutcome : Type :=
| Resolved (reports : list Z) (result : ChunkResult)
| Rejected (reports : list Z) (message : string).

Definition reports (o : ChunkOutcome) : list Z :=
  match o with Resolved r _ | Rejected r _ => r end.

Section Sequence.
Context `{Browser}.

Definition DEMAND_PROMPT : string := "
        You are a Demand Analyst. Your task is to analyze the buying cycle position across 3 demand levels:
        
        Level 1: Learning Demand (6-24 months)
        Level 2: Solution Demand (3-6 months)
        Level 3: Vendor Demand (1-3 months)
        
        Evaluate specific indicators for each level:
        Level 1: Info gathering, basic understanding
        Level 2: Pain points, budget discussions, implementation planning
        Level 3: Urgent needs, approved budget, vendor comparison
        
        Required Analysis Components:
        - Demand level determination (1-3)
        - Confidence score (0-100%)
        - Evidence from transcript
        - Indicators found at each level
        - Reasoning and gaps
        - Recommendations
        - Transcript quality assessment
        
        Output Format: JSON structure with:
        - demandLevel
        - confidenceScore
        - analysis (indicators for each level)
        - reasoning
        - recommendations
        - metadata
        
        Must be evidence-based, no assumptions allowed.
      ".

(** A property whose value may be [undefined] is kept only when it is
    defined, as [JSON.stringify] does. *)
Definition optional (k : string) (o : option Value) : list (string * Value) :=
  match o with Some v => [(k, v)] | None => [] end.

(** [createDemandAnalystResult(baseResult, transcriptSummary)] *)
Definition createDemandAnalystResult (baseResult : list (string * Value))
    (transcriptSummary : option Value) : Value :=
  VObj (spread baseResult
    ([("systemPrompt", VStr DEMAND_PROMPT)]
     ++ optional "processedTranscript" transcriptSummary
     ++ [("demandLevel", VNum 2);
         ("confidenceScore", VNum 75);
         ("analysis",
           VObj [("level1Indicators",
                   strs ["Information gathering about product features";
                         "Basic understanding of problem space"]);
                 ("level2Indicators",
                   strs ["Discussion of specific pain points";
                         "Preliminary budget considerations";
                         "Implementation timeline exploration"]);
                 ("level3Indicators", strs ["Comparing specific vendor offerings"])]);
         ("reasoning",
           VObj [("summary", VStr "Based on the transcript analysis, the prospect is primarily in Solution Demand (Level 2) with some indicators of Vendor Demand (Level 3). They have clearly identified pain points and are discussing implementation details, but have not yet finalized budget approval or created a formal vendor shortlist.");
                 ("gaps", strs ["No explicit budget approval mentioned";
                                "Timeline not firmly established"])]);
         ("recommendations",
           strs ["Focus on differentiating solution capabilities";
                 "Provide case studies of similar implementations";
                 "Offer a detailed implementation plan with timeline";
                 "Discuss ROI calculations to help with budget approval process"]);
         ("metadata",
           VObj [("transcriptQuality", VStr "Good");
                 ("confidenceFactors",
                   strs ["Clear pain point articulation";
                         "Multiple solution discussions";
                         "Some budget consideration"])])])).

Definition need (n u c e : string) : Value :=
  VObj [("need", VStr n); ("urgency", VStr u); ("context", VStr c); ("evidence", VStr e)].
Definition latent (n : string) (conf : Z) (r e : string) : Value :=
  VObj [("need", VStr n); ("confidence", VNum conf); ("rationale", VStr r);
        ("evidence", VStr e)].

(** [createNeedsAnalysisResult(baseResult, transcriptSummary)] *)
Definition createNeedsAnalysisResult (baseResult : list (string * Value))
    (transcriptSummary : option Value) : Value :=
  VObj (spread baseResult
    (optional "processedTranscript" transcriptSummary
     ++ [("immediateNeeds",
           VArr [need "Need to streamline customer onboarding process" "High"
                      "Current process is causing customer frustration and delays"
                      "Based on transcript analysis showing multiple mentions of onboarding friction";
                 need "Need for better technical documentation" "Medium"
                      "Users struggle to find answers to technical questions"
                      "Evidence from transcript showing confusion about product features"]);
         ("latentNeeds",
           VArr [latent "Need for more personalized customer support options" 85
                        "Customers expressing desire for more tailored assistance"
                        "Pattern of comments about generic support responses";
                 latent "Need for mobile-friendly interface improvements" 70
                        "Increasing mobile usage patterns suggest growing importance"
                        "Subtle references to mobile access challenges in transcript"]);
         ("urgencyAssessment", VObj [("overall", VStr "Medium-High")]);
         ("stakeholders", strs ["Product Team"; "Customer Support"; "Engineering"])])).

(** The result stored when the chunking call resolves. *)
Definition chunkingStored (r : ChunkResult) : Value :=
  VObj [("completed", VBool true); ("timestamp", VStr Date_now);
        ("summary", finalSummary r); ("chunks", chunks r);
        ("chunkSummaries", chunkSummaries r);
        ("sectionSummaries", sectionSummaries r);
        ("finalSummary", finalSummary r); ("metadata", metadata r)].

(** [fallbackResult], stored when it throws. *)
Definition fallbackResult (message : string) : Value :=
  VObj [("completed", VBool true); ("timestamp", VStr Date_now);
        ("summary", VStr ("Error optimizing transcript: " ++ message));
        ("chunks", VArr []); ("chunkSummaries", VArr []); ("sectionSummaries", VArr []);
        ("finalSummary", VStr ("Failed to process transcript: " ++ message));
        ("error", VStr message)].

(** [dummyResult] for an agent. The results it consults are those of
    the render the callback was created in. *)
Definition dummyResult (cap : State) (agentId : string) : Value :=
  let base := [("completed", VBool true); ("timestamp", VStr Date_now);
               ("summary", VStr ("Dummy result for " ++ agentId))] in
  let chunkingResults := localAnalysisResults cap !! "longContextChunking" in
  if String.eqb agentId "needsAnalysis" then
    if truthyO chunkingResults
    then createNeedsAnalysisResult base (chunkingResults ≫= prop "finalSummary")
    else createNeedsAnalysisResult base
           (Some (VStr "Using raw transcript as fallback due to missing chunking results"))
  else if String.eqb agentId "demandAnalyst" then
    let needsResults := localAnalysisResults cap !! "needsAnalysis" in
    let transcriptData :=
      if (truthyO chunkingResults && truthyO (chunkingResults ≫= prop "finalSummary"))%bool
      then chunkingResults ≫= prop "finalSummary"
      else if (truthyO needsResults
               && truthyO (needsResults ≫= prop "processedTranscript"))%bool
      then needsResults ≫= prop "processedTranscript"
      else Some (VStr (if String.eqb (transcript cap) ""
                       then "No transcript available" else transcript cap)) in
    createDemandAnalystResult base transcriptData
  else if String.eqb agentId "opportunityQualification" then
    VObj (spread base
      [("qualification", VStr "Qualified"); ("opportunityScore", VNum 75);
       ("reasons", VObj [("strengths", strs ["Sample strength"]);
                         ("weaknesses", strs ["Sample weakness"])])])
  else if String.eqb agentId "longContextChunking" then
    VObj (spread base
      [("chunks", strs ["Sample chunk 1"; "Sample chunk 2"]);
       ("chunkSummaries", strs ["Summary of chunk 1"; "Summary of chunk 2"])])
  else if String.eqb agentId "finalReport" then
    VObj (spread base
      [("sections",
         VArr [VObj [("title", VStr "Summary");
                     ("content", VStr "Sample report summary content")];
               VObj [("title", VStr "Analysis");
                     ("content", VStr "Sample analysis content")]])])
  else VObj base.

(** A progress record as the loop writes it. *)
Definition progressEntry (progress : Z) (status : string) : Value :=
  VObj [("progress", VNum progress); ("status", VStr status);
        ("timestamp", VStr Date_now)].

Definition setProgress (agentId : string) (progress : Z) (status : string) : Act :=
  setAgentProgress (λ prev, <[agentId := progressEntry progress status]> prev).

(** The loop body for one agent, cut at its [await]s. *)

(** Up to the first progress tick. *)
Definition enter (agentId : string) : Act :=
  (if negb (String.eqb agentId "longContextChunking") then
     setAnalyzingAgents (λ _, {[agentId]})
     >> setCurrentRunningAgent (Some agentId)
     >> setProgress agentId 15 "loading"
   else setCurrentRunningAgent (Some agentId))
  >> setProgress agentId 10 "loading"
  >> setProgress agentId 25 "loading".

(** After the last tick: the result is stored and shown. *)
Definition complete (cap : State) (agentId : string) : Act :=
  let result := dummyResult cap agentId in
  setLocalAnalysisResults (λ prev, <[agentId := result]> prev)
  >> setFinishedAgents (λ prev, prev ∪ {[agentId]})
  >> setProgress agentId 100 "success"
  >> when (negb (String.eqb agentId "longContextChunking"))
          (setItem ("analysisResult_" ++ agentId) result
           >> setShowResult (Some agentId)).

(** After the one-second wait. *)
Definition leave (agentId : string) : Act :=
  setAnalyzingAgents (λ prev, prev ∖ {[agentId]}).

(** The iterations for the agents after the first; [pending] is what
    is left of the previous iteration. *)
Fixpoint iterations (cap : State) (pending : Act) (rest : list string) : Task :=
  match rest with
  | [] =>
      [seg (pending
            >> setHasAnalyzed true
            >> emit (ToastSuccess "Analysis sequence completed successfully!")
            >> setIsSequenceRunning false)]
  | agentId :: rest' =>
      seg (pending >> emit (StartingAgent agentId) >> enter agentId)
      :: seg (setProgress agentId 50 "loading")
      :: seg (setProgress agentId 75 "loading")
      :: seg (setProgress agentId 100 "loading")
      :: seg (complete cap agentId)
      :: iterations cap (leave agentId) rest'
  end.

(** What follows the [try]/[catch] around the chunking call; [failed]
    selects the [catch]. *)
Definition chunkingDone (stored : Value) (failed : bool) : Act :=
  setLocalAnalysisResults (λ prev, <[ "longContextChunking" := stored ]> prev)
  >> when failed (setOptimizationProgress 100)
  >> setFinishedAgents (λ prev, prev ∪ {["longContextChunking"]})
  >> setOptimizationProgress 100.

(** The first statements of [startAnalysisSequence]. *)
Definition resetForSequence : Act :=
  setShowResult None
  >> setAnalyzingAgents (λ _, ∅)
  >> setLocalAnalysisResults (λ _, ∅)
  >> setAgentProgress (λ _, ∅)
  >> setHasAnalyzed false
  >> setIsSequenceRunning true.

(** The first iteration up to the end of the [try]/[catch] around the
    chunking call. A transcript of white space throws before the call
    is made. *)
Definition chunkingPhase (cap : State) (outcome : ChunkOutcome) : Task :=
  let begin : Act :=
    resetForSequence
    >> emit (StartingAgent "longContextChunking")
    >> setIsOptimizingTranscript true in
  if blank (transcript cap) then
    [seg (begin >> chunkingDone (fallbackResult "No transcript content to analyze") true)]
  else
    seg (begin >> setOptimizationProgress 5 >> emit (ChunkingCall (transcript cap)))
    :: (seg ∘ setOptimizationProgress <$> reports outcome)
    ++ [seg (match outcome with
             | Resolved _ r => chunkingDone (chunkingStored r) false
             | Rejected _ message => chunkingDone (fallbackResult message) true
             end)].

(** The rest of the first iteration and the four iterations after it. *)
Definition agentLoop (cap : State) : Task :=
  let first := "longContextChunking" in
  seg (setFinishedAgentsArray (λ prev, (prev ++ [first])%list)
       >> setIsOptimizingTranscript false
       >> enter first)
  :: seg (setProgress first 50 "loading")
  :: seg (setProgress first 75 "loading")
  :: seg (setProgress first 100 "loading")
  :: seg (complete cap first)
  :: iterations cap (leave first)
       ["needsAnalysis"; "demandAnalyst"; "opportunityQualification"; "finalReport"].

(** [startAnalysisSequence()]; [outcome] is how the chunking call ends
    if it is made. The loop does not read [isSequenceRunning]. Nothing
    in it throws, so the outer [catch] is not reached. *)
Definition startAnalysisSequence (cap : State) (outcome : ChunkOutcome) : Task :=
  if String.eqb (transcript cap) "" then
    [seg (emit (ToastError "Please upload or enter a transcript before running analysis."))]
  else (chunkingPhase cap outcome ++ agentLoop cap)%list.

(** [clearAllState()] *)
Definition clearAllState : Act :=
  removeItems
    ["opportunityResults"; "opportunityAgentProgress"; "opportunityTranscript";
     "opportunityAnalyzingAgents"; "opportunityHasAnalyzed"; "opportunityShowResult";
     "opportunityUserSelectedView"; "opportunityCurrentAgent"; "opportunityIsProcessing";
     "opportunityIsOptimizing"; "opportunityOptimizationProgress";
     "opportunityCurrentIndex"; "opportunityIsSequenceRunning";
     "opportunityFinishedAgents"; "lastViewedOpportunityResult";
     "opportunityLongContextResults"; "opportunityJtbdAnalysis";
     "opportunityGainAnalysis"; "opportunityCurrentAgent"]
  >> setLocalAnalysisResults (λ _, ∅)
  >> setAgentProgress (λ _, ∅)
  >> setTranscript ""
  >> setAnalyzingAgents (λ _, ∅)
  >> setAnalyzingAgentsArray []
  >> setHasAnalyzed false
  >> setShowResult None
  >> setLastViewedResult None
  >> setCurrentAgent None
  >> setCurrentRunningAgent None
  >> setIsSequenceRunning false
  >> setUserHasSelectedView false
  >> setIsOptimizingTranscript false
  >> setOptimizationProgress 0
  >> setFinishedAgents (λ _, ∅)
  >> setFinishedAgentsArray (λ _, [])
  >> setLongContextResults (VObj [])
  >> setJtbdAnalysis (VObj [])
  >> setGainAnalysis (VObj []).

(** The keys [handleClearData] removes after [clearAllState]. *)
Definition clearedKeys : list string :=
  ["opportunityFinishedAgents"; "lastViewedOpportunityResult";
   "opportunityLongContextResults"; "opportunityJtbdAnalysis";
   "opportunityGainAnalysis"].

(** [handleClearData()], the "Reset Evaluation" button: what the
    handler writes. It too sets the timer that reloads the page last,
    see [handler]. *)
Definition handleClearData : Act :=
  clearAllState
  >> setFinishedAgents (λ _, ∅)
  >> setFinishedAgentsArray (λ _, [])
  >> removeItems clearedKeys
  >> emit (ToastSuccess "All opportunity evaluation data has been reset.").

(** What the setters of [clearAllState] have written under the other
    keys of the session. *)
Definition clearedValues : list (string * Value) :=
  [("opportunityResults", enc_obj ∅); ("opportunityAgentProgress", enc_obj ∅);
   ("opportunityTranscript", VStr ""); ("opportunityAnalyzingAgents", strs []);
   ("opportunityHasAnalyzed", VBool false); ("opportunityShowResult", VNull);
   ("opportunityCurrentAgent", VNull); ("opportunityIsSequenceRunning", VBool false);
   ("opportunityUserSelectedView", VBool false);
   ("opportunityIsOptimizing", VBool false);
   ("opportunityOptimizationProgress", VNum 0)].

(** The writes of a task, from its first segment to its last, on a
    state that nothing else writes in between: neither another task nor
    the effects of the component (for these, see [step]). *)
Definition run (t : Task) : Act := λ s, fold_left (λ s sg, act sg s) t s.

(** The console lines of the loop for these agents, newest first. *)
Definition started (agentIds : list string) : list Event :=
  StartingAgent <$> rev agentIds.

End Sequence.

(* ===================================================================== *)
(** ** The effects of the Opportunity Evaluation page *)
(* ===================================================================== *)

(** The two refs the view effects keep between renders. *)
Record Refs := {
  sequenceCompletedRef : bool;
  contextChunkingFixedRef : bool
}.

(** The effects of the component that write to its state, in the order
    of their declaration. The two others (scrolling to the running agent
    and a debug log) write nothing. *)
Inductive Effect : Type :=
| MirrorAnalyzing      (* [analyzingAgents] into its stored array *)
| MirrorFinished       (* [finishedAgents] into its stored array *)
| AutoSelect           (* the first completed agent as the view *)
| StorePrevious        (* previousTranscriptRef.current = transcript *)
| SequenceHandling     (* the "sequential agent handling" *)
| ChunkingGuard.       (* the safeguard against showing longContextChunking *)

Section Effects.
Context `{Browser}.

(** The effect that shows the first completed agent while the user has
    not chosen a view. As for the handlers, [cap] is the render the
    effect runs in, and the writes go to the live state. *)
Definition autoSelectView (cap : State) : Act :=
  if (negb (userHasSelectedView cap) && hasAnalyzed cap)%bool then
    match List.find (met (localAnalysisResults cap)) AGENT_SEQUENCE with
    | Some agentId => setShowResult (Some agentId)
    | None => λ s, s
    end
  else λ s, s.

(** The "sequential agent handling" effect. *)
Definition sequenceEffect (refs : Refs) (cap : State) : Refs * Act :=
  let results := localAnalysisResults cap in
  if sequenceCompletedRef refs then (refs, λ s, s)
  else if bool_decide (results = ∅) then (refs, λ s, s)
  else
    let marked : Act :=
      when (met results "needsAnalysis" || met results "demandAnalyst"
            || met results "opportunityQualification")
           (setHasAnalyzed true) in
    let refs' :=
      if (negb (isSequenceRunning cap) && (size (analyzingAgents cap) =? 0)%nat)%bool
      then {| sequenceCompletedRef := true;
              contextChunkingFixedRef := contextChunkingFixedRef refs |}
      else refs in
    let shown : Act :=
      when (bool_decide (showResult cap = None) && negb (userHasSelectedView cap))
           (match List.find (met results) (rev visibleAgentSequence) with
            | Some agentId => setShowResult (Some agentId)
            | None => λ s, s
            end) in
    (refs', marked >> shown).

(** The safeguard against showing longContextChunking. *)
Definition chunkingViewGuard (refs : Refs) (cap : State) : Refs * Act :=
  if (negb (bool_decide (showResult cap = Some "longContextChunking"))
      || contextChunkingFixedRef refs)%bool
  then (refs, λ s, s)
  else
    ({| sequenceCompletedRef := sequenceCompletedRef refs;
        contextChunkingFixedRef := true |},
     match List.find (met (localAnalysisResults cap))
                     ["needsAnalysis"; "demandAnalyst"; "opportunityQualification"] with
     | Some agentId => setShowResult (Some agentId)
     | None => setShowResult None
     end).

(** One effect in the render [cap], with the refs as it finds them: the
    refs as it leaves them, and its writes. No effect writes to either
    Set, so that the Set a mirror effect has from its render is the one
    of the live state. *)
Definition effect (e : Effect) (refs : Refs) (cap : State) : Refs * Act :=
  match e with
  | MirrorAnalyzing => (refs, syncAnalyzingAgents)
  | MirrorFinished => (refs, syncFinishedAgents)
  | AutoSelect => (refs, autoSelectView cap)
  | StorePrevious => (refs, with_previousTranscriptRef (transcript cap))
  | SequenceHandling => sequenceEffect refs cap
  | ChunkingGuard => chunkingViewGuard refs cap
  end.

(** The effects that run after one render, in order: all read that
    render, each finds the refs as the one before has left them, and
    their writes are applied in order. *)
Fixpoint effects (es : list Effect) (refs : Refs) (cap : State) : Refs * Act :=
  match es with
  | [] => (refs, λ s, s)
  | e :: es' =>
      let '(refs1, a) := effect e refs cap in
      let '(refs2, b) := effects es' refs1 cap in
      (refs2, a >> b)
  end.

End Effects.

(* ===================================================================== *)
(** ** Interleavings *)
(* ===================================================================== *)

(** The page between two segments: the live state, the suspended tasks
    (what is left of the [async] calls in flight, and the pending timer
    chains), and whether a timer that reloads the page is pending. *)
Record World := { live : State; pool : list Task; reloading : bool }.

(** What starts the handlers of the page, and its renders. (No control
    of the page is bound to [stopAnalysisSequence] or to [handleReset].) *)
Inductive Input : Type :=
| Analyze (outcome : ChunkOutcome)   (* "Analyze Transcript": startAnalysisSequence *)
| Stop                               (* stopAnalysisSequence *)
| Upload (content : string)          (* handleContentChange *)
| View (agentId : string)            (* handleViewResult *)
| ResetEvaluation                    (* "Reset Evaluation": handleClearData *)
| Reset (confirmed : bool)           (* handleReset *)
| Commit                             (* the effects that mirror the two Sets *)
| RunAgent (agentId : string)        (* handleRunSingleAgent *)
| Next (fuel : nat)                  (* runNextAgentInSequence *)
| Render (es : list Effect) (refs : Refs).
    (* a render after which the effects [es] run, with the refs at [refs] *)

Section Interleaving.
Context `{Browser}.

(** A handler is created in the render it is called from: what it
    captures is the live state, and so do the effects that run after a
    render. The two reset handlers end by setting the timer that
    reloads the page. *)
Definition handler (cap : State) (i : Input) : Task :=
  match i with
  | Analyze outcome => startAnalysisSequence cap outcome
  | Stop => [seg stopAnalysisSequence]
  | Upload content => [seg (handleContentChange content)]
  | View agentId => [seg (handleViewResult cap agentId)]
  | ResetEvaluation => [{| act := handleClearData; timers := []; reloads := true |}]
  | Reset confirmed =>
      [{| act := handleReset confirmed; timers := []; reloads := confirmed |}]
  | Commit => [seg (syncAnalyzingAgents >> syncFinishedAgents)]
  | RunAgent agentId => handleRunSingleAgent cap agentId
  | Next fuel => runNextAgentInSequence fuel cap
  | Render es refs => [seg (effects es refs cap).2]
  end.

(** The tasks a segment leaves behind: the rest of its function and
    the timers it has set. *)
Definition suspended (sg : Seg) (rest : Task) : list Task :=
  rest :: ((λ chain : Chain, seg <$> chain) <$> timers sg).

(** Calling a task: its first segment runs at once. *)
Definition fire (t : Task) (w : World) : World :=
  match t with
  | [] => w
  | sg :: rest =>
      {| live := act sg (live w); pool := pool w ++ suspended sg rest;
         reloading := reloading w || reloads sg |}
  end.

(** Resuming the [n]-th suspended task for one segment. *)
Definition resume (n : nat) (w : World) : World :=
  match pool w !! n with
  | Some (sg :: rest) =>
      {| live := act sg (live w);
         pool := <[n := rest]> (pool w) ++ ((λ chain : Chain, seg <$> chain) <$> timers sg);
         reloading := reloading w || reloads sg |}
  | _ => w
  end.

(** One step of the page while it stays loaded: an input arrives, or
    some suspended task is resumed. Any task may be resumed at any
    time, so every order in which promises and timers resolve is
    covered; a render and its effects may come at any time too. *)
Inductive step (allowed : Input → Prop) : World → World → Prop :=
| step_input i w : allowed i → step allowed w (fire (handler (live w) i) w)
| step_resume n w : step allowed w (resume n w).

(** The pending reload fires: the component is mounted again from the
    store, and whatever was in flight is gone with the page. *)
Definition unload (w : World) : World :=
  {| live := reload (live w); pool := []; reloading := false |}.

(** One step of the page: as above, or the page is reloaded by the
    timer of a reset. *)
Inductive pageStep (allowed : Input → Prop) : World → World → Prop :=
| page_step w w' : step allowed w w' → pageStep allowed w w'
| page_reload w : reloading w = true → pageStep allowed w (unload w).

(** The inputs that are renders: the page is left to itself. *)
Definition rendering (i : Input) : Prop :=
  match i with
  | Commit | Render _ _ => True
  | _ => False
  end.

(** Nothing is left to run. *)
Definition settled (w : World) : Prop := Forall (λ t : Task, t = []) (pool w).

(** A session in which the effects find nothing to do: nothing is
    analysed, stored or shown, the two Sets are empty and so are their
    stored arrays. *)
Definition idle (s : State) : Prop :=
  hasAnalyzed s = false ∧ localAnalysisResults s = ∅ ∧ showResult s = None
  ∧ analyzingAgents s = ∅ ∧ finishedAgents s = ∅
  ∧ storedArray "opportunityAnalyzingAgents" s = Some (VArr [])
  ∧ storedArray "opportunityFinishedAgents" s = Some (VArr []).

(** The inputs other than the two that call [processWithAgent]. No
    control of the page triggers these two: [AgentCard] renders no run
    button, and [OpportunityAgentSelection] does not use the
    [onAnalysisComplete] it is given. *)
Definition sequenceInput (i : Input) : Prop :=
  match i with
  | RunAgent _ | Next _ => False
  | _ => True
  end.

(** At most one agent is in the analyzing set. *)
Definition single (s : State) : Prop := (size (analyzingAgents s) ≤ 1)%nat.

(** An action that keeps it so, a segment whose action and timers do,
    a task made of such segments. *)
Definition safe (a : Act) : Prop := ∀ s, single s → single (a s).
Definition safeSeg (sg : Seg) : Prop :=
  safe (act sg) ∧ Forall (Forall safe) (timers sg).
Definition safeTask (t : Task) : Prop := Forall safeSeg t.

(** The invariant of the interleavings of the sequence. *)
Definition inv (w : World) : Prop := single (live w) ∧ Forall safeTask (pool w).

End Interleaving.

(** The variables of a session: the state without the API key, the store
    and the trace. *)
Definition session (s : State) : State :=
  with_localStorage ∅ (with_trace [] (with_apiKey "" s)).

(* ===================================================================== *)
(** ** A concrete browser *)
(* ===================================================================== *)

(** An executable stand-in for [JSON.stringify] and [JSON.parse] on
    [Value], used to run the component on concrete sessions. Numbers are
    integers; the characters escaped in strings are the quote, the
    backslash and the line feed. *)
Module Json.

Definition quote : ascii := "034"%char.
Definition backslash : ascii := "092"%char.
Definition newline : ascii := "010"%char.

Fixpoint escape (s : string) : string :=
  match s with
  | EmptyString => EmptyString
  | String c s' =>
      if Ascii.eqb c quote then String backslash (String quote (escape s'))
      else if Ascii.eqb c backslash then String backslash (String backslash (escape s'))
      else if Ascii.eqb c newline then String backslash (String "n"%char (escape s'))
      else String c (escape s')
  end.

Definition quoted (s : string) : string :=
  String quote (escape s ++ String quote EmptyString).

Definition number (n : Z) : string :=
  DecimalString.NilZero.string_of_int (Z.to_int n).

(** The parts, separated by commas. *)
Fixpoint join (parts : list string) : string :=
  match parts with
  | [] => ""
  | [part] => part
  | part :: parts' => part ++ String "," (join parts')
  end.

Fixpoint stringify (v : Value) : string :=
  match v with
  | VNull => "null"
  | VBool true => "true"
  | VBool false => "false"
  | VNum n => number n
  | VStr s => quoted s
  | VArr items => String "[" (join (map stringify items) ++ "]")
  | VObj fields =>
      String "{" (join (map (λ kv, quoted kv.1 ++ String ":" (stringify kv.2)) fields)
                  ++ "}")
  end.

Definition is_digit (c : ascii) : bool :=
  let n := nat_of_ascii c in (Nat.leb 48 n && Nat.leb n 57)%bool.

(** A character of a number: a digit or the sign. *)
Definition is_numeric (c : ascii) : bool := (is_digit c || Ascii.eqb c "-")%bool.

Fixpoint skip (s : string) : string :=
  match s with
  | String c s' => if is_space c then skip s' else s
  | EmptyString => s
  end.

(** The numeric characters at the head of [s], and what follows. *)
Fixpoint span (s : string) : string * string :=
  match s with
  | String c s' =>
      if is_numeric c then let '(digits, rest) := span s' in (String c digits, rest)
      else (EmptyString, s)
  | EmptyString => (EmptyString, s)
  end.

(** [s] without the prefix [p], if it has it. *)
Fixpoint strip (p s : string) : option string :=
  match p, s with
  | EmptyString, _ => Some s
  | String a p', String b s' => if Ascii.eqb a b then strip p' s' else None
  | String _ _, EmptyString => None
  end.

(** The characters up to the closing quote, unescaped. *)
Fixpoint chars (s : string) : option (string * string) :=
  match s with
  | EmptyString => None
  | String c s' =>
      if Ascii.eqb c quote then Some (EmptyString, s')
      else if Ascii.eqb c backslash then
        match s' with
        | String e s'' =>
            let c' := if Ascii.eqb e "n"%char then newline else e in
            '(str, rest) ← chars s''; Some (String c' str, rest)
        | EmptyString => None
        end
      else '(str, rest) ← chars s'; Some (String c str, rest)
  end.

(** [s] starts with the character [c]; [s] after its first character. *)
Definition closes (c : ascii) (s : string) : bool :=
  match s with
  | String c' _ => Ascii.eqb c' c
  | EmptyString => false
  end.
Definition after (s : string) : string :=
  match s with
  | String _ s' => s'
  | EmptyString => s
  end.

Fixpoint value (fuel : nat) (s : string) : option (Value * string) :=
  match fuel with
  | O => None
  | S fuel' =>
      match skip s with
      | EmptyString => None
      | String c rest =>
          if Ascii.eqb c quote then
            '(str, rest') ← chars rest; Some (VStr str, rest')
          else if Ascii.eqb c "[" then
            if closes "]" (skip rest) then Some (VArr [], after (skip rest))
            else '(items, rest') ← elements fuel' rest; Some (VArr items, rest')
          else if Ascii.eqb c "{" then
            if closes "}" (skip rest) then Some (VObj [], after (skip rest))
            else '(fields, rest') ← members fuel' rest; Some (VObj fields, rest')
          else if is_numeric c then
            let '(digits, rest') := span (String c rest) in
            d ← DecimalString.NilZero.int_of_string digits;
            Some (VNum (Z.of_int d), rest')
          else
            match strip "null" (String c rest) with
            | Some rest' => Some (VNull, rest')
            | None =>
                match strip "true" (String c rest) with
                | Some rest' => Some (VBool true, rest')
                | None =>
                    rest' ← strip "false" (String c rest); Some (VBool false, rest')
                end
            end
      end
  end
with elements (fuel : nat) (s : string) : option (list Value * string) :=
  match fuel with
  | O => None
  | S fuel' =>
      '(v, rest) ← value fuel' s;
      if closes "," (skip rest) then
        '(vs, rest') ← elements fuel' (after (skip rest)); Some (v :: vs, rest')
      else if closes "]" (skip rest) then Some ([v], after (skip rest))
      else None
  end
with members (fuel : nat) (s : string) : option (list (string * Value) * string) :=
  match fuel with
  | O => None
  | S fuel' =>
      if closes quote (skip s) then
        '(k, rest1) ← chars (after (skip s));
        if closes ":" (skip rest1) then
          '(v, rest2) ← value fuel' (after (skip rest1));
          if closes "," (skip rest2) then
            '(kvs, rest3) ← members fuel' (after (skip rest2)); Some ((k, v) :: kvs, rest3)
          else if closes "}" (skip rest2) then Some ([(k, v)], after (skip rest2))
          else None
        else None
      else None
  end.

(** The whole text must be one value. *)
Definition parse (text : string) : option Value :=
  '(v, rest) ← value (String.length text) text;
  match skip rest with
  | EmptyString => Some v
  | String _ _ => None
  end.

(** *** Notions used to state that the parser reads what the printer
    writes *)

Fixpoint numeric (s : string) : bool :=
  match s with
  | EmptyString => true
  | String c s' => (is_numeric c && numeric s')%bool
  end.

(** What follows a number is not part of one. *)
Definition ends (rest : string) : Prop :=
  match rest with
  | EmptyString => True
  | String c _ => is_numeric c = false
  end.

(** A printed value starts with a character that is not white space
    and closes nothing. *)
Definition opening (c : ascii) : Prop :=
  is_space c = false ∧ Ascii.eqb c "]" = false ∧ Ascii.eqb c "}" = false.

Fixpoint weight (v : Value) : nat :=
  match v with
  | VArr items => S (list_sum (map (λ x, S (weight x)) items))
  | VObj fields => S (list_sum (map (λ kv, S (weight kv.2)) fields))
  | _ => 1
  end.

(** With enough fuel the printed value is read back, whatever follows. *)
Definition reads (v : Value) : Prop :=
  ∀ fuel rest, (weight v ≤ fuel)%nat → ends rest →
               value fuel (stringify v ++ rest) = Some (v, rest).

Definition member (kv : string * Value) : string :=
  quoted kv.1 ++ String ":" (stringify kv.2).

End Json.

(** The browser the examples run in. *)
Definition testBrowser : Browser :=
  {| JSON_stringify := Json.stringify;
     JSON_parse := Json.parse;
     Date_now := "2025-03-11T09:00:00.000Z" |}.

(** *** Sample sessions *)

Section Samples.
#[local] Existing Instance testBrowser.

(** A first visit on which a transcript has been uploaded. *)
Definition uploaded : State :=
  handleContentChange "Interviewer: what slows you down?" initial.

(** A first visit on which a transcript made of one no-break space
    (U+00A0) has been uploaded. *)
Definition spaced : State :=
  handleContentChange (String "194"%char (String "160"%char "")) initial.

(** What the chunking module returns for it. *)
Definition chunked : ChunkResult :=
  {| finalSummary := VStr "The customer loses time on onboarding.";
     chunks := strs ["Interviewer: what slows you down?"];
     chunkSummaries := strs ["Onboarding is slow."];
     sectionSummaries := strs ["Onboarding"];
     metadata := VObj [("totalChunks", VNum 1)] |}.

(** The sequence started from that render; the chunking module reports
    one progress value and resolves. *)
Definition theRun : Task := startAnalysisSequence uploaded (Resolved [50] chunked).

(** The session when the sequence is over. *)
Definition analysed : State := run theRun uploaded.

(** The same sequence when the chunking module rejects. *)
Definition theFailedRun : Task :=
  startAnalysisSequence uploaded (Rejected [50] "Request timed out").

(** A render with an API key in which the chunking result is in and the
    sequence flag is on. *)
Definition ready : State :=
  setIsSequenceRunning true
    (setLocalAnalysisResults
       (λ _, {["longContextChunking" := VObj [("completed", VBool true)]]})
       (with_apiKey "sk-sample" uploaded)).

(** A render with the flag on in which the only stored result is the
    one of needsAnalysis. *)
Definition needsOnly : State :=
  setIsSequenceRunning true
    (setLocalAnalysisResults
       (λ _, {["needsAnalysis" := VObj [("completed", VBool true)]]})
       (with_apiKey "sk-sample" uploaded)).

(** The sample run when the final report has just been started. *)
Definition reportStarted : State := run (take 24 theRun) uploaded.

(** The sample run when "Reset Evaluation" is pressed during the wait
    that follows needsAnalysis, one segment later. *)
Definition clearedThenResumed : State :=
  run (take 1 (drop 13 theRun)) (handleClearData (run (take 13 theRun) uploaded)).

(** The sample run when [stopAnalysisSequence] is called while
    needsAnalysis is shown as running, at the end of the run. *)
Definition stoppedThenResumed : State :=
  run (drop 9 theRun) (stopAnalysisSequence (run (take 9 theRun) uploaded)).

(** The page once the sample run has been started. *)
Definition launched : World :=
  fire theRun {| live := uploaded; pool := []; reloading := false |}.

(** The page when, while needsAnalysis is shown as running, another
    transcript is uploaded and the run goes on for six segments. *)
Definition interleaved : World :=
  Nat.iter 6 (resume 0)
    (fire (handler (live (Nat.iter 10 (resume 0) launched)) (Upload "Second interview"))
          (Nat.iter 10 (resume 0) launched)).

(** The page when the chunking call of the sample run has resolved and
    its result is stored. *)
Definition optimized : World := Nat.iter 2 (resume 0) launched.

(** Another transcript is uploaded then. *)
Definition replaced : World :=
  fire (handler (live optimized) (Upload "Second interview")) optimized.

(** The run goes on to its end. *)
Definition replacedOver : World := Nat.iter 26 (resume 0) replaced.

(** The page when needsAnalysis is shown as running. *)
Definition needsRunning : World := Nat.iter 8 (resume 0) launched.

(** [stopAnalysisSequence] is called then. *)
Definition stopped : World := fire (handler (live needsRunning) Stop) needsRunning.

(** The run goes on until the next agent is started, and to its end. *)
Definition stoppedNext : World := Nat.iter 5 (resume 0) stopped.
Definition stoppedOver : World := Nat.iter 20 (resume 0) stopped.

(** The page during the wait that follows needsAnalysis. *)
Definition needsDone : World := Nat.iter 12 (resume 0) launched.

(** "Reset Evaluation" is pressed then; the wait of the loop ends
    before the reload, and then the page is reloaded. *)
Definition resetPressed : World :=
  fire (handler (live needsDone) ResetEvaluation) needsDone.
Definition resetNext : World := resume 0 resetPressed.
Definition reloaded : World := unload resetNext.

(** The effects of the component, in the order of their declaration,
    and the refs of a component that has just been mounted. *)
Definition allEffects : list Effect :=
  [MirrorAnalyzing; MirrorFinished; AutoSelect; StorePrevious; SequenceHandling;
   ChunkingGuard].
Definition freshRefs : Refs :=
  {| sequenceCompletedRef := false; contextChunkingFixedRef := false |}.

(** The sample run with a render when needsAnalysis is shown as
    running, and another when the run is over. *)
Definition renderedMidway : World :=
  fire (handler (live needsRunning) (Render allEffects freshRefs)) needsRunning.
Definition renderedOver : World :=
  fire (handler (live (Nat.iter 20 (resume 0) renderedMidway))
          (Render allEffects freshRefs))
       (Nat.iter 20 (resume 0) renderedMidway).

End Samples.


(* ===================================================================== *)
(** ** The Grade Transcripts page ([src/pages/GradeTranscripts.jsx]) *)
(* ===================================================================== *)

Module GradeTranscripts.

(** The agents of [initialAgentStates], which are also the cases of the
    [switch] in [runAnalysisRef]. *)
Inductive AgentId : Type := jtbd | curse | problemFit | priming | recommendations.

Global Instance AgentId_eq_dec : EqDecision AgentId.
Proof. solve_decision. Defined.

Definition agentName (a : AgentId) : string :=
  match a with
  | jtbd => "jtbd"
  | curse => "curse"
  | problemFit => "problemFit"
  | priming => "priming"
  | recommendations => "recommendations"
  end.

Record AgentState := {
  isAnalyzing : bool;
  progress : Z;
  results : option Value;
  showResults : bool;
  retryCount : nat
}.

Definition initialAgentState : AgentState :=
  {| isAnalyzing := false; progress := 0; results := None; showResults := false;
     retryCount := 0 |}.

Inductive Event : Type :=
| ToastError (msg : string)
| ToastInfo (msg : string)
| Call (agentId : AgentId) (content : string).   (* analyzeJTBD(content), ... *)

#[projections(primitive)]
Record State := {
  transcript : string;
  analysisResult : option Value;
  pageIsAnalyzing : bool;               (* the page-level [isAnalyzing] *)
  showResult : bool;
  currentAnalysisIndex : nat;
  isSequenceRunning : bool;
  agentStates : AgentId → AgentState;
  llmApiKey : option string;            (* localStorage.getItem('llmApiKey') *)
  sessionStorage : gmap string string;
  trace : list Event                    (* newest first *)
}.

Definition initialAgentStates : AgentId → AgentState := λ _, initialAgentState.

(** How a call to an analysis module ends. *)
Inductive Outcome : Type :=
| Ok (result : Value)
| Failed (message : string).

Definition emit (e : Event) (s : State) : State :=
  {| transcript := transcript s; analysisResult := analysisResult s;
     pageIsAnalyzing := pageIsAnalyzing s; showResult := showResult s;
     currentAnalysisIndex := currentAnalysisIndex s;
     isSequenceRunning := isSequenceRunning s; agentStates := agentStates s;
     llmApiKey := llmApiKey s; sessionStorage := sessionStorage s;
     trace := e :: trace s |}.

Definition setIsSequenceRunning (v : bool) (s : State) : State :=
  {| transcript := transcript s; analysisResult := analysisResult s;
     pageIsAnalyzing := pageIsAnalyzing s; showResult := showResult s;
     currentAnalysisIndex := currentAnalysisIndex s;
     isSequenceRunning := v; agentStates := agentStates s;
     llmApiKey := llmApiKey s; sessionStorage := sessionStorage s;
     trace := trace s |}.

Definition setIsAnalyzing (v : bool) (s : State) : State :=
  {| transcript := transcript s; analysisResult := analysisResult s;
     pageIsAnalyzing := v; showResult := showResult s;
     currentAnalysisIndex := currentAnalysisIndex s;
     isSequenceRunning := isSequenceRunning s; agentStates := agentStates s;
     llmApiKey := llmApiKey s; sessionStorage := sessionStorage s;
     trace := trace s |}.

Definition setCurrentAnalysisIndex (v : nat) (s : State) : State :=
  {| transcript := transcript s; analysisResult := analysisResult s;
     pageIsAnalyzing := pageIsAnalyzing s; showResult := showResult s;
     currentAnalysisIndex := v;
     isSequenceRunning := isSequenceRunning s; agentStates := agentStates s;
     llmApiKey := llmApiKey s; sessionStorage := sessionStorage s;
     trace := trace s |}.

Definition setAgentStates (f : (AgentId → AgentState) → AgentId → AgentState)
    (s : State) : State :=
  {| transcript := transcript s; analysisResult := analysisResult s;
     pageIsAnalyzing := pageIsAnalyzing s; showResult := showResult s;
     currentAnalysisIndex := currentAnalysisIndex s;
     isSequenceRunning := isSequenceRunning s; agentStates := f (agentStates s);
     llmApiKey := llmApiKey s; sessionStorage := sessionStorage s;
     trace := trace s |}.

Definition setSessionItem (key text : string) (s : State) : State :=
  {| transcript := transcript s; analysisResult := analysisResult s;
     pageIsAnalyzing := pageIsAnalyzing s; showResult := showResult s;
     currentAnalysisIndex := currentAnalysisIndex s;
     isSequenceRunning := isSequenceRunning s; agentStates := agentStates s;
     llmApiKey := llmApiKey s;
     sessionStorage := <[key := text]> (sessionStorage s);
     trace := trace s |}.

(** [setAnalysisResult(finalResults); setShowResult(true)] *)
Definition showFinal (final : Value) (s : State) : State :=
  {| transcript := transcript s; analysisResult := Some final;
     pageIsAnalyzing := pageIsAnalyzing s; showResult := true;
     currentAnalysisIndex := currentAnalysisIndex s;
     isSequenceRunning := isSequenceRunning s; agentStates := agentStates s;
     llmApiKey := llmApiKey s; sessionStorage := sessionStorage s;
     trace := trace s |}.

(** [resetAnalysisState()] *)
Definition resetAnalysisState (s : State) : State :=
  {| transcript := transcript s; analysisResult := None;
     pageIsAnalyzing := false; showResult := false;
     currentAnalysisIndex := 0;
     isSequenceRunning := false; agentStates := initialAgentStates;
     llmApiKey := llmApiKey s; sessionStorage := sessionStorage s;
     trace := trace s |}.

(** [{...prev, [agentId]: f(prev[agentId])}] *)
Definition update (agentId : AgentId) (f : AgentState → AgentState)
    (prev : AgentId → AgentState) : AgentId → AgentState :=
  λ a, if decide (a = agentId) then f (prev a) else prev a.

(** [checkApiKey()]: the message it toasts when it returns [false]. *)
Definition checkApiKey (s : State) : option string :=
  match llmApiKey s with
  | None => Some "OpenAI API key not found. Please set your API key in the settings."
  | Some key =>
      if String.eqb key "" then
        Some "OpenAI API key not found. Please set your API key in the settings."
      else if negb (startsWith "sk-" key) then
        Some "Invalid API key format. Please check your settings."
      else if (String.length key <? 40)%nat then
        Some "Invalid API key length. Please check your settings."
      else None
  end.

Section Page.
Context `{Browser}.

(** The constants of [src/utils/analysisTypes], which is not among the
    sources. [ANALYSIS_DELAY] is a timer delay and does not appear. *)
Variable MAX_RETRIES : nat.
Variable AGENT_SEQUENCE : list AgentId.

(** [finalResults] *)
Definition finalResults (ref : State) (last : Value) : Value :=
  let r a := default VNull (results (agentStates ref a)) in
  VObj [("jtbdAnalysis", r jtbd); ("curseAnalysis", r curse);
        ("problemFitMatrixAnalysis", r problemFit);
        ("primingAnalysis", r priming); ("actionableRecommendations", last)].

(** The function kept in [runAnalysisRef], run from its call to the
    point where nothing of it is pending any more, or to the call in
    [outcomes] that has no outcome yet. [outcomes] lists how the
    successive calls to the analysis module end. [ref] is
    [stateRef.current] when the function is entered: the state of the
    last render, which the writes a caller has queued in the same
    segment have not reached; the continuation after an [await] and
    the retry after its timer find the state committed since. *)
Fixpoint runAnalysisRef (outcomes : list Outcome) (agentId : AgentId)
    (content : string) (ref s : State) : State :=
  match checkApiKey s with
  | Some msg => resetAnalysisState (emit (ToastError msg) s)
  | None =>
      if (MAX_RETRIES <=? retryCount (agentStates ref agentId))%nat then
        emit (ToastError ("Failed to complete " ++ agentName agentId
                          ++ " analysis after " ++ pretty MAX_RETRIES ++ " attempts"))
          (setSessionItem "isSequenceRunning" "false" (setIsSequenceRunning false s))
      else
        let s1 :=
          emit (Call agentId content)
            (setAgentStates
               (update agentId (λ st,
                  {| isAnalyzing := true; progress := 0; results := results st;
                     showResults := showResults st;
                     retryCount := S (retryCount st) |})) s) in
        match outcomes with
        | [] => s1
        | Ok r :: _ =>
            let s2 :=
              setAgentStates
                (update agentId (λ st,
                   {| isAnalyzing := false; progress := 100; results := Some r;
                      showResults := showResults st; retryCount := retryCount st |}))
                (setSessionItem (agentName agentId ++ "Results") (JSON_stringify r) s1) in
            if decide (last AGENT_SEQUENCE = Some agentId) then
              setIsAnalyzing false
                (setIsSequenceRunning false (showFinal (finalResults s1 r) s2))
            else s2
        | Failed message :: rest =>
            if includes "API key" message then
              resetAnalysisState (emit (ToastError message) s1)
            else if (retryCount (agentStates s1 agentId) <? MAX_RETRIES)%nat then
              runAnalysisRef rest agentId content s1 s1
            else
              setIsAnalyzing false
                (setIsSequenceRunning false
                   (emit (ToastError ("Failed to complete " ++ agentName agentId
                                      ++ " analysis. Please try again.")) s1))
        end
  end.

(** What the progression effect does in a render. *)
Inductive Progression : Type :=
| Idle
| ClearFlag                                      (* setIsSequenceRunning(false) *)
| Advance (nextIndex : nat) (nextAgent : AgentId).
    (* after ANALYSIS_DELAY: setCurrentAnalysisIndex(nextIndex) and
       runAnalysisRef.current(nextAgent, ...) *)

Definition progression (s : State) : Progression :=
  if negb (isSequenceRunning s) then Idle else
  match AGENT_SEQUENCE !! currentAnalysisIndex s with
  | None => ClearFlag
  | Some currentAgent =>
      let nextIndex := S (currentAnalysisIndex s) in
      match AGENT_SEQUENCE !! nextIndex with
      | Some nextAgent =>
          if progress (agentStates s currentAgent) =? 100
          then Advance nextIndex nextAgent else Idle
      | None => Idle
      end
  end.

(** [handleAnalyze()], with the run of the first agent. *)
Definition handleAnalyze (outcomes : list Outcome) (s : State) : State :=
  if String.eqb (transcript s) "" then
    emit (ToastError "Please provide a transcript to analyze.") s
  else
    match checkApiKey s with
    | Some msg => emit (ToastError msg) s
    | None =>
        let s1 := setIsSequenceRunning true (setIsAnalyzing true (resetAnalysisState s)) in
        match AGENT_SEQUENCE with
        | first :: _ => runAnalysisRef outcomes first (transcript s) s s1
        | [] => s1
        end
    end.

(** [handleStopAnalysis()] *)
Definition handleStopAnalysis (s : State) : State :=
  emit (ToastInfo "Analysis has been stopped.") (resetAnalysisState s).

(** A failure of the external call that is not about the API key. *)
Definition transient (o : Outcome) : Prop :=
  match o with
  | Failed message => includes "API key" message = false
  | Ok _ => False
  end.

(** The retries of the agent are used up: the page has no status
    field, this is the state in which it refuses to run the agent. *)
Definition exhausted (s : State) (agentId : AgentId) : Prop :=
  (MAX_RETRIES ≤ retryCount (agentStates s agentId))%nat.

(** The calls to the analysis modules in a trace. *)
Definition calls (agentId : AgentId) (events : list Event) : nat :=
  length (List.filter (λ e, match e with
                            | Call a _ => bool_decide (a = agentId)
                            | _ => false
                            end) events).

End Page.

(** *** A sample page *)

(** Values for the two constants. *)
Definition sampleRetries : nat := 3.
Definition sampleSequence : list AgentId :=
  [jtbd; curse; problemFit; priming; recommendations].

(** A page on which the sequence has been started, with a key that
    passes [checkApiKey]. *)
Definition page : State :=
  {| transcript := "Interviewer: what slows you down?";
     analysisResult := None; pageIsAnalyzing := true; showResult := false;
     currentAnalysisIndex := 0; isSequenceRunning := true;
     agentStates := initialAgentStates;
     llmApiKey := Some "sk-0123456789abcdefghijklmnopqrstuvwxyz0123";
     sessionStorage := ∅; trace := [] |}.

(** The same page without a key. *)
Definition keyless : State :=
  {| transcript := "Interviewer: what slows you down?";
     analysisResult := None; pageIsAnalyzing := true; showResult := false;
     currentAnalysisIndex := 0; isSequenceRunning := true;
     agentStates := initialAgentStates;
     llmApiKey := None;
     sessionStorage := ∅; trace := [] |}.

End GradeTranscripts.

(* ===================================================================== *)
(** ** What the Opportunity Evaluation page renders, and its view effects *)
(* ===================================================================== *)

(** What [getStatusBadge] of [AgentCard] returns; the width of the bars
    is left out. *)
Inductive StatusBadge : Type :=
| OptimizingTranscript     (* the grey bar *)
| AnalysisInProgress       (* the green bar *)
| NoBadge.                 (* null *)

Global Instance StatusBadge_eq_dec : EqDecision StatusBadge.
Proof. solve_decision. Defined.

Section Views.
Context `{Browser}.

(** The right-hand panel shows the results rather than the upload
    form. *)
Definition showsResults (s : State) : bool :=
  (match showResult s with
   | Some shown => negb (String.eqb shown "")
                   && negb (String.eqb shown "longContextChunking")
   | None => false
   end
   || hasAnalyzed s && met (localAnalysisResults s) "needsAnalysis")%bool.

(** [disabled] of the "Analyze Transcript" button of the upload form. *)
Definition analyzeDisabled (s : State) : bool :=
  (String.eqb (transcript s) "" || negb (size (analyzingAgents s) =? 0)%nat)%bool.

(** The button that starts [startAnalysisSequence] is on the page and
    can be pressed. *)
Definition analyzeOffered (s : State) : bool :=
  (negb (showsResults s) && negb (analyzeDisabled s))%bool.

(** The agents the page hands to [OpportunityAgentSelection]. *)
Definition cards : list Agent :=
  List.filter (λ agent, bool_decide (id agent ∈ visibleAgentSequence)) agents.

(** [getCurrentAgent()] of [OpportunityAgentSelection], on the sequence
    the page passes. *)
Definition getCurrentAgent (s : State) : option string :=
  List.find (λ agentId, negb (isDone s agentId)) AGENT_SEQUENCE.

(** The badge of the card at [index]: the props computed by
    [OpportunityAgentSelection], then [getStatusBadge]. *)
Definition statusBadge (s : State) (index : nat) (agent : Agent) : StatusBadge :=
  let isAnalyzing := bool_decide (id agent ∈ analyzingAgents s) in
  let showOptimizationOnThisCard := ((index =? 0)%nat && isOptimizingTranscript s)%bool in
  let isAnalyzing := (isAnalyzing || showOptimizationOnThisCard)%bool in
  let isOptimizingTranscript := showOptimizationOnThisCard in
  if isOptimizingTranscript then OptimizingTranscript
  else if (isAnalyzing && negb isOptimizingTranscript)%bool then AnalysisInProgress
  else NoBadge.

(** [getActionButton]: the card has a "View Results" button. *)
Definition viewResultsButton (s : State) (agent : Agent) : bool :=
  let hasResults := isDone s (id agent) in
  let isComplete := hasResults in
  (hasResults || isComplete)%bool.

(** The badges of the cards, in the order of the cards. *)
Definition badges (s : State) : list StatusBadge :=
  imap (statusBadge s) cards.

(** How many cards carry the green bar. *)
Definition greenBars (s : State) : nat :=
  length (List.filter (λ badge, bool_decide (badge = AnalysisInProgress)) (badges s)).

(** The three effects that have [showResult] and the results among
    their dependencies, in the order of their declaration: what runs
    after a render in which either has changed, when nothing else
    happens in between. All three read the render; their writes are
    applied in order. *)
Definition viewEffects (refs : Refs) (cap : State) : Refs * State :=
  let a1 := autoSelectView cap in
  let '(refs1, a2) := sequenceEffect refs cap in
  let '(refs2, a3) := chunkingViewGuard refs1 cap in
  (refs2, (a1 >> a2 >> a3) cap).

(** [n] rounds of these effects, each in the render the round before
    has left. *)
Definition viewRounds (n : nat) (refs : Refs) (s : State) : Refs * State :=
  Nat.iter n (λ p, viewEffects p.1 p.2) (refs, s).

(** The result the safeguard shows instead of longContextChunking, and
    the one the sequence effect shows when nothing is shown. *)
Definition shownInstead (results : gmap string Value) : option string :=
  List.find (met results) ["needsAnalysis"; "demandAnalyst"; "opportunityQualification"].
Definition lastCompleted (results : gmap string Value) : option string :=
  List.find (met results) (rev visibleAgentSequence).

(** A round of the view effects seen from the result shown and the two
    refs ([contextChunkingFixedRef], then [sequenceCompletedRef]), for
    a session that has been analysed, holds a result for
    longContextChunking and in which the user has chosen no view;
    [over] tells that the sequence is not running and the analyzing set
    is empty. *)
Definition viewStep (instead lastDone : option string) (over : bool)
    (v : option string * bool * bool) : option string * bool * bool :=
  let '(shown, fixed, completed) := v in
  let chunkingShown := bool_decide (shown = Some "longContextChunking") in
  (if (chunkingShown && negb fixed)%bool then instead
   else if (bool_decide (shown = None) && negb completed)%bool
        then match lastDone with
             | Some agentId => Some agentId
             | None => Some "longContextChunking"
             end
        else Some "longContextChunking",
   (fixed || chunkingShown)%bool,
   (completed || over)%bool).

(** What holds of the session [s] from the first segment of
    [chunkingPhase] to its last, whatever the transcript and the outcome;
    [s0] is the session in which the button was pressed. *)
Definition chunking (s0 s : State) : Prop :=
  analyzingAgents s = ∅ ∧ showResult s = None ∧ hasAnalyzed s = false
  ∧ isSequenceRunning s = true ∧ isOptimizingTranscript s = true
  ∧ agentProgress s = ∅ ∧ transcript s = transcript s0
  ∧ userHasSelectedView s = userHasSelectedView s0
  ∧ finishedAgentsArray s = finishedAgentsArray s0
  ∧ (localAnalysisResults s = ∅ ∧ finishedAgents s = finishedAgents s0
     ∨ (∃ stored, localAnalysisResults s = {[ "longContextChunking" := stored ]}
                  ∧ truthy stored = true)
       ∧ finishedAgents s = finishedAgents s0 ∪ {[ "longContextChunking" ]}).

End Views.

(** *** What the effects leave alone *)

Section Frame.
Context `{Browser}.

(** [s'] holds what [s] holds in every variable that no effect writes
    to (all but the two stored arrays, the store, the result shown, the
    ref of the previous transcript and [hasAnalyzed]), and has been
    analysed if [s] has: the effects set [hasAnalyzed], they never
    clear it. *)
Definition agrees (s s' : State) : Prop :=
  transcript s' = transcript s
  ∧ analyzingAgents s' = analyzingAgents s
  ∧ localAnalysisResults s' = localAnalysisResults s
  ∧ agentProgress s' = agentProgress s
  ∧ userHasSelectedView s' = userHasSelectedView s
  ∧ apiKey s' = apiKey s
  ∧ currentAgent s' = currentAgent s
  ∧ lastViewedResult s' = lastViewedResult s
  ∧ isOptimizingTranscript s' = isOptimizingTranscript s
  ∧ optimizationProgress s' = optimizationProgress s
  ∧ finishedAgents s' = finishedAgents s
  ∧ isSequenceRunning s' = isSequenceRunning s
  ∧ longContextResults s' = longContextResults s
  ∧ jtbdAnalysis s' = jtbdAnalysis s
  ∧ gainAnalysis s' = gainAnalysis s
  ∧ currentRunningAgent s' = currentRunningAgent s
  ∧ trace s' = trace s
  ∧ (hasAnalyzed s = true → hasAnalyzed s' = true).

(** An action that writes to none of these variables, as the effects
    are. *)
Definition aside (a : Act) : Prop := ∀ x y, agrees x y → agrees x (a y).

(** An action whose writes to these variables depend on these
    variables only, a task made of segments with such an action and no
    timer. *)
Definition steady (a : Act) : Prop := ∀ x y, agrees x y → agrees (a x) (a y).
Definition steadyTask (t : Task) : Prop :=
  Forall (λ sg, steady (act sg) ∧ timers sg = []) t.

End Frame.

(** *** The finished agents *)

Section Finished.
Context `{Browser}.

(** An action that takes no agent out of the finished set, a segment
    whose action and timers are such, a task made of such segments. *)
Definition grows (a : Act) : Prop := ∀ s, finishedAgents s ⊆ finishedAgents (a s).
Definition growsSeg (sg : Seg) : Prop :=
  grows (act sg) ∧ Forall (Forall grows) (timers sg).
Definition growsTask (t : Task) : Prop := Forall growsSeg t.

(** The inputs other than the two resets. *)
Definition keepsFinished (i : Input) : Prop :=
  match i with
  | ResetEvaluation | Reset true => False
  | _ => True
  end.

End Finished.

(* ===================================================================== *)
(** ** The analysis modules that call the model *)
(* ===================================================================== *)

Module Analysts.

(** What a module throws. *)
Inductive Thrown : Type :=
| Error (message : string)     (* new Error(message) *)
| TypeError                    (* a call of [undefined], a property of [null] *)
| SyntaxError.                 (* JSON.parse *)

(** How [openai.chat.completions.create] ends: with a completion, of
    which the caller reads [choices?.[0]?.message?.content] (a string,
    [null] or missing), or by rejecting. *)
Inductive Completion : Type :=
| Responds (content : option string)
| Rejects (e : Thrown).

(** The request sent: the model and the values interpolated into the
    user message. *)
Record Request := { model : string; inputs : list Value }.

(** One call of a module: the values passed to the progress callback,
    oldest first, the request if one was sent, and the value returned
    or the error thrown. *)
Record Run := {
  reported : list Z;
  requested : option Request;
  outcome : Value + Thrown
}.

Definition returns (r : Run) : bool :=
  match outcome r with inl _ => true | inr _ => false end.

(** [!content] for what the caller reads of the completion. *)
Definition noContent (content : option string) : bool :=
  match content with
  | Some text => String.eqb text ""
  | None => true
  end.

Section Modules.
Context `{Browser}.

(** [analyzeJTBDGains(chunkingResults, progressCallback, apiKey)]
    ([src/utils/jtbdGainsAnalysisAgent.js]). [chunkingResults] is
    [None] for [undefined]; [progressCallback] tells whether a
    callback is passed (it is called unguarded); a callback that is
    passed does not throw. *)
Definition analyzeJTBDGains (chunkingResults : option Value)
    (progressCallback : bool) (apiKey : string) (completion : Completion) : Run :=
  if String.eqb apiKey "" then
    {| reported := []; requested := None;
       outcome := inr (Error "OpenAI API key is required. Please set your API key first.") |}
  else if negb progressCallback then
    {| reported := []; requested := None; outcome := inr TypeError |}
  else if (negb (truthyO chunkingResults)
           || negb (truthyO (chunkingResults ≫= prop "finalSummary")))%bool then
    {| reported := [10]; requested := None;
       outcome :=
         inr (Error "Invalid chunking results. Expected finalSummary to be present.") |}
  else if negb (truthyO (chunkingResults ≫= prop "jtbdResults")) then
    {| reported := [10]; requested := None;
       outcome :=
         inr (Error "JTBD Primary Goal results are required for Gains Analysis.") |}
  else
    let request :=
      {| model := "gpt-4-1106-preview";
         inputs := [default VNull (chunkingResults ≫= prop "finalSummary");
                    default VNull (chunkingResults ≫= prop "jtbdResults")] |} in
    match completion with
    | Rejects e =>
        {| reported := [10; 30; 50]; requested := Some request; outcome := inr e |}
    | Responds content =>
        if noContent content then
          {| reported := [10; 30; 50; 80]; requested := Some request;
             outcome := inr (Error "Invalid response from OpenAI") |}
        else
          match JSON_parse (default "" content) with
          | None =>
              {| reported := [10; 30; 50; 80]; requested := Some request;
                 outcome := inr SyntaxError |}
          | Some results =>
              {| reported := [10; 30; 50; 80; 100]; requested := Some request;
                 outcome := inl results |}
          end
    end.

(** [o?.k]: [undefined] when [o] is [undefined] or [null]. *)
Definition optional_prop (k : string) (o : option Value) : option Value :=
  match o with
  | None | Some VNull => None
  | Some v => prop k v
  end.

(** [!analysisResult.primaryGoal || !analysisResult.jobComponents] and
    the like: [None] where reading the property throws (the parsed
    value is [null]). *)
Definition lacks (keys : list string) (parsed : Value) : option bool :=
  match parsed with
  | VNull => None
  | _ => Some (negb (forallb (λ k, truthyO (prop k parsed)) keys))
  end.

(** [analyzeJTBDPrimaryGoal(chunkingResults, progressCallback, apiKey)]
    ([src/utils/jtbdPrimaryGoalAgent.js], the version that reads the
    chunking results). The callback is optional here; the [catch]
    reports 0 before it throws again. *)
Definition analyzeJTBDPrimaryGoal (chunkingResults : option Value)
    (progressCallback : bool) (apiKey : string) (completion : Completion) : Run :=
  let report (l : list Z) := if progressCallback then l else [] in
  if String.eqb apiKey "" then
    {| reported := []; requested := None;
       outcome := inr (Error "OpenAI API key is required. Please set your API key first.") |}
  else if (negb (truthyO chunkingResults)
           || negb (truthyO (chunkingResults ≫= prop "finalSummary")))%bool then
    {| reported := []; requested := None;
       outcome :=
         inr (Error "Invalid chunking results. Expected finalSummary to be present.") |}
  else
    let request :=
      {| model := "gpt-4";
         inputs := [default VNull (chunkingResults ≫= prop "finalSummary")] |} in
    match completion with
    | Rejects e =>
        {| reported := report [10; 30; 0]; requested := Some request; outcome := inr e |}
    | Responds content =>
        if noContent content then
          {| reported := report [10; 30; 80; 0]; requested := Some request;
             outcome := inr (Error "Invalid response from OpenAI") |}
        else
          match JSON_parse (default "" content) with
          | None =>
              {| reported := report [10; 30; 80; 0]; requested := Some request;
                 outcome := inr SyntaxError |}
          | Some analysisResult =>
              match lacks ["primaryGoal"; "jobComponents"] analysisResult with
              | None =>
                  {| reported := report [10; 30; 80; 0]; requested := Some request;
                     outcome := inr TypeError |}
              | Some true =>
                  {| reported := report [10; 30; 80; 0]; requested := Some request;
                     outcome := inr (Error "Invalid analysis result structure") |}
              | Some false =>
                  {| reported := report [10; 30; 80; 100]; requested := Some request;
                     outcome := inl analysisResult |}
              end
          end
    end.

(** The local [analyzeNeeds(analysisResults, progressCallback, apiKey)]
    of [src/pages/OpportunityEvaluation.jsx]. Everything is inside
    the [try]; the callback is called unguarded, after the checks. *)
Definition analyzeNeeds (analysisResults : option Value)
    (progressCallback : bool) (apiKey : string) (completion : Completion) : Run :=
  let finalSummary :=
    optional_prop "finalSummary" (optional_prop "longContextChunking" analysisResults) in
  if String.eqb apiKey "" then
    {| reported := []; requested := None;
       outcome := inr (Error "OpenAI API key is required. Please set your API key first.") |}
  else if negb (truthyO finalSummary) then
    {| reported := []; requested := None;
       outcome :=
         inr (Error "Invalid analysis results. Expected longContextChunking.finalSummary to be present.") |}
  else if negb progressCallback then
    {| reported := []; requested := None; outcome := inr TypeError |}
  else
    let request :=
      {| model := "gpt-4"; inputs := [default VNull finalSummary] |} in
    match completion with
    | Rejects e =>
        {| reported := [5; 10; 25]; requested := Some request; outcome := inr e |}
    | Responds content =>
        if noContent content then
          {| reported := [5; 10; 25; 60]; requested := Some request;
             outcome := inr (Error "Invalid response from OpenAI") |}
        else
          match JSON_parse (default "" content) with
          | None =>
              {| reported := [5; 10; 25; 60]; requested := Some request;
                 outcome := inr SyntaxError |}
          | Some needsAnalysis =>
              match lacks ["immediateNeeds"; "latentNeeds"] needsAnalysis with
              | None =>
                  {| reported := [5; 10; 25; 60]; requested := Some request;
                     outcome := inr TypeError |}
              | Some true =>
                  {| reported := [5; 10; 25; 60]; requested := Some request;
                     outcome :=
                       inr (Error "Invalid needs analysis structure. Missing required fields.") |}
              | Some false =>
                  {| reported := [5; 10; 25; 60; 100]; requested := Some request;
                     outcome := inl needsAnalysis |}
              end
          end
    end.

End Modules.

End Analysts.

(* ===================================================================== *)
(** ** The Grade Transcripts page: its buttons and a whole sequence *)
(* ===================================================================== *)

Module GradePage.
Import GradeTranscripts.

(** [disabled] of the "Analyze" button, and whether "Stop Analysis" is
    rendered. *)
Definition analyzeDisabled (s : State) : bool :=
  (String.eqb (transcript s) "" || pageIsAnalyzing s)%bool.
Definition stopShown (s : State) : bool := pageIsAnalyzing s.

Section Page.
Context `{Browser}.
Variable MAX_RETRIES : nat.
Variable AGENT_SEQUENCE : list AgentId.

(** The callback of the timer the progression effect sets:
    [setCurrentAnalysisIndex(nextIndex)], then the run of the next
    agent on the transcript of [stateRef.current]; [outcomes] lists
    how the calls of that run end. *)
Definition advance (outcomes : list Outcome) (nextIndex : nat) (nextAgent : AgentId)
    (s : State) : State :=
  runAnalysisRef MAX_RETRIES AGENT_SEQUENCE outcomes nextAgent (transcript s) s
    (setCurrentAnalysisIndex nextIndex s).

(** The progression effect and its timer, as long as the effect has
    something to do and [script] says how the calls of the next run
    end. *)
Fixpoint proceed (script : list (list Outcome)) (s : State) : State :=
  match progression AGENT_SEQUENCE s with
  | Idle => s
  | ClearFlag => setIsSequenceRunning false s
  | Advance nextIndex nextAgent =>
      match script with
      | [] => s
      | outcomes :: script' => proceed script' (advance outcomes nextIndex nextAgent s)
      end
  end.

(** The sequence is under way and has dealt with its first [n]
    agents: these have their results, from [results0], stored and
    kept in the session storage, the other agents are untouched, and
    the trace holds one call for each of the [n], on top of
    [before]. *)
Definition ranThrough (results0 : AgentId → Value) (content : string)
    (before : list Event) (n : nat) (s : State) : Prop :=
  isSequenceRunning s = true ∧ pageIsAnalyzing s = true
  ∧ checkApiKey s = None ∧ transcript s = content
  ∧ (∀ a, a ∈ take n AGENT_SEQUENCE →
          results (agentStates s a) = Some (results0 a)
          ∧ progress (agentStates s a) = 100
          ∧ sessionStorage s !! (agentName a ++ "Results")
            = Some (JSON_stringify (results0 a)))
  ∧ (∀ a, a ∉ take n AGENT_SEQUENCE → agentStates s a = initialAgentState)
  ∧ trace s = (((λ a, Call a content) <$> rev (take n AGENT_SEQUENCE)) ++ before)%list.

(** What [finalResults] holds when the agents before the last one
    have the results of [results0]. *)
Definition compiled (results0 : AgentId → Value) : Value :=
  let r a :=
    if bool_decide (a ∈ removelast AGENT_SEQUENCE) then results0 a else VNull in
  VObj [("jtbdAnalysis", r jtbd); ("curseAnalysis", r curse);
        ("problemFitMatrixAnalysis", r problemFit);
        ("primingAnalysis", r priming);
        ("actionableRecommendations",
          default VNull (results0 <$> last AGENT_SEQUENCE))].

(** The sequence is over and every agent has its result. *)
Definition ranAll (results0 : AgentId → Value) (content : string)
    (before : list Event) (s : State) : Prop :=
  isSequenceRunning s = false ∧ pageIsAnalyzing s = false ∧ showResult s = true
  ∧ analysisResult s = Some (compiled results0)
  ∧ (∀ a, a ∈ AGENT_SEQUENCE →
          results (agentStates s a) = Some (results0 a)
          ∧ sessionStorage s !! (agentName a ++ "Results")
            = Some (JSON_stringify (results0 a)))
  ∧ trace s = (((λ a, Call a content) <$> rev AGENT_SEQUENCE) ++ before)%list.

(** "Analyze", then the progression. *)
Definition analyze (script : list (list Outcome)) (s : State) : State :=
  match script with
  | [] => s
  | outcomes :: script' =>
      proceed script' (handleAnalyze MAX_RETRIES AGENT_SEQUENCE outcomes s)
  end.

End Page.
End GradePage.

(* ===================================================================== *)
(** * Properties *)
(* ===================================================================== *)

#[local] Set Warnings "-clear-no-such-hyp".

(** ** The sample browser: parsing what was printed *)

Module JsonFacts.
Import Json.
#[local] Arguments String.append !_ _ / : simpl nomatch.

Lemma Value_induction (P : Value → Prop) :
  P VNull → (∀ b, P (VBool b)) → (∀ n, P (VNum n)) → (∀ s, P (VStr s)) →
  (∀ items, Forall P items → P (VArr items)) →
  (∀ fields, Forall (λ kv, P kv.2) fields → P (VObj fields)) →
  ∀ v, P v.
Proof.
  intros Hnull Hbool Hnum Hstr Harr Hobj.
  fix IH 1. intros [ |b|n|s|items|fields].
  - exact Hnull.
  - apply Hbool.
  - apply Hnum.
  - apply Hstr.
  - apply Harr. induction items as [|x items IHitems]; constructor; [apply IH | exact IHitems].
  - apply Hobj. induction fields as [|[k x] fields IHfields]; constructor;
      [apply IH | exact IHfields].
Qed.

(** *** Strings *)

Lemma append_assoc (a b c : string) : (a ++ b) ++ c = a ++ (b ++ c).
Proof. induction a as [|x a IH]; [done|]. cbn. by f_equal. Qed.

Lemma length_append (a b : string) :
  String.length (a ++ b) = (String.length a + String.length b)%nat.
Proof. induction a as [|x a IH]; [done|]. cbn. by f_equal. Qed.

Lemma chars_escape s rest :
  chars (escape s ++ String quote rest) = Some (s, rest).
Proof.
  induction s as [|c s IH]; [done|].
  cbn [escape].
  destruct (Ascii.eqb_spec c quote) as [->|Hq].
  { cbn. change (chars (escape s ++ String quote rest)) with
      (chars (escape s ++ String quote rest)). rewrite IH. done. }
  destruct (Ascii.eqb_spec c backslash) as [->|Hb].
  { cbn. rewrite IH. done. }
  destruct (Ascii.eqb_spec c newline) as [->|Hn].
  { cbn. rewrite IH. done. }
  cbn.
  apply Ascii.eqb_neq in Hq, Hb. rewrite Hq, Hb, IH. done.
Qed.

Lemma chars_quoted s rest :
  ∃ body, quoted s ++ rest = String quote body ∧ chars body = Some (s, rest).
Proof.
  exists (escape s ++ String quote rest). split.
  - unfold quoted. cbn. f_equal. apply append_assoc.
  - apply chars_escape.
Qed.

(** *** Numbers *)

Lemma span_numeric s rest : numeric s = true → ends rest → span (s ++ rest) = (s, rest).
Proof.
  intros Hs Hrest. induction s as [|c s IH].
  - cbn. destruct rest as [|c rest]; [done|]. cbn in *. by rewrite Hrest.
  - cbn in *. apply andb_true_iff in Hs as [Hc Hs]. rewrite Hc, IH by done. done.
Qed.

Lemma numeric_uint d : numeric (NilEmpty.string_of_uint d) = true.
Proof. induction d; cbn; try done. Qed.

Lemma numeric_number n : numeric (number n) = true.
Proof.
  unfold number, NilZero.string_of_int, NilZero.string_of_uint.
  destruct (Z.to_int n) as [d|d]; destruct d; cbn; try done; apply numeric_uint.
Qed.

Lemma to_int_proper n : Z.to_int n ≠ Decimal.Pos Decimal.Nil ∧ Z.to_int n ≠ Decimal.Neg Decimal.Nil.
Proof.
  destruct n as [|p|p]; cbn; split; try done.
  - intros [= Hp]. by apply (Unsigned.to_uint_nonnil p).
  - intros [= Hp]. by apply (Unsigned.to_uint_nonnil p).
Qed.

Lemma number_parses n : NilZero.int_of_string (number n) = Some (Z.to_int n).
Proof. unfold number. destruct (to_int_proper n). by apply NilZero.isi. Qed.

(** The first character of a number. *)
Lemma number_head n :
  ∃ c body, number n = String c body ∧ is_numeric c = true.
Proof.
  pose proof (numeric_number n) as Hn. pose proof (number_parses n) as Hp.
  destruct (number n) as [|c body]; [done|].
  exists c, body. split; [done|]. cbn in Hn. by apply andb_true_iff in Hn as [? _].
Qed.

Lemma numeric_plain c :
  is_numeric c = true →
  is_space c = false ∧ Ascii.eqb c quote = false ∧ Ascii.eqb c "[" = false
  ∧ Ascii.eqb c "{" = false ∧ Ascii.eqb c "]" = false ∧ Ascii.eqb c "}" = false.
Proof. destruct c as [[] [] [] [] [] [] [] []]; cbn; try done. Qed.

Lemma stringify_head v : ∃ c body, stringify v = String c body ∧ opening c.
Proof.
  destruct v as [ |[]|n|s|items|fields]; try (by eexists _, _).
  destruct (number_head n) as (c & body & Hn & Hc).
  exists c, body. split; [done|].
  by destruct (numeric_plain c Hc) as (? & _ & _ & _ & ? & ?).
Qed.

(** *** Values *)

Lemma skip_opening c body : is_space c = false → skip (String c body) = String c body.
Proof. intros Hc. cbn. by rewrite Hc. Qed.

Lemma join_cons part part' parts :
  join (part :: part' :: parts) = part ++ String "," (join (part' :: parts)).
Proof. done. Qed.

Lemma elements_last fuel s v rest :
  value fuel s = Some (v, String "]" rest) →
  elements (S fuel) s = Some ([v], rest).
Proof.
  intros Hv. cbn [elements]. rewrite Hv. cbn [mbind option_bind].
  change (skip (String "]" rest)) with (String "]" rest). done.
Qed.

Lemma elements_more fuel s v rest vs rest' :
  value fuel s = Some (v, String "," rest) →
  elements fuel rest = Some (vs, rest') →
  elements (S fuel) s = Some (v :: vs, rest').
Proof.
  intros Hv Hvs. cbn [elements]. rewrite Hv.
  cbn [mbind option_bind].
  change (skip (String "," rest)) with (String "," rest).
  cbn. rewrite Hvs. done.
Qed.

Lemma elements_stringify x items :
  Forall reads (x :: items) →
  ∀ fuel rest,
    (list_sum (map (λ x, S (weight x)) (x :: items)) ≤ fuel)%nat →
    elements fuel (join (map stringify (x :: items)) ++ String "]" rest)
    = Some (x :: items, rest).
Proof.
  revert x. induction items as [|y items IH]; intros x Hall fuel rest Hfuel.
  - inversion_clear Hall as [|? ? Hx _].
    cbn [map list_sum fold_right] in Hfuel. destruct fuel as [|fuel]; [lia|].
    apply elements_last. apply Hx; [lia|done].
  - inversion_clear Hall as [|? ? Hx Hrest].
    cbn [map list_sum fold_right] in Hfuel. destruct fuel as [|fuel]; [lia|].
    change (map stringify (x :: y :: items))
      with (stringify x :: stringify y :: map stringify items).
    rewrite join_cons, append_assoc.
    eapply elements_more.
    + apply Hx; [lia|done].
    + apply (IH y Hrest). cbn [map list_sum fold_right]. lia.
Qed.

Lemma members_last fuel k s v rest :
  value fuel s = Some (v, String "}" rest) →
  members (S fuel) (quoted k ++ String ":" s) = Some ([(k, v)], rest).
Proof.
  intros Hv. cbn [members].
  change (skip (quoted k ++ String ":" s)) with (quoted k ++ String ":" s).
  change (closes quote (quoted k ++ String ":" s)) with true. cbv iota.
  change (after (quoted k ++ String ":" s))
    with ((escape k ++ String quote "") ++ String ":" s).
  rewrite append_assoc.
  change (String quote "" ++ String ":" s) with (String quote (String ":" s)).
  rewrite chars_escape.
  cbn [mbind option_bind].
  change (skip (String ":" s)) with (String ":" s). cbn. rewrite Hv.
  cbn [mbind option_bind].
  change (skip (String "}" rest)) with (String "}" rest). done.
Qed.

Lemma members_more fuel k s v rest kvs rest' :
  value fuel s = Some (v, String "," rest) →
  members fuel rest = Some (kvs, rest') →
  members (S fuel) (quoted k ++ String ":" s) = Some ((k, v) :: kvs, rest').
Proof.
  intros Hv Hkvs. cbn [members].
  change (skip (quoted k ++ String ":" s)) with (quoted k ++ String ":" s).
  change (closes quote (quoted k ++ String ":" s)) with true. cbv iota.
  change (after (quoted k ++ String ":" s))
    with ((escape k ++ String quote "") ++ String ":" s).
  rewrite append_assoc.
  change (String quote "" ++ String ":" s) with (String quote (String ":" s)).
  rewrite chars_escape.
  cbn [mbind option_bind].
  change (skip (String ":" s)) with (String ":" s). cbn. rewrite Hv.
  cbn [mbind option_bind].
  change (skip (String "," rest)) with (String "," rest). cbn. rewrite Hkvs. done.
Qed.

Lemma members_stringify kv fields :
  Forall (λ kv, reads kv.2) (kv :: fields) →
  ∀ fuel rest,
    (list_sum (map (λ kv, S (weight kv.2)) (kv :: fields)) ≤ fuel)%nat →
    members fuel (join (map member (kv :: fields)) ++ String "}" rest)
    = Some (kv :: fields, rest).
Proof.
  revert kv. induction fields as [|kv' fields IH]; intros [k v] Hall fuel rest Hfuel.
  - inversion_clear Hall as [|? ? Hv _]. cbn [snd] in Hv.
    cbn [map list_sum fold_right snd] in Hfuel. destruct fuel as [|fuel]; [lia|].
    cbn [map join]. unfold member. cbn [fst snd]. rewrite append_assoc.
    change (String ":" (stringify v) ++ String "}" rest)
      with (String ":" (stringify v ++ String "}" rest)).
    apply members_last. apply Hv; [lia|done].
  - inversion_clear Hall as [|? ? Hv Hrest]. cbn [snd] in Hv.
    cbn [map list_sum fold_right snd] in Hfuel. destruct fuel as [|fuel]; [lia|].
    change (map member ((k, v) :: kv' :: fields))
      with (member (k, v) :: member kv' :: map member fields).
    rewrite join_cons, append_assoc. unfold member at 1. cbn [fst snd].
    rewrite append_assoc.
    change (String ":" (stringify v)
            ++ String "," (join (member kv' :: map member fields)) ++ String "}" rest)
      with (String ":" (stringify v ++ String ","
              (join (map member (kv' :: fields)) ++ String "}" rest))).
    eapply members_more.
    + apply Hv; [lia|done].
    + apply (IH kv' Hrest). cbn [map list_sum fold_right]. lia.
Qed.

Lemma value_array fuel items rest :
  Forall reads items →
  (list_sum (map (λ x, S (weight x)) items) ≤ fuel)%nat →
  value (S fuel) (stringify (VArr items) ++ rest) = Some (VArr items, rest).
Proof.
  intros Hall Hfuel. cbn [stringify].
  change (String "[" (join (map stringify items) ++ "]") ++ rest)
    with (String "[" ((join (map stringify items) ++ "]") ++ rest)).
  rewrite append_assoc.
  change ("]" ++ rest) with (String "]" rest).
  cbn [value].
  change (skip (String "[" ?s)) with (String "[" s).
  cbv iota. change (Ascii.eqb "[" quote) with false.
  change (Ascii.eqb "[" "[") with true. cbv iota.
  destruct items as [|x items].
  - change (join (map stringify []) ++ String "]" rest) with (String "]" rest).
    change (skip (String "]" rest)) with (String "]" rest). done.
  - destruct (stringify_head x) as (c & body & Hx & Hc & Hc' & _).
    replace (skip (join (map stringify (x :: items)) ++ String "]" rest))
      with (join (map stringify (x :: items)) ++ String "]" rest).
    2:{ cbn [map]. destruct items as [|y items].
        - cbn [map join]. rewrite Hx. symmetry. by apply skip_opening.
        - cbn [map]. rewrite join_cons, Hx. symmetry. by apply skip_opening. }
    replace (closes "]" (join (map stringify (x :: items)) ++ String "]" rest))
      with false.
    2:{ cbn [map]. destruct items as [|y items].
        - cbn [map join]. by rewrite Hx.
        - cbn [map]. by rewrite join_cons, Hx. }
    rewrite elements_stringify by done. done.
Qed.

Lemma value_object fuel fields rest :
  Forall (λ kv, reads kv.2) fields →
  (list_sum (map (λ kv, S (weight kv.2)) fields) ≤ fuel)%nat →
  value (S fuel) (stringify (VObj fields) ++ rest) = Some (VObj fields, rest).
Proof.
  intros Hall Hfuel. cbn [stringify]. fold member.
  change (String "{" (join (map member fields) ++ "}") ++ rest)
    with (String "{" ((join (map member fields) ++ "}") ++ rest)).
  rewrite append_assoc.
  change ("}" ++ rest) with (String "}" rest).
  cbn [value].
  change (skip (String "{" ?s)) with (String "{" s).
  cbv iota. change (Ascii.eqb "{" quote) with false.
  change (Ascii.eqb "{" "[") with false.
  change (Ascii.eqb "{" "{") with true. cbv iota.
  destruct fields as [|[k v] fields].
  - change (join (map member []) ++ String "}" rest) with (String "}" rest).
    change (skip (String "}" rest)) with (String "}" rest). done.
  - replace (skip (join (map member ((k, v) :: fields)) ++ String "}" rest))
      with (join (map member ((k, v) :: fields)) ++ String "}" rest).
    2:{ cbn [map]. destruct fields as [|kv' fields]; [done|].
        cbn [map]. by rewrite join_cons. }
    replace (closes "}" (join (map member ((k, v) :: fields)) ++ String "}" rest))
      with false.
    2:{ cbn [map]. destruct fields as [|kv' fields]; [done|].
        cbn [map]. by rewrite join_cons. }
    rewrite members_stringify by done. done.
Qed.

Lemma value_stringify v : reads v.
Proof.
  induction v as [ |b|n|s|items IH|fields IH] using Value_induction;
    intros fuel rest Hfuel Hrest.
  - destruct fuel as [|fuel]; [cbn in Hfuel; lia|]. done.
  - destruct fuel as [|fuel]; [cbn in Hfuel; lia|]. by destruct b.
  - destruct fuel as [|fuel]; [cbn in Hfuel; lia|].
    cbn [stringify]. destruct (number_head n) as (c & body & Hn & Hc).
    destruct (numeric_plain c Hc) as (Hs & Hq & Ha & Ho & _).
    pose proof (span_numeric (number n) rest (numeric_number n) Hrest) as Hspan.
    rewrite Hn in *.
    change (String c body ++ rest) with (String c (body ++ rest)) in *.
    cbn [value]. rewrite skip_opening by done. rewrite Hq, Ha, Ho, Hc.
    rewrite Hspan, <- Hn, number_parses.
    cbn [mbind option_bind]. by rewrite DecimalZ.of_to.
  - destruct fuel as [|fuel]; [cbn in Hfuel; lia|].
    cbn [stringify]. unfold quoted.
    change (String quote (escape s ++ String quote "") ++ rest)
      with (String quote ((escape s ++ String quote "") ++ rest)).
    rewrite append_assoc.
    change (String quote "" ++ rest) with (String quote rest).
    cbn [value]. change (skip (String quote ?t)) with (String quote t).
    cbv iota. change (Ascii.eqb quote quote) with true. cbv iota.
    by rewrite chars_escape.
  - destruct fuel as [|fuel]; [cbn in Hfuel; lia|].
    apply value_array; [done|]. cbn [weight] in Hfuel. lia.
  - destruct fuel as [|fuel]; [cbn in Hfuel; lia|].
    apply value_object; [done|]. cbn [weight] in Hfuel. lia.
Qed.

Lemma join_weight (parts : list string) (ws : list nat) :
  Forall2 (λ part w, (w ≤ String.length part + 1)%nat) parts ws →
  (list_sum ws ≤ String.length (join parts) + 1)%nat.
Proof.
  induction 1 as [|part w parts ws Hw Hall IH]; [cbn; lia|].
  destruct Hall as [|part' w' parts ws Hw' Hall].
  - cbn. lia.
  - rewrite join_cons, length_append.
    cbn [list_sum fold_right String.length] in *. lia.
Qed.

Lemma weight_length v : (weight v ≤ String.length (stringify v))%nat.
Proof.
  induction v as [ |b|n|s|items IH|fields IH] using Value_induction.
  - cbn. lia.
  - destruct b; cbn; lia.
  - cbn [stringify weight]. destruct (number_head n) as (c & body & -> & _). cbn. lia.
  - cbn. lia.
  - cbn [stringify weight String.length]. rewrite length_append.
    cbn [String.length].
    pose proof (join_weight (map stringify items) (map (λ x, S (weight x)) items)) as Hj.
    assert (Forall2 (λ part w, (w ≤ String.length part + 1)%nat)
              (map stringify items) (map (λ x, S (weight x)) items)) as Hall.
    { clear Hj. induction IH as [|x items Hx _ IHitems]; constructor; [lia|done]. }
    specialize (Hj Hall). lia.
  - cbn [stringify weight String.length]. fold member. rewrite length_append.
    cbn [String.length].
    pose proof (join_weight (map member fields) (map (λ kv, S (weight kv.2)) fields)) as Hj.
    assert (Forall2 (λ part w, (w ≤ String.length part + 1)%nat)
              (map member fields) (map (λ kv, S (weight kv.2)) fields)) as Hall.
    { clear Hj. induction IH as [|[k v] fields Hv _ IHfields]; constructor; [|done].
      unfold member. cbn [fst snd] in *. rewrite length_append. cbn [String.length]. lia. }
    specialize (Hj Hall). lia.
Qed.

(** Parsing a printed value gives the value back. *)
Lemma parse_stringify v : parse (stringify v) = Some v.
Proof.
  unfold parse.
  pose proof (value_stringify v (String.length (stringify v)) ""
                (weight_length v) I) as Hv.
  replace (stringify v ++ "") with (stringify v) in Hv.
  2:{ generalize (stringify v). intros s. induction s as [|c s IH]; [done|].
      cbn. by f_equal. }
  rewrite Hv. done.
Qed.

Lemma parse_nothing : parse "" = None.
Proof. done. Qed.

End JsonFacts.

(** ** What [runNextAgentInSequence] selects *)

Lemma completed_met results a : completed results a = false → met results a = false.
Proof.
  unfold completed, met. intros Hc.
  apply bool_decide_eq_false in Hc.
  destruct (results !! a) eqn:E; [|done].
  exfalso. apply Hc. eauto.
Qed.

Lemma find_some_in {A} (p : A → bool) l x :
  List.find p l = Some x → x ∈ l ∧ p x = true.
Proof.
  intros Hf. apply find_some in Hf as [Hin Hp]. split; [|done].
  by apply list_elem_of_In.
Qed.

(** The index arithmetic of [runNextAgentInSequence] picks the candidate. *)
Lemma nextAction_candidate registry cap :
  isSequenceRunning cap = true →
  nextAction registry cap =
    match candidate (localAnalysisResults cap) with
    | None => AllDone
    | Some c =>
        match find_agent registry c ≫= requiresPreviousAgent with
        | None => RunNext c
        | Some ids =>
            if forallb (met (localAnalysisResults cap)) ids then RunNext c
            else match List.find (canRun registry (localAnalysisResults cap))
                         (List.filter (λ i, negb (met (localAnalysisResults cap) i)) ids) with
                 | Some m => RunPrerequisite m
                 | None => Blocked (default "" (name <$> find_agent registry c))
                 end
        end
    end.
Proof.
  intros Hrun. unfold nextAction, candidate, visibleAgentSequence.
  rewrite Hrun. cbn [negb findIndex List.find].
  destruct (completed (localAnalysisResults cap) "needsAnalysis") eqn:E1; cbn;
    [|by rewrite ?E1].
  destruct (completed (localAnalysisResults cap) "demandAnalyst") eqn:E2; cbn; [|done].
  destruct (completed (localAnalysisResults cap) "opportunityQualification") eqn:E3;
    cbn; [|done].
  destruct (completed (localAnalysisResults cap) "finalReport") eqn:E4; cbn; done.
Qed.

Lemma nextRunnable_sound registry cap a :
  nextRunnable registry cap = Some a →
  isSequenceRunning cap = true
  ∧ met (localAnalysisResults cap) a = false
  ∧ gated registry (localAnalysisResults cap) a = true
  ∧ ∃ c, candidate (localAnalysisResults cap) = Some c
         ∧ (a = c ∨ a ∈ prerequisites registry c).
Proof.
  unfold nextRunnable. intros Hn.
  destruct (isSequenceRunning cap) eqn:Hrun; last first.
  { unfold nextAction in Hn. by rewrite Hrun in Hn. }
  split; [done|].
  rewrite nextAction_candidate in Hn by done.
  destruct (candidate (localAnalysisResults cap)) as [c|] eqn:Hc; [|done].
  apply find_some_in in Hc as Hc'. destruct Hc' as [_ Hnc].
  apply negb_true_iff in Hnc.
  unfold gated, prerequisites.
  destruct (find_agent registry c ≫= requiresPreviousAgent) as [ids|] eqn:Hreq.
  - destruct (forallb (met (localAnalysisResults cap)) ids) eqn:Hall.
    + simplify_eq. rewrite Hreq. cbn. split_and!; eauto using completed_met.
    + destruct (List.find _ _) as [m|] eqn:Hm; [|done]. simplify_eq.
      apply find_some_in in Hm as [Hin Hcan].
      apply list_elem_of_In, filter_In in Hin as [Hin Hmiss].
      apply negb_true_iff in Hmiss.
      split_and!; [done| |].
      * unfold canRun in Hcan.
        destruct (find_agent registry a ≫= requiresPreviousAgent); done.
      * exists c. split; [done|]. right. rewrite Hreq. cbn.
        by apply list_elem_of_In.
  - simplify_eq. rewrite Hreq. cbn. split_and!; eauto using completed_met.
Qed.

Lemma find_filter {A} (p q : A → bool) l :
  List.find p (List.filter q l) = List.find (λ x, q x && p x) l.
Proof.
  induction l as [|x l IH]; [done|]. cbn.
  destruct (q x); cbn; [|done]. by rewrite IH.
Qed.

Lemma canRun_gated registry results m : canRun registry results m = gated registry results m.
Proof.
  unfold canRun, gated, prerequisites.
  by destruct (find_agent registry m ≫= requiresPreviousAgent).
Qed.

Lemma nextRunnable_selection registry cap :
  isSequenceRunning cap = true →
  nextRunnable registry cap = selection registry (localAnalysisResults cap).
Proof.
  intros Hrun. unfold nextRunnable, selection.
  rewrite nextAction_candidate by done.
  destruct (candidate (localAnalysisResults cap)) as [c|]; [|done]. cbn.
  unfold gated at 1. unfold prerequisites.
  destruct (find_agent registry c ≫= requiresPreviousAgent) as [ids|]; [|done]. cbn.
  destruct (forallb _ ids); [done|].
  rewrite find_filter.
  assert (List.find (λ x, negb (met (localAnalysisResults cap) x)
                          && canRun registry (localAnalysisResults cap) x) ids
          = List.find (λ m, negb (met (localAnalysisResults cap) m)
                            && gated registry (localAnalysisResults cap) m) ids) as ->.
  { clear. induction ids as [|x l IH]; [done|]. cbn.
    rewrite canRun_gated, IH. done. }
  by destruct (List.find _ ids).
Qed.

(** ** Traces *)

(** Looking up a key in a map built by insertions under known keys. *)
Ltac look :=
  repeat first [ rewrite lookup_insert_eq
               | rewrite lookup_insert_ne by discriminate
               | rewrite lookup_empty ];
  try reflexivity.

Section Traces.
Context `{Browser}.

Lemma run_app (t1 t2 : Task) s : run (t1 ++ t2)%list s = run t2 (run t1 s).
Proof. unfold run. apply fold_left_app. Qed.

Lemma run_cons sg (t : Task) s : run (sg :: t) s = run t (act sg s).
Proof. done. Qed.

Lemma run_tseq (t1 t2 : Task) s : run (tseq t1 t2) s = run t2 (run t1 s).
Proof.
  revert s. induction t1 as [|a t1 IH]; intros s; [done|].
  destruct t1 as [|b t1].
  - destruct t2; done.
  - cbn [tseq]. rewrite !run_cons. apply IH.
Qed.

(** The only events of [processWithAgent] are those of its first
    segment. *)
Lemma processWithAgent_trace cap agentId s :
  trace (run (processWithAgent cap agentId) s) =
    (if keyMissing cap agentId
     then ToastError "API key is missing. Please add it in Settings."
     else Running agentId) :: ProcessWithAgent agentId :: trace s.
Proof.
  unfold processWithAgent.
  destruct (keyMissing cap agentId); [done|].
  cbn. unfold when. 
  repeat match goal with |- context [if ?b then _ else _] => destruct b end; reflexivity.
Qed.
Lemma enter_trace a s : trace (enter a s) = trace s.
Proof. unfold enter. by destruct (negb _). Qed.

Lemma complete_trace cap a s : trace (complete cap a s) = trace s.
Proof. unfold complete, andThen, when. by destruct (negb _). Qed.

Lemma iterations_trace cap pending rest s :
  (∀ s', trace (pending s') = trace s') →
  trace (run (iterations cap pending rest) s) =
    ToastSuccess "Analysis sequence completed successfully!"
    :: started rest ++ trace s.
Proof.
  revert pending s. induction rest as [|a rest IH]; intros pending s Hq.
  - cbn. by rewrite Hq.
  - cbn [iterations]. rewrite !run_cons. rewrite IH by done.
    unfold started. cbn [rev]. rewrite fmap_app, <- app_assoc. cbn.
    cbn [act seg]. rewrite complete_trace. unfold andThen.
    change (trace (setProgress a 100 "loading" ?x)) with (trace x).
    change (trace (setProgress a 75 "loading" ?x)) with (trace x).
    change (trace (setProgress a 50 "loading" ?x)) with (trace x).
    rewrite enter_trace. cbn. by rewrite Hq.
Qed.

Lemma iterations_flag cap pending rest s :
  isSequenceRunning (run (iterations cap pending rest) s) = false.
Proof.
  revert pending s. induction rest as [|a rest IH]; intros pending s; [done|].
  cbn [iterations]. rewrite !run_cons. apply IH.
Qed.
(** The progress reports of the chunking call touch the optimisation
    progress and its stored copy, nothing else. *)
Lemma reports_frame (reps : list Z) s :
  ∃ p store,
    run (seg ∘ setOptimizationProgress <$> reps) s
    = with_localStorage store (with_optimizationProgress p s).
Proof.
  revert s. induction reps as [|r reps IH]; intros s.
  - by exists (optimizationProgress s), (localStorage s).
  - cbn [fmap list_fmap]. rewrite run_cons.
    destruct (IH (act ((seg ∘ setOptimizationProgress) r) s)) as (p & store & ->).
    by exists p, store.
Qed.

Lemma agentLoop_trace cap s :
  trace (run (agentLoop cap) s) =
    ToastSuccess "Analysis sequence completed successfully!"
    :: started ["needsAnalysis"; "demandAnalyst"; "opportunityQualification"; "finalReport"]
    ++ trace s.
Proof.
  unfold agentLoop. rewrite !run_cons, iterations_trace by done. done.
Qed.

Lemma agentLoop_flag cap s : isSequenceRunning (run (agentLoop cap) s) = false.
Proof. unfold agentLoop. rewrite !run_cons. apply iterations_flag. Qed.

(** Without input, nothing happens on a page on which nothing is in
    flight. *)
Lemma nothing_in_flight w w' :
  pool w = [] → reloading w = false → rtc (pageStep (λ _, False)) w w' → w' = w.
Proof.
  intros Hpool Hre Hrtc. induction Hrtc as [|w1 w2 w3 Hstep _ IH]; [done|].
  destruct Hstep as [wa wb Hstep|wa Hreload]; [|congruence].
  destruct Hstep as [i wa []|n wa].
  assert (resume n wa = wa) as Hsame by (unfold resume; by rewrite Hpool).
  rewrite Hsame in IH. by apply IH.
Qed.

(** C4, amended. [stopAnalysisSequence] clears the sequence flag and
    toasts "Analysis sequence stopped."; it writes nothing else and
    takes nothing out of what is in flight. The flag is read by
    [runNextAgentInSequence], which starts nothing in a render whose
    flag is off. The loop of [startAnalysisSequence] never reads it:
    stopped in whatever state while an agent of the loop is in flight
    (its iteration has run up to the first wait), the agent goes on to
    store its result, and the loop then starts every agent after it
    and ends with its success toast. What ends a sequence on this page
    is the reload that "Reset Evaluation" schedules: after it nothing
    is in flight and no reload is pending, and without input nothing
    happens. *)
Theorem stop_clears_the_flag_only :
  (∀ s,
     stopAnalysisSequence s
     = with_trace (ToastInfo "Analysis sequence stopped." :: trace s)
         (with_localStorage
            (<["opportunityIsSequenceRunning" := JSON_stringify (VBool false)]>
               (localStorage s))
            (with_isSequenceRunning false s)))
  ∧ (∀ w,
       live (fire (handler (live w) Stop) w) = stopAnalysisSequence (live w)
       ∧ pool (fire (handler (live w) Stop) w) = (pool w ++ [[]])%list
       ∧ reloading (fire (handler (live w) Stop) w) = reloading w)
  ∧ (∀ fuel cap s,
       isSequenceRunning cap = false →
       nextRunnable agents cap = None
       ∧ length (runNextAgentInSequence fuel cap) = 1%nat
       ∧ run (runNextAgentInSequence fuel cap) s = s)
  ∧ (∀ cap previous agentId rest s,
       let entered :=
         act (seg (leave previous >> emit (StartingAgent agentId) >> enter agentId)) s in
       let remaining := drop 1 (iterations cap (leave previous) (agentId :: rest)) in
       isSequenceRunning (stopAnalysisSequence entered) = false
       ∧ localAnalysisResults (run (take 4 remaining) (stopAnalysisSequence entered))
           !! agentId
         = Some (dummyResult cap agentId)
       ∧ trace (run remaining (stopAnalysisSequence entered))
         = ToastSuccess "Analysis sequence completed successfully!"
           :: started rest
           ++ ToastInfo "Analysis sequence stopped." :: StartingAgent agentId :: trace s
       ∧ isSequenceRunning (run remaining (stopAnalysisSequence entered)) = false)
  ∧ (∀ w,
       reloading (fire (handler (live w) ResetEvaluation) w) = true
       ∧ pool (unload w) = []
       ∧ ∀ w', rtc (pageStep (λ _, False)) (unload w) w' → w' = unload w).
Proof.
  split_and!.
  - done.
  - intros w. split_and!; [done|done|]. cbn. apply orb_false_r.
  - intros fuel cap s Hoff.
    assert (nextAction agents cap = NotRunning) as Hnext
      by (unfold nextAction; by rewrite Hoff).
    split_and!.
    + unfold nextRunnable. by rewrite Hnext.
    + destruct fuel; cbn [runNextAgentInSequence]; by rewrite Hnext.
    + destruct fuel; cbn [runNextAgentInSequence]; by rewrite Hnext.
  - intros cap previous agentId rest s. cbn zeta. split_and!.
    + done.
    + cbn [iterations drop take]. rewrite !run_cons. cbn [run fold_left act seg].
      unfold complete, andThen.
      destruct (negb (String.eqb agentId "longContextChunking")); cbn;
        apply lookup_insert_eq.
    + cbn [iterations drop]. rewrite !run_cons.
      rewrite iterations_trace by done.
      cbn [act seg]. rewrite complete_trace. unfold andThen.
      change (trace (setProgress agentId 100 "loading" ?x)) with (trace x).
      change (trace (setProgress agentId 75 "loading" ?x)) with (trace x).
      change (trace (setProgress agentId 50 "loading" ?x)) with (trace x).
      unfold stopAnalysisSequence, andThen.
      change (trace (emit ?e ?x)) with (e :: trace x).
      change (trace (setIsSequenceRunning false ?x)) with (trace x).
      do 3 f_equal. apply enter_trace.
    + cbn [iterations drop]. rewrite !run_cons. apply iterations_flag.
  - intros w. split_and!.
    + cbn. apply orb_true_r.
    + done.
    + intros w'. by apply nothing_in_flight.
Qed.

Lemma startAnalysisSequence_run cap outcome s :
  transcript cap ≠ "" →
  run (startAnalysisSequence cap outcome) s
  = run (agentLoop cap) (run (chunkingPhase cap outcome) s).
Proof.
  intros Hne. unfold startAnalysisSequence.
  apply String.eqb_neq in Hne. rewrite Hne. apply run_app.
Qed.

(** The state in which the [catch] leaves the session. *)
Lemma chunkingPhase_rejected cap reps message :
  blank (transcript cap) = false →
  ∃ p store,
    run (chunkingPhase cap (Rejected reps message)) cap
    = chunkingDone (fallbackResult message) true
        (with_localStorage store
           (with_optimizationProgress p
              ((resetForSequence
                >> emit (StartingAgent "longContextChunking")
                >> setIsOptimizingTranscript true
                >> setOptimizationProgress 5
                >> emit (ChunkingCall (transcript cap))) cap))).
Proof.
  intros Hblank. unfold chunkingPhase. rewrite Hblank.
  rewrite run_cons, run_app.
  destruct (reports_frame reps
              (act (seg (resetForSequence
                >> emit (StartingAgent "longContextChunking")
                >> setIsOptimizingTranscript true
                >> setOptimizationProgress 5
                >> emit (ChunkingCall (transcript cap)))) cap)) as (p & store & Hrep).
  cbn [reports]. rewrite Hrep. by exists p, store.
Qed.

(** The state the chunking phase ends in: its last statements are
    those of [chunkingDone]. *)
Lemma chunkingPhase_end cap outcome s :
  ∃ x stored failed,
    run (chunkingPhase cap outcome) s = chunkingDone stored failed x
    ∧ truthy stored = true
    ∧ analyzingAgents x = ∅ ∧ showResult x = None ∧ hasAnalyzed x = false
    ∧ isSequenceRunning x = true ∧ isOptimizingTranscript x = true
    ∧ agentProgress x = ∅ ∧ transcript x = transcript s
    ∧ userHasSelectedView x = userHasSelectedView s
    ∧ finishedAgentsArray x = finishedAgentsArray s
    ∧ localAnalysisResults x = ∅ ∧ finishedAgents x = finishedAgents s
    ∧ currentRunningAgent x = currentRunningAgent s.
Proof.
  unfold chunkingPhase. destruct (blank (transcript cap)).
  - exists ((resetForSequence >> emit (StartingAgent "longContextChunking")
             >> setIsOptimizingTranscript true) s),
           (fallbackResult "No transcript content to analyze"), true.
    split; [reflexivity|]. by cbn.
  - rewrite run_cons, run_app.
    match goal with |- context [run (_ <$> reports outcome) ?y] =>
      destruct (reports_frame (reports outcome) y) as (p & store & ->) end.
    destruct outcome as [reps r|reps message];
      eexists _, _, _; (split; [reflexivity|]); by cbn.
Qed.

(** The session in which the writes of [startAnalysisSequence] end,
    whatever the chunking call returned or threw. *)
Lemma run_final_state cap outcome s :
  transcript cap ≠ "" →
  let s' := run (startAnalysisSequence cap outcome) s in
  (∀ agentId,
     localAnalysisResults s' !! agentId
     = if bool_decide (agentId ∈ AGENT_SEQUENCE)
       then Some (dummyResult cap agentId) else None)
  ∧ (∀ agentId,
       agentId ∈ AGENT_SEQUENCE →
       agentProgress s' !! agentId = Some (progressEntry 100 "success"))
  ∧ analyzingAgents s' = ∅
  ∧ finishedAgents s' = finishedAgents s ∪ list_to_set AGENT_SEQUENCE
  ∧ finishedAgentsArray s' = (finishedAgentsArray s ++ ["longContextChunking"])%list
  ∧ hasAnalyzed s' = true
  ∧ isSequenceRunning s' = false
  ∧ isOptimizingTranscript s' = false
  ∧ optimizationProgress s' = 100
  ∧ showResult s' = Some "finalReport"
  ∧ currentRunningAgent s' = Some "finalReport"
  ∧ userHasSelectedView s' = userHasSelectedView s
  ∧ transcript s' = transcript s.
Proof.
  intros Hne. cbn zeta. rewrite startAnalysisSequence_run by done.
  destruct (chunkingPhase_end cap outcome s)
    as (x & stored & failed & -> & _ & Han & Hshow & Hhas & Hrun & Hopt & Hprog & Htr
        & Huser & Harr & Hres & Hfin & Hcur).
  destruct x. cbn in Han, Hshow, Hhas, Hrun, Hopt, Hprog, Htr, Huser, Harr, Hres, Hfin, Hcur.
  subst.
  assert (∀ agentId, agentId ∈ AGENT_SEQUENCE ↔
            agentId = "longContextChunking" ∨ agentId = "needsAnalysis"
            ∨ agentId = "demandAnalyst" ∨ agentId = "opportunityQualification"
            ∨ agentId = "finalReport") as Hseq
    by (intros agentId; unfold AGENT_SEQUENCE; set_solver).
  destruct failed; cbn -[dummyResult progressEntry];
    (split_and!; try reflexivity;
     [ intros agentId; case_bool_decide as Hin; rewrite Hseq in Hin;
       [ destruct Hin as [->|[->|[->|[->| ->]]]]; look
       | rewrite !lookup_insert_ne by (intros <-; tauto); done ]
     | intros agentId Hin; rewrite Hseq in Hin;
       destruct Hin as [->|[->|[->|[->| ->]]]]; look
     | unfold AGENT_SEQUENCE; clear; set_solver .. ]).
Qed.

Lemma chunkingPhase_length cap outcome :
  blank (transcript cap) = false →
  length (chunkingPhase cap outcome) = (length (reports outcome) + 2)%nat.
Proof.
  intros Hblank. unfold chunkingPhase. rewrite Hblank.
  cbn. rewrite length_app, length_fmap. cbn. lia.
Qed.

(** The iteration of the [k]-th of the agents [rest] after its first
    segment, and after its last progress tick. *)
Lemma iterations_entered cap : ∀ rest pending k agentId s,
  rest !! k = Some agentId →
  agentId ≠ "longContextChunking" →
  head (trace (run (take (S (5 * k)) (iterations cap pending rest)) s))
  = Some (StartingAgent agentId)
  ∧ analyzingAgents (run (take (S (5 * k)) (iterations cap pending rest)) s)
    = {[agentId]}
  ∧ currentRunningAgent (run (take (S (5 * k)) (iterations cap pending rest)) s)
    = Some agentId
  ∧ agentProgress (run (take (S (5 * k)) (iterations cap pending rest)) s) !! agentId
    = Some (progressEntry 25 "loading")
  ∧ agentProgress (run (take (4 + 5 * k) (iterations cap pending rest)) s) !! agentId
    = Some (progressEntry 100 "loading").
Proof.
  induction rest as [|a rest IH]; intros pending k agentId s Hk Hne; [done|].
  destruct k as [|k].
  - injection Hk as ->.
    apply String.eqb_neq in Hne.
    cbn [Nat.mul Nat.add iterations take]. rewrite !run_cons.
    cbn [run fold_left act seg]. unfold enter, andThen. rewrite Hne.
    cbn. split_and!; try done; apply lookup_insert_eq.
  - replace (S (5 * S k)) with (5 + S (5 * k))%nat by lia.
    replace (4 + 5 * S k)%nat with (5 + (4 + 5 * k))%nat by lia.
    cbn [iterations].
    change (take (5 + ?m) (?s1 :: ?s2 :: ?s3 :: ?s4 :: ?s5 :: ?l))
      with (s1 :: s2 :: s3 :: s4 :: s5 :: take m l).
    rewrite !run_cons. by apply IH.
Qed.

(** C10. When the chunking call rejects, the [catch] stores the
    fallback result for longContextChunking, with [completed: true] and
    the message of the error under [error]; the optimization progress
    is 100 and the agent is in the finished set, and on these results
    the prerequisite check of needsAnalysis passes, as it does on those
    of a call that resolves. The sequence goes on: each of the four
    later agents is started in its turn (it is then the one agent of
    the analyzing set and the running agent, and its progress record
    goes from 25 to 100 with the status "loading"); when the run is
    over each of the five agents has its result, a progress record of
    100 with the status "success" and is in the finished set, the
    analyzing set is empty, the trace is the one of a run that goes
    through, with its success toast, and the sequence flag is off. *)
Theorem chunking_failure_continues cap reps message :
  transcript cap ≠ "" →
  blank (transcript cap) = false →
  let sequence := startAnalysisSequence cap (Rejected reps message) in
  let caught := run (chunkingPhase cap (Rejected reps message)) cap in
  let over := run sequence cap in
  localAnalysisResults caught !! "longContextChunking" = Some (fallbackResult message)
  ∧ prop "completed" (fallbackResult message) = Some (VBool true)
  ∧ prop "error" (fallbackResult message) = Some (VStr message)
  ∧ optimizationProgress caught = 100
  ∧ "longContextChunking" ∈ finishedAgents caught
  ∧ gated agents (localAnalysisResults caught) "needsAnalysis" = true
  ∧ (∀ reps' result,
       gated agents
         (localAnalysisResults (run (chunkingPhase cap (Resolved reps' result)) cap))
         "needsAnalysis" = true)
  ∧ (∀ k agentId,
       visibleAgentSequence !! k = Some agentId →
       let entered := run (take (length reps + 8 + 5 * k) sequence) cap in
       let ticked := run (take (length reps + 11 + 5 * k) sequence) cap in
       head (trace entered) = Some (StartingAgent agentId)
       ∧ analyzingAgents entered = {[agentId]}
       ∧ currentRunningAgent entered = Some agentId
       ∧ agentProgress entered !! agentId = Some (progressEntry 25 "loading")
       ∧ agentProgress ticked !! agentId = Some (progressEntry 100 "loading"))
  ∧ (∀ agentId,
       agentId ∈ AGENT_SEQUENCE →
       localAnalysisResults over !! agentId = Some (dummyResult cap agentId)
       ∧ agentProgress over !! agentId = Some (progressEntry 100 "success")
       ∧ agentId ∈ finishedAgents over)
  ∧ analyzingAgents over = ∅
  ∧ trace over =
      ToastSuccess "Analysis sequence completed successfully!"
      :: started ["needsAnalysis"; "demandAnalyst"; "opportunityQualification";
                  "finalReport"]
      ++ ChunkingCall (transcript cap) :: StartingAgent "longContextChunking"
      :: trace cap
  ∧ isSequenceRunning over = false.
Proof.
  intros Hne Hblank. cbn zeta.
  split_and!.
  - destruct (chunkingPhase_rejected cap reps message Hblank) as (p & store & ->).
    cbn. apply lookup_insert_eq.
  - reflexivity.
  - reflexivity.
  - by destruct (chunkingPhase_rejected cap reps message Hblank) as (p & store & ->).
  - destruct (chunkingPhase_rejected cap reps message Hblank) as (p & store & ->).
    cbn. set_solver.
  - destruct (chunkingPhase_rejected cap reps message Hblank) as (p & store & ->).
    unfold gated, met. cbn. by rewrite lookup_insert_eq.
  - intros reps' result.
    destruct (chunkingPhase_end cap (Resolved reps' result) cap)
      as (x & stored & failed & -> & Hstored & _).
    unfold gated, met, chunkingDone, andThen. destruct failed; cbn;
      rewrite lookup_insert_eq; cbn; by rewrite Hstored.
  - intros k agentId Hk. cbn zeta.
    assert (agentId ≠ "longContextChunking") as Hvisible.
    { apply list_elem_of_lookup_2 in Hk. unfold visibleAgentSequence in Hk.
      intros ->. set_solver. }
    unfold startAnalysisSequence. apply String.eqb_neq in Hne. rewrite Hne.
    replace (length reps + 8 + 5 * k)%nat
      with (length (chunkingPhase cap (Rejected reps message)) + (5 + S (5 * k)))%nat
      by (rewrite chunkingPhase_length by done; cbn [reports]; lia).
    replace (length reps + 11 + 5 * k)%nat
      with (length (chunkingPhase cap (Rejected reps message)) + (5 + (4 + 5 * k)))%nat
      by (rewrite chunkingPhase_length by done; cbn [reports]; lia).
    rewrite !take_app_add, !run_app. unfold agentLoop.
    change (take (5 + ?m) (?s1 :: ?s2 :: ?s3 :: ?s4 :: ?s5 :: ?l))
      with (s1 :: s2 :: s3 :: s4 :: s5 :: take m l).
    rewrite !run_cons. by apply iterations_entered.
  - intros agentId Hin.
    destruct (run_final_state cap (Rejected reps message) cap Hne)
      as (Hres & Hprog & _ & Hfin & _).
    split_and!.
    + rewrite Hres. by rewrite bool_decide_true.
    + by apply Hprog.
    + rewrite Hfin. set_solver.
  - by destruct (run_final_state cap (Rejected reps message) cap Hne) as (_ & _ & Han & _).
  - rewrite startAnalysisSequence_run by done.
    destruct (chunkingPhase_rejected cap reps message Hblank) as (p & store & ->).
    rewrite agentLoop_trace. cbn. reflexivity.
  - rewrite startAnalysisSequence_run by done. apply agentLoop_flag.
Qed.
End Traces.

(** ** Prerequisites before [processWithAgent] *)

Section Gating.
Context `{Browser}.

Lemma when_trace c (a : Act) s :
  (∀ s', trace (a s') = trace s') → trace (when c a s) = trace s.
Proof. intros Ha. destruct c; [apply Ha | done]. Qed.

(** The opening of [runNextAgentInSequence] leaves no event. *)
Lemma guards_trace (c1 c2 : bool) s :
  trace ((when c1 (setShowResult None) >> when c2 (setShowResult None)) s) = trace s.
Proof. unfold andThen. by rewrite !when_trace. Qed.

Lemma nextAction_running registry cap :
  nextAction registry cap ≠ NotRunning → isSequenceRunning cap = true.
Proof.
  unfold nextAction. by destruct (isSequenceRunning cap).
Qed.

(** Every call of [processWithAgent] made by [runNextAgentInSequence]
    is for the agent [nextRunnable] selects. *)
Lemma runNext_invokes fuel a : ∀ cap s,
  ProcessWithAgent a ∈ trace (run (runNextAgentInSequence fuel cap) s) →
  ProcessWithAgent a ∈ trace s ∨ nextRunnable agents cap = Some a.
Proof.
  assert (∀ cap x s (k : Task),
            (∀ s', ProcessWithAgent a ∈ trace (run k s') →
                   ProcessWithAgent a ∈ trace s' ∨ nextRunnable agents cap = Some a) →
            nextRunnable agents cap = Some x →
            ProcessWithAgent a ∈ trace (run k (run (processWithAgent cap x) s)) →
            ProcessWithAgent a ∈ trace s ∨ nextRunnable agents cap = Some a) as Hcall.
  { intros cap x s k Hk Hx Hin. apply Hk in Hin as [Hin|Hin]; [|by right].
    rewrite processWithAgent_trace in Hin.
    destruct (keyMissing cap x); set_solver. }
  induction fuel as [|fuel IH]; intros cap s.
  all: cbn [runNextAgentInSequence];
    destruct (nextAction agents cap) as [| |n|m|nm] eqn:Hact.
  all: try (by left).
  all: try (rewrite run_cons; cbn [run fold_left act seg]; unfold andThen at 1;
            cbn [trace setIsSequenceRunning with_isSequenceRunning setItem
                 with_localStorage emit with_trace andThen];
            rewrite ?guards_trace; set_solver).
  all: rewrite (nextAction_running agents cap) by congruence.
  all: rewrite ?run_cons, ?run_app, ?run_tseq; cbn [act seg]; intros Hin.
  all: eapply Hcall in Hin;
    [ rewrite ?run_cons in Hin; cbn [act seg run fold_left] in Hin;
      rewrite guards_trace in Hin; exact Hin
    | try (intros s'; cbn [run fold_left]; by left); try apply IH
    | unfold nextRunnable; by rewrite Hact ].
Qed.

Lemma handleRunSingleAgent_invokes cap agentId s a :
  ProcessWithAgent a ∈ trace (run (handleRunSingleAgent cap agentId) s) →
  ProcessWithAgent a ∈ trace s
  ∨ (a = agentId ∧ gated agents (localAnalysisResults cap) agentId = true).
Proof.
  unfold handleRunSingleAgent.
  destruct (String.eqb (transcript cap) ""); [cbn; set_solver|].
  destruct (List.filter _ _) as [|m ms] eqn:Hmissing; [|cbn; set_solver].
  rewrite processWithAgent_trace. intros Hin.
  assert (ProcessWithAgent a ∈ trace s ∨ a = agentId) as [? | ->]
    by (destruct (keyMissing cap agentId); set_solver); [by left|].
  right. split; [done|].
  unfold gated, prerequisites.
  apply forallb_forall. intros p Hp.
  destruct (met (localAnalysisResults cap) p) eqn:Hmet; [done|].
  assert (In p (List.filter (λ i, negb (met (localAnalysisResults cap) i))
                 (default [] (find_agent agents agentId ≫= requiresPreviousAgent))))
    as Hin' by (apply filter_In; by rewrite Hmet).
  rewrite Hmissing in Hin'. done.
Qed.

(** C1 (as amended). Where the page checks prerequisites it holds to
    them: [runNextAgentInSequence] and [handleRunSingleAgent] call
    [processWithAgent] for an agent only when every prerequisite the
    registry declares for it has a result, in the results of the render
    the handler comes from, that passes the check
    [localAnalysisResults[id]]. *)
Theorem processWithAgent_gated cap s a :
  trace s = [] →
  (∀ fuel,
     ProcessWithAgent a ∈ trace (run (runNextAgentInSequence fuel cap) s) →
     gated agents (localAnalysisResults cap) a = true)
  ∧ (∀ agentId,
       ProcessWithAgent a ∈ trace (run (handleRunSingleAgent cap agentId) s) →
       a = agentId ∧ gated agents (localAnalysisResults cap) a = true).
Proof.
  intros Hs. split.
  - intros fuel Hin. apply runNext_invokes in Hin as [Hin|Hin].
    + rewrite Hs in Hin. set_solver.
    + by apply nextRunnable_sound in Hin as (_ & _ & ? & _).
  - intros agentId Hin. apply handleRunSingleAgent_invokes in Hin as [Hin|[-> ?]].
    + rewrite Hs in Hin. set_solver.
    + done.
Qed.

(** When every agent of the sequence has a stored result,
    [runNextAgentInSequence] selects no agent; the call is one segment,
    without timers, that adds nothing to the trace (no call of
    [processWithAgent], no toast) and leaves the sequence flag off. *)
Lemma runNext_when_complete fuel cap :
  (∀ agentId, agentId ∈ AGENT_SEQUENCE →
              is_Some (localAnalysisResults cap !! agentId)) →
  nextRunnable agents cap = None
  ∧ (∃ a, runNextAgentInSequence fuel cap = [seg a])
  ∧ trace (run (runNextAgentInSequence fuel cap) cap) = trace cap
  ∧ isSequenceRunning (run (runNextAgentInSequence fuel cap) cap) = false.
Proof.
  intros Hall.
  assert (∀ agentId, agentId ∈ AGENT_SEQUENCE →
                     completed (localAnalysisResults cap) agentId = true) as Hc.
  { intros a Ha. apply bool_decide_eq_true. by apply Hall. }
  assert (candidate (localAnalysisResults cap) = None) as Hcand.
  { unfold candidate, visibleAgentSequence. cbn.
    rewrite !Hc by (unfold AGENT_SEQUENCE; set_solver). done. }
  destruct (isSequenceRunning cap) eqn:Hrun.
  - assert (nextAction agents cap = AllDone) as Hact
      by (rewrite nextAction_candidate, Hcand; done).
    unfold nextRunnable.
    destruct fuel; cbn [runNextAgentInSequence]; rewrite Hact;
      (split_and!; [done | eauto | | done]);
      rewrite run_cons; cbn [run fold_left act seg]; unfold andThen at 1;
      cbn [trace setIsSequenceRunning with_isSequenceRunning setItem
           with_localStorage andThen];
      by rewrite guards_trace.
  - assert (nextAction agents cap = NotRunning) as Hact
      by (unfold nextAction; by rewrite Hrun).
    unfold nextRunnable.
    destruct fuel; cbn [runNextAgentInSequence]; rewrite Hact;
      (split_and!; [done | eauto | done | done]).
Qed.

(** An agent other than the chunking one that is run without an API
    key ends in its first segment: an error toast, [null] for a result;
    the agent is not added to the analyzing set, no progress record and
    no result are written, and the only thing left pending is the
    clean-up timer. *)
Lemma processWithAgent_without_key cap agentId s :
  keyMissing cap agentId = true →
  processWithAgent_result cap agentId = None
  ∧ trace (run (processWithAgent cap agentId) s)
    = ToastError "API key is missing. Please add it in Settings."
      :: ProcessWithAgent agentId :: trace s
  ∧ length (processWithAgent cap agentId) = 1%nat
  ∧ analyzingAgents (run (processWithAgent cap agentId) s) = analyzingAgents s
  ∧ agentProgress (run (processWithAgent cap agentId) s) = agentProgress s
  ∧ localAnalysisResults (run (processWithAgent cap agentId) s)
    = localAnalysisResults s.
Proof.
  intros Hk. unfold processWithAgent_result, processWithAgent. rewrite Hk. done.
Qed.

End Gating.

(** ** Grade Transcripts: retries, credentials, the end of the sequence *)

Module GradeProofs.
Import GradeTranscripts.

Section Retry.
Context `{Browser}.
Variable MAX_RETRIES : nat.
Variable AGENT_SEQUENCE : list AgentId.

Abbreviation runAnalysisRef := (runAnalysisRef MAX_RETRIES AGENT_SEQUENCE).
Abbreviation progression := (progression AGENT_SEQUENCE).
Abbreviation exhausted := (exhausted MAX_RETRIES).

Lemma update_same a f prev : update a f prev a = f (prev a).
Proof. unfold update. by rewrite decide_True. Qed.

Lemma update_other a b f prev : b ≠ a → update a f prev b = prev b.
Proof. intros. unfold update. by rewrite decide_False. Qed.

Lemma exhaust failures : ∀ rest agentId content s,
  checkApiKey s = None →
  Forall transient failures →
  (retryCount (agentStates s agentId) + length failures = MAX_RETRIES)%nat →
  let s' := runAnalysisRef (failures ++ rest) agentId content s s in
  retryCount (agentStates s' agentId) = MAX_RETRIES
  ∧ results (agentStates s' agentId) = results (agentStates s agentId)
  ∧ isSequenceRunning s' = false
  ∧ calls agentId (trace s') = (calls agentId (trace s) + length failures)%nat
  ∧ (∃ msg, head (trace s') = Some (ToastError msg))
  ∧ (∀ b, b ≠ agentId → agentStates s' b = agentStates s b)
  ∧ llmApiKey s' = llmApiKey s
  ∧ currentAnalysisIndex s' = currentAnalysisIndex s.
Proof.
  induction failures as [|o failures IH]; intros rest agentId content s Hkey Htr Hn; cbn zeta.
  - cbn in Hn. rewrite Nat.add_0_r in Hn.
    assert ((MAX_RETRIES <=? retryCount (agentStates s agentId))%nat = true) as Hle
      by (apply Nat.leb_le; lia).
    destruct rest; cbn [app GradeTranscripts.runAnalysisRef]; rewrite Hkey, Hle;
      cbn; rewrite Nat.add_0_r; split_and!; eauto.
  - inversion_clear Htr as [|? ? Ho Htr'].
    destruct o as [|message]; [done|]. cbn in Ho.
    cbn [length] in Hn.
    assert ((MAX_RETRIES <=? retryCount (agentStates s agentId))%nat = false) as Hle
      by (apply Nat.leb_gt; lia).
    cbn [app GradeTranscripts.runAnalysisRef]. rewrite Hkey, Ho, Hle.
    cbn [agentStates emit setAgentStates]. rewrite update_same. cbn [retryCount].
    destruct (Nat.ltb_spec (S (retryCount (agentStates s agentId))) MAX_RETRIES).
    + edestruct (IH rest agentId content) as (I1 & I2 & I3 & I4 & I5 & I6 & I7 & I8);
        [ | done| | ].
      3:{ rewrite I1, I2, I3, I4. rewrite I7, I8.
          split_and!; try done.
          - cbn. by rewrite update_same.
          - unfold calls. cbn. rewrite bool_decide_true by done. cbn. lia.
          - intros b Hb. rewrite I6 by done. cbn. by rewrite update_other. }
      * done.
      * cbn. rewrite update_same. cbn. lia.
    + assert (failures = []) as -> by (destruct failures; [done|cbn in Hn; lia]).
      unfold calls. cbn. rewrite update_same. cbn. rewrite bool_decide_true by done.
      split_and!; eauto; try (cbn; lia).
      intros b Hb. by rewrite update_other.
Qed.

(** Fewer failures than the bound, then a result: the run succeeds. *)
Lemma retry_succeeds failures : ∀ r rest agentId content s,
  checkApiKey s = None →
  Forall transient failures →
  (retryCount (agentStates s agentId) + length failures < MAX_RETRIES)%nat →
  let s' := runAnalysisRef (failures ++ Ok r :: rest) agentId content s s in
  results (agentStates s' agentId) = Some r
  ∧ progress (agentStates s' agentId) = 100
  ∧ isAnalyzing (agentStates s' agentId) = false
  ∧ calls agentId (trace s') = (calls agentId (trace s) + S (length failures))%nat.
Proof.
  induction failures as [|o failures IH]; intros r rest agentId content s Hkey Htr Hn; cbn zeta.
  - cbn in Hn.
    assert ((MAX_RETRIES <=? retryCount (agentStates s agentId))%nat = false) as Hle
      by (apply Nat.leb_gt; lia).
    cbn [app GradeTranscripts.runAnalysisRef]. rewrite Hkey, Hle.
    destruct (decide (last AGENT_SEQUENCE = Some agentId));
      unfold calls; cbn; rewrite !update_same; cbn; rewrite bool_decide_true by done;
      split_and!; try done; cbn; lia.
  - inversion_clear Htr as [|? ? Ho Htr'].
    destruct o as [|message]; [done|]. cbn in Ho.
    cbn [length] in Hn.
    assert ((MAX_RETRIES <=? retryCount (agentStates s agentId))%nat = false) as Hle
      by (apply Nat.leb_gt; lia).
    cbn [app GradeTranscripts.runAnalysisRef]. rewrite Hkey, Ho, Hle.
    cbn [agentStates emit setAgentStates]. rewrite update_same. cbn [retryCount].
    assert ((S (retryCount (agentStates s agentId)) <? MAX_RETRIES)%nat = true) as ->
      by (apply Nat.ltb_lt; lia).
    edestruct (IH r rest agentId content) as (I1 & I2 & I3 & I4); [ | done | | ].
    3:{ rewrite I1, I2, I3, I4. split_and!; try done.
        unfold calls. cbn. rewrite bool_decide_true by done. cbn. lia. }
    + done.
    + cbn. rewrite update_same. cbn. lia.
Qed.

(** Once the retries are used up, a further run of the agent makes no
    call and changes no agent state. *)
Lemma exhausted_terminal outcomes agentId content s :
  checkApiKey s = None →
  exhausted s agentId →
  let s' := runAnalysisRef outcomes agentId content s s in
  agentStates s' = agentStates s
  ∧ isSequenceRunning s' = false
  ∧ calls agentId (trace s') = calls agentId (trace s)
  ∧ exhausted s' agentId.
Proof.
  intros Hkey Hex. cbn zeta. unfold exhausted in *.
  assert ((MAX_RETRIES <=? retryCount (agentStates s agentId))%nat = true) as Hle
    by (by apply Nat.leb_le).
  destruct outcomes; cbn [GradeTranscripts.runAnalysisRef]; rewrite Hkey, Hle; done.
Qed.

Lemma halted_idle s : isSequenceRunning s = false → progression s = Idle.
Proof. intros Hs. unfold GradeTranscripts.progression. by rewrite Hs. Qed.

(** Without a valid key the run ends before anything else happens. *)
Lemma runAnalysisRef_without_key outcomes agentId content s msg :
  checkApiKey s = Some msg →
  runAnalysisRef outcomes agentId content s s
  = resetAnalysisState (emit (ToastError msg) s).
Proof. intros Hkey. destruct outcomes; cbn; by rewrite Hkey. Qed.

(** The run of the last agent that succeeds ends the sequence. *)
Lemma last_agent_succeeds r rest agentId content s :
  checkApiKey s = None →
  (retryCount (agentStates s agentId) < MAX_RETRIES)%nat →
  last AGENT_SEQUENCE = Some agentId →
  isSequenceRunning (runAnalysisRef (Ok r :: rest) agentId content s s) = false
  ∧ results (agentStates (runAnalysisRef (Ok r :: rest) agentId content s s) agentId)
    = Some r.
Proof.
  intros Hkey Hn Hlast. cbn [GradeTranscripts.runAnalysisRef].
  assert ((MAX_RETRIES <=? retryCount (agentStates s agentId))%nat = false) as ->
    by (apply Nat.leb_gt; lia).
  rewrite Hkey, decide_True by done. cbn. by rewrite update_same.
Qed.

(** At the last agent the effect starts nothing; past it, it clears
    the flag. *)
Lemma progression_at_end s :
  AGENT_SEQUENCE !! S (currentAnalysisIndex s) = None →
  progression s = Idle ∨ progression s = ClearFlag.
Proof.
  intros Hend. unfold GradeTranscripts.progression.
  destruct (isSequenceRunning s); [|by left]. cbn.
  destruct (AGENT_SEQUENCE !! currentAnalysisIndex s); [|by right].
  rewrite Hend. by left.
Qed.

(** A run of an agent calls the module of no other agent. *)
Lemma calls_other outcomes : ∀ agentId content ref s b,
  b ≠ agentId →
  calls b (trace (runAnalysisRef outcomes agentId content ref s)) = calls b (trace s).
Proof.
  assert (∀ agentId content b s f, b ≠ agentId →
            calls b (trace (emit (Call agentId content) (setAgentStates f s)))
            = calls b (trace s)) as Hcall.
  { intros agentId content b s f Hb. unfold calls. cbn.
    by rewrite bool_decide_false by done. }
  induction outcomes as [|o outcomes IH]; intros agentId content ref s b Hb.
  - cbn [GradeTranscripts.runAnalysisRef].
    destruct (checkApiKey s); [done|].
    destruct (MAX_RETRIES <=? _)%nat; [done|]. by apply Hcall.
  - cbn [GradeTranscripts.runAnalysisRef].
    destruct (checkApiKey s); [done|].
    destruct (MAX_RETRIES <=? _)%nat; [done|].
    destruct o as [r|message].
    + destruct (decide (last AGENT_SEQUENCE = Some agentId)); by apply Hcall.
    + destruct (includes "API key" message); [by apply Hcall|].
      destruct (_ <? MAX_RETRIES)%nat; [|by apply Hcall].
      rewrite IH by done. by apply Hcall.
Qed.

(** A call that fails with a message about the API key is not retried:
    the message is toasted and the analysis state reset. *)
Lemma key_failure_not_retried message rest agentId content s :
  checkApiKey s = None →
  (retryCount (agentStates s agentId) < MAX_RETRIES)%nat →
  includes "API key" message = true →
  trace (runAnalysisRef (Failed message :: rest) agentId content s s)
  = ToastError message :: Call agentId content :: trace s
  ∧ isSequenceRunning (runAnalysisRef (Failed message :: rest) agentId content s s)
    = false
  ∧ agentStates (runAnalysisRef (Failed message :: rest) agentId content s s)
    = initialAgentStates.
Proof.
  intros Hkey Hn Hmsg. cbn [GradeTranscripts.runAnalysisRef].
  assert ((MAX_RETRIES <=? retryCount (agentStates s agentId))%nat = false) as ->
    by (apply Nat.leb_gt; lia).
  by rewrite Hkey, Hmsg.
Qed.

(** C3. Retry bound. An agent run with a valid key whose calls to the
    analysis module keep failing, for a reason other than the API
    key, is called again until its retry count reaches [MAX_RETRIES]:
    with a count of zero that is exactly [MAX_RETRIES] calls. Then
    its retries are exhausted, an error is toasted, the sequence flag
    is off, so the progression effect starts nothing; no other
    agent's state has changed and no other agent's module has been
    called. The state is terminal: whatever the module would answer,
    a further run of the agent makes no call and changes no agent
    state. With fewer failures before a result, the agent ends with
    that result. *)
Theorem retry_bound failures rest agentId content s :
  checkApiKey s = None →
  Forall transient failures →
  (retryCount (agentStates s agentId) + length failures = MAX_RETRIES)%nat →
  let halted := runAnalysisRef (failures ++ rest) agentId content s s in
  exhausted halted agentId
  ∧ calls agentId (trace halted) = (calls agentId (trace s) + length failures)%nat
  ∧ (∃ msg, head (trace halted) = Some (ToastError msg))
  ∧ isSequenceRunning halted = false
  ∧ progression halted = Idle
  ∧ (∀ b, b ≠ agentId →
          agentStates halted b = agentStates s b
          ∧ calls b (trace halted) = calls b (trace s))
  ∧ (∀ outcomes content',
       agentStates (runAnalysisRef outcomes agentId content' halted halted)
       = agentStates halted
       ∧ calls agentId (trace (runAnalysisRef outcomes agentId content' halted halted))
         = calls agentId (trace halted)
       ∧ isSequenceRunning (runAnalysisRef outcomes agentId content' halted halted)
         = false)
  ∧ (∀ fewer r,
       Forall transient fewer →
       (retryCount (agentStates s agentId) + length fewer < MAX_RETRIES)%nat →
       results (agentStates (runAnalysisRef (fewer ++ Ok r :: rest) agentId content s s)
                  agentId) = Some r).
Proof.
  intros Hkey Htr Hn halted.
  destruct (exhaust failures rest agentId content s Hkey Htr Hn)
    as (I1 & I2 & I3 & I4 & I5 & I6 & I7 & I8).
  fold halted in I1, I2, I3, I4, I5, I6, I7, I8.
  assert (exhausted halted agentId) as Hex by (unfold GradeTranscripts.exhausted; lia).
  assert (checkApiKey halted = None) as Hkey'
    by (unfold checkApiKey in *; by rewrite I7).
  split_and!; try done.
  - by apply halted_idle.
  - intros b Hb. split; [by apply I6|]. by apply calls_other.
  - intros outcomes content'.
    by destruct (exhausted_terminal outcomes agentId content' halted Hkey' Hex)
      as (? & ? & ? & _).
  - intros fewer r Hfewer Hlt.
    by destruct (retry_succeeds fewer r rest agentId content s Hkey Hfewer Hlt)
      as (? & _).
Qed.
End Retry.
End GradeProofs.

(** ** Single flight *)

Section SingleFlight.
Context `{Browser}.

Lemma safe_andThen a b : safe a → safe b → safe (a >> b).
Proof. intros Ha Hb s Hs. apply Hb, Ha, Hs. Qed.

Lemma safe_when c a : safe a → safe (when c a).
Proof. intros Ha. destruct c; [done|]. by intros s Hs. Qed.

(** An action that leaves the analyzing set alone. *)
Lemma safe_frame a : (∀ s, analyzingAgents (a s) = analyzingAgents s) → safe a.
Proof. intros Ha s Hs. unfold single. by rewrite Ha. Qed.

Lemma safe_clear : safe (setAnalyzingAgents (λ _, ∅)).
Proof. intros s _. unfold single. cbn. rewrite size_empty. lia. Qed.

Lemma safe_only a : safe (setAnalyzingAgents (λ _, {[a]})).
Proof. intros s _. unfold single. cbn. by rewrite size_singleton. Qed.

Lemma safe_remove a : safe (setAnalyzingAgents (λ prev, prev ∖ {[a]})).
Proof.
  intros s Hs. unfold single in *. cbn.
  etrans; [|exact Hs]. apply subseteq_size. set_solver.
Qed.

Lemma safe_seg a : safe a → safeSeg (seg a).
Proof. intros Ha. split; [done|]. constructor. Qed.

Ltac safety :=
  repeat lazymatch goal with
    | H : safe ?a |- safe ?a => exact H
    | H : ∀ x, safe (?f x) |- safe (?f _) => apply H
    | H : ∀ x y, safe (?f x y) |- safe (?f _ _) => apply H
    | |- safeSeg (seg _) => apply safe_seg
    | |- safe (_ >> _) => apply safe_andThen
    | |- safe (when _ _) => apply safe_when
    | |- safe (setAnalyzingAgents (λ _, ∅)) => apply safe_clear
    | |- safe (setAnalyzingAgents (λ _, {[_]})) => apply safe_only
    | |- safe (setAnalyzingAgents (λ prev, prev ∖ {[_]})) => apply safe_remove
    | |- safe (if ?c then _ else _) => destruct c
    | |- safe (match ?c with _ => _ end) => destruct c
    | |- safe _ => first [ assumption | apply safe_frame; intros; reflexivity ]
    end.

Lemma safe_setProgress a p st : safe (setProgress a p st).
Proof. safety. Qed.

Lemma safe_enter a : safe (enter a).
Proof. unfold enter. safety. Qed.

Lemma safe_complete cap a : safe (complete cap a).
Proof. unfold complete. safety. Qed.

Lemma safe_iterations cap pending rest :
  safe pending → safeTask (iterations cap pending rest).
Proof.
  revert pending. induction rest as [|a rest IH]; intros pending Hp; cbn.
  - constructor; [|constructor]. safety.
  - pose proof (safe_enter a). pose proof (safe_complete cap a).
    do 5 (constructor; [safety|]). apply IH. apply safe_remove.
Qed.

Lemma safe_chunkingDone v failed : safe (chunkingDone v failed).
Proof. unfold chunkingDone. safety. Qed.

Lemma safe_resetForSequence : safe resetForSequence.
Proof. unfold resetForSequence. safety. Qed.

Lemma safeTask_app (t1 t2 : Task) : safeTask t1 → safeTask t2 → safeTask (t1 ++ t2)%list.
Proof. apply Forall_app_2. Qed.

Lemma safe_chunkingPhase cap outcome : safeTask (chunkingPhase cap outcome).
Proof.
  pose proof safe_resetForSequence. pose proof safe_chunkingDone.
  unfold chunkingPhase. destruct (blank _).
  - constructor; [safety | constructor].
  - constructor; [safety|]. apply safeTask_app.
    + induction (reports outcome) as [|r l IH]; constructor; [|done].
      cbn. safety.
    + constructor; [|constructor]. destruct outcome; safety.
Qed.

Lemma safe_agentLoop cap : safeTask (agentLoop cap).
Proof.
  pose proof (safe_enter "longContextChunking").
  pose proof (safe_complete cap "longContextChunking").
  unfold agentLoop.
  do 5 (constructor; [safety|]). apply safe_iterations. apply safe_remove.
Qed.

Lemma safe_startAnalysisSequence cap outcome :
  safeTask (startAnalysisSequence cap outcome).
Proof.
  unfold startAnalysisSequence. destruct (String.eqb _ _).
  - constructor; [safety | constructor].
  - apply safeTask_app; [apply safe_chunkingPhase | apply safe_agentLoop].
Qed.

Lemma safe_handleContentChange content : safe (handleContentChange content).
Proof. unfold handleContentChange. safety. Qed.

Lemma safe_removeItems keys : safe (removeItems keys).
Proof.
  apply safe_frame. intros s. unfold removeItems.
  revert s. induction keys as [|k keys IH]; intros s; [done|].
  cbn. by rewrite IH.
Qed.

Lemma safe_handleReset confirmed : safe (handleReset confirmed).
Proof. pose proof safe_removeItems. unfold handleReset. safety. Qed.

Lemma safe_handleClearData : safe handleClearData.
Proof. pose proof safe_removeItems. unfold handleClearData, clearAllState. safety. Qed.

Lemma safe_handleViewResult cap agentId : safe (handleViewResult cap agentId).
Proof.
  unfold handleViewResult. safety.
  apply safe_frame. intros s. by repeat case_match.
Qed.

Lemma safe_sync : safe (syncAnalyzingAgents >> syncFinishedAgents).
Proof.
  safety; apply safe_frame; intros s;
    unfold syncAnalyzingAgents, syncFinishedAgents; by repeat case_match.
Qed.

Lemma safe_effect e refs cap : safe (effect e refs cap).2.
Proof.
  destruct e; cbn.
  - apply safe_frame. intros s. unfold syncAnalyzingAgents. by repeat case_match.
  - apply safe_frame. intros s. unfold syncFinishedAgents. by repeat case_match.
  - unfold autoSelectView. safety.
  - safety.
  - unfold sequenceEffect. repeat case_match; cbn; safety.
  - unfold chunkingViewGuard. repeat case_match; cbn; safety.
Qed.

Lemma safe_effects es : ∀ refs cap, safe (effects es refs cap).2.
Proof.
  induction es as [|e es IH]; intros refs cap; cbn; [by intros s|].
  pose proof (safe_effect e refs cap) as He.
  destruct (effect e refs cap) as [refs1 a].
  specialize (IH refs1 cap). destruct (effects es refs1 cap) as [refs2 b].
  by apply safe_andThen.
Qed.

Lemma safe_handler cap i : sequenceInput i → safeTask (handler cap i).
Proof.
  pose proof safe_handleContentChange. pose proof safe_handleReset.
  pose proof safe_handleClearData. pose proof safe_handleViewResult.
  pose proof safe_sync. pose proof safe_effects.
  destruct i; cbn; try done; intros _.
  - apply safe_startAnalysisSequence.
  - constructor; [|constructor]. unfold stopAnalysisSequence. safety.
  - constructor; [|constructor]. safety.
  - constructor; [|constructor]. safety.
  - constructor; [|constructor]. split; [apply safe_handleClearData | constructor].
  - constructor; [|constructor]. split; [apply safe_handleReset | constructor].
  - constructor; [|constructor]. safety.
  - constructor; [|constructor]. apply safe_seg, safe_effects.
Qed.

Lemma safeTask_chain (chain : Chain) : Forall safe chain → safeTask (seg <$> chain).
Proof.
  intros Hc. apply Forall_fmap. eapply Forall_impl; [exact Hc|].
  intros a Ha. by apply safe_seg.
Qed.

Lemma inv_timers (sg : Seg) :
  safeSeg sg → Forall safeTask ((λ chain : Chain, seg <$> chain) <$> timers sg).
Proof.
  intros [_ Ht]. apply Forall_fmap. eapply Forall_impl; [exact Ht|].
  intros chain. apply safeTask_chain.
Qed.

Lemma inv_fire t w : safeTask t → inv w → inv (fire t w).
Proof.
  intros Ht [Hs Hp]. destruct t as [|sg rest]; [done|].
  inversion_clear Ht as [|? ? Hsg Hrest].
  split; cbn.
  - by apply Hsg.
  - apply Forall_app_2; [done|]. constructor; [done|]. by apply inv_timers.
Qed.

Lemma inv_resume n w : inv w → inv (resume n w).
Proof.
  intros [Hs Hp]. unfold resume.
  destruct (pool w !! n) as [[|sg rest]|] eqn:Hn; [done| |done].
  pose proof (Forall_lookup_1 _ _ _ _ Hp Hn) as Ht.
  inversion_clear Ht as [|? ? Hsg Hrest].
  split; cbn.
  - by apply Hsg.
  - apply Forall_app_2; [|by apply inv_timers]. by apply Forall_insert.
Qed.

Lemma inv_step w w' : step sequenceInput w w' → inv w → inv w'.
Proof.
  intros [i w0 Hi|n w0] Hw.
  - apply inv_fire; [|done]. by apply safe_handler.
  - by apply inv_resume.
Qed.

(** The first segment of a sequence empties the analyzing set. *)
Lemma start_single cap outcome s :
  transcript cap ≠ "" →
  inv (fire (startAnalysisSequence cap outcome)
         {| live := s; pool := []; reloading := false |}).
Proof.
  intros Hne.
  pose proof (safe_startAnalysisSequence cap outcome) as Hsafe.
  unfold startAnalysisSequence in *.
  apply String.eqb_neq in Hne. rewrite Hne in *.
  unfold chunkingPhase in *. destruct (blank (transcript cap));
    cbn [app fire] in *; inversion_clear Hsafe as [|? ? Hsg Hrest];
    (split; cbn [live pool app];
     [ unfold single; cbn; rewrite size_empty; lia
     | constructor; [done|]; by apply inv_timers ]).
Qed.

(** C2. Single flight. From the start of [startAnalysisSequence] on a
    render with a transcript, whatever the order in which its timers
    and the other suspended tasks are resumed, and whatever inputs
    other than the two that call [processWithAgent] arrive in between,
    the analyzing set never holds two agents. *)
Theorem single_flight cap outcome w :
  transcript cap ≠ "" →
  rtc (step sequenceInput)
      (fire (startAnalysisSequence cap outcome)
         {| live := cap; pool := []; reloading := false |}) w →
  (size (analyzingAgents (live w)) ≤ 1)%nat.
Proof.
  intros Hne Hrtc.
  assert (inv w) as [Hw _]; [|exact Hw].
  eapply (rtc_ind_r (λ w, inv w)); [ |  | exact Hrtc].
  - by apply start_single.
  - intros w1 w2 _ Hstep Hinv. by eapply inv_step.
Qed.
End SingleFlight.

(** ** Persistence *)

Section Persistence.
Context `{Browser}.
Hypothesis round_trip : ∀ v, JSON_parse (JSON_stringify v) = Some v.
Hypothesis parse_empty : JSON_parse "" = None.

Lemma stringify_inj v w : JSON_stringify v = JSON_stringify w → v = w.
Proof.
  intros Heq. apply (f_equal JSON_parse) in Heq.
  rewrite !round_trip in Heq. congruence.
Qed.

Lemma dec_strs_strs l : dec_strs (strs l) = Some l.
Proof.
  unfold dec_strs, strs. induction l as [|x l IH]; [done|].
  cbn. cbn in IH. by rewrite IH.
Qed.

(** What a mount reads back for a key is what was written under it. *)
Lemma init_stored {A} key (dec : Value → option A) dflt store v x :
  store !! key = Some (JSON_stringify v) →
  dec v = Some x →
  useLocalStorage_init key dec dflt store = x.
Proof.
  intros Hk Hd. unfold useLocalStorage_init.
  rewrite Hk, round_trip. change (Some v ≫= dec) with (dec v). by rewrite Hd.
Qed.

(** After the mirror effect the stored array lists the Set. *)
Lemma sync_stored key (current : list string) store :
  (match store !! key with
   | Some text => if String.eqb text "" then Some (VArr []) else JSON_parse text
   | None => Some (VArr [])
   end) = Some (strs current) →
  useLocalStorage_init key dec_strs [] store = current.
Proof.
  unfold useLocalStorage_init.
  destruct (store !! key) as [text|]; last first.
  { intros [= Hc]. by destruct current. }
  destruct (String.eqb_spec text "") as [->|_].
  - intros [= Hc]. rewrite parse_empty. by destruct current.
  - intros ->. change (Some (strs current) ≫= dec_strs) with (dec_strs (strs current)).
    by rewrite dec_strs_strs.
Qed.

Lemma syncAnalyzingAgents_mount s :
  storedArray "opportunityAnalyzingAgents" s ≠ None →
  useLocalStorage_init "opportunityAnalyzingAgents" dec_strs []
    (localStorage (syncAnalyzingAgents s)) = elements (analyzingAgents s).
Proof.
  intros Hparse. unfold syncAnalyzingAgents.
  destruct (storedArray "opportunityAnalyzingAgents" s) as [stored|] eqn:Hst; [|done].
  destruct (String.eqb_spec (JSON_stringify (strs (elements (analyzingAgents s))))
              (JSON_stringify stored)) as [Heq|Hne].
  - apply stringify_inj in Heq. subst stored. by apply sync_stored.
  - eapply init_stored; [|apply dec_strs_strs]. cbn. apply lookup_insert_eq.
Qed.

Lemma syncFinishedAgents_mount s :
  storedArray "opportunityFinishedAgents" s ≠ None →
  useLocalStorage_init "opportunityFinishedAgents" dec_strs []
    (localStorage (syncFinishedAgents s)) = elements (finishedAgents s).
Proof.
  intros Hparse. unfold syncFinishedAgents.
  destruct (storedArray "opportunityFinishedAgents" s) as [stored|] eqn:Hst; [|done].
  destruct (String.eqb_spec (JSON_stringify (strs (elements (finishedAgents s))))
              (JSON_stringify stored)) as [Heq|Hne].
  - apply stringify_inj in Heq. subst stored. by apply sync_stored.
  - eapply init_stored; [|apply dec_strs_strs]. cbn. apply lookup_insert_eq.
Qed.

(** The effects write under their own key only. *)
Lemma syncAnalyzingAgents_frame s key :
  key ≠ "opportunityAnalyzingAgents" →
  localStorage (syncAnalyzingAgents s) !! key = localStorage s !! key.
Proof.
  intros Hk. unfold syncAnalyzingAgents. repeat case_match; try done.
  cbn. by rewrite lookup_insert_ne.
Qed.

Lemma syncFinishedAgents_frame s key :
  key ≠ "opportunityFinishedAgents" →
  localStorage (syncFinishedAgents s) !! key = localStorage s !! key.
Proof.
  intros Hk. unfold syncFinishedAgents. repeat case_match; try done.
  cbn. by rewrite lookup_insert_ne.
Qed.

Lemma syncAnalyzingAgents_fields s :
  analyzingAgents (syncAnalyzingAgents s) = analyzingAgents s
  ∧ finishedAgents (syncAnalyzingAgents s) = finishedAgents s
  ∧ localAnalysisResults (syncAnalyzingAgents s) = localAnalysisResults s
  ∧ agentProgress (syncAnalyzingAgents s) = agentProgress s.
Proof. unfold syncAnalyzingAgents. by repeat case_match. Qed.

Lemma dec_enc_obj m : dec_obj (enc_obj m) = Some m.
Proof. unfold dec_obj, enc_obj. by rewrite list_to_map_to_list. Qed.

(** Once the payloads, the progress records and the two Sets of a
    session are written to local storage, mounting the component from
    that storage gives them back. *)
Lemma mount_persistSession s :
  storedArray "opportunityAnalyzingAgents" s ≠ None →
  storedArray "opportunityFinishedAgents" s ≠ None →
  localAnalysisResults (mount (localStorage (persistSession s))) = localAnalysisResults s
  ∧ agentProgress (mount (localStorage (persistSession s))) = agentProgress s
  ∧ analyzingAgents (mount (localStorage (persistSession s))) = analyzingAgents s
  ∧ finishedAgents (mount (localStorage (persistSession s))) = finishedAgents s.
Proof.
  intros Ha Hf. unfold persistSession, andThen.
  set (s1 := setAgentProgress (λ prev, prev) (setLocalAnalysisResults (λ prev, prev) s)).
  assert (storedArray "opportunityAnalyzingAgents" s1 ≠ None) as Ha1.
  { unfold storedArray in *. subst s1. cbn.
    rewrite !lookup_insert_ne by done. exact Ha. }
  assert (storedArray "opportunityFinishedAgents" (syncAnalyzingAgents s1) ≠ None) as Hf1.
  { unfold storedArray in *. rewrite syncAnalyzingAgents_frame by done. subst s1. cbn.
    rewrite !lookup_insert_ne by done. exact Hf. }
  destruct (syncAnalyzingAgents_fields s1) as (E1 & E2 & E3 & E4).
  assert (localStorage (syncFinishedAgents (syncAnalyzingAgents s1)) !! "opportunityResults"
          = Some (JSON_stringify (enc_obj (localAnalysisResults s)))) as Hres.
  { rewrite syncFinishedAgents_frame, syncAnalyzingAgents_frame by done.
    subst s1. cbn. rewrite lookup_insert_ne by done. apply lookup_insert_eq. }
  assert (localStorage (syncFinishedAgents (syncAnalyzingAgents s1))
            !! "opportunityAgentProgress"
          = Some (JSON_stringify (enc_obj (agentProgress s)))) as Hprog.
  { rewrite syncFinishedAgents_frame, syncAnalyzingAgents_frame by done.
    subst s1. cbn. apply lookup_insert_eq. }
  cbn [mount localAnalysisResults agentProgress analyzingAgents finishedAgents].
  split_and!.
  - apply (init_stored _ _ _ _ _ _ Hres), dec_enc_obj.
  - apply (init_stored _ _ _ _ _ _ Hprog), dec_enc_obj.
  - unfold useLocalStorage_init at 1.
    rewrite syncFinishedAgents_frame by done.
    fold (useLocalStorage_init "opportunityAnalyzingAgents" dec_strs []
            (localStorage (syncAnalyzingAgents s1))).
    rewrite syncAnalyzingAgents_mount by done.
    rewrite list_to_set_elements_L. by subst s1.
  - rewrite syncFinishedAgents_mount by done.
    rewrite list_to_set_elements_L. rewrite E2. by subst s1.
Qed.
Lemma stringify_nonempty v : JSON_stringify v ≠ "".
Proof. intros Hv. pose proof (round_trip v) as Hr. rewrite Hv, parse_empty in Hr. done. Qed.

(** Switching views writes the payload shown under its own key. *)
Lemma handleViewResult_saves s a b v :
  showResult s = Some a → localAnalysisResults s !! a = Some v → truthy v = true →
  localStorage (handleViewResult s b s) !! ("analysisResult_" ++ a)
  = Some (JSON_stringify v).
Proof.
  intros Hshown Hv Ht. unfold handleViewResult, andThen. rewrite Hshown, Hv.
  unfold when. rewrite Ht.
  set (s1 := setItem ("analysisResult_" ++ a) v s).
  assert (localStorage s1 !! ("analysisResult_" ++ a) = Some (JSON_stringify v)) as Hs1
    by (subst s1; cbn; apply lookup_insert_eq).
  cbn [setUserHasSelectedView setShowResult andThen with_userHasSelectedView
       with_showResult setItem localStorage with_localStorage].
  unfold andThen. cbn [localStorage with_localStorage with_userHasSelectedView with_showResult].
  rewrite !lookup_insert_ne by (cbn; discriminate).
  destruct (localStorage s1 !! ("analysisResult_" ++ b)) as [saved|]; [|done].
  destruct (String.eqb saved ""); [done|].
  destruct (JSON_parse saved); [|done].
  cbn. rewrite lookup_insert_ne by (cbn; discriminate). done.
Qed.

(** Viewing an agent reads the payload stored under its key back into
    the results. *)
Lemma handleViewResult_loads cap s a v :
  showResult cap ≠ Some a →
  localStorage s !! ("analysisResult_" ++ a) = Some (JSON_stringify v) →
  localAnalysisResults (handleViewResult cap a s) !! a = Some v.
Proof.
  intros Hshown Hv.
  assert (∀ s1, localStorage s1 !! ("analysisResult_" ++ a) = Some (JSON_stringify v) →
                localAnalysisResults
                  (setUserHasSelectedView true
                     (setShowResult (Some a)
                        (match localStorage s1 !! ("analysisResult_" ++ a) with
                         | Some savedResults =>
                             if String.eqb savedResults "" then s1
                             else match JSON_parse savedResults with
                                  | Some parsedResults =>
                                      setLocalAnalysisResults
                                        (λ prev, <[a := parsedResults]> prev) s1
                                  | None => s1
                                  end
                         | None => s1
                         end))) !! a = Some v) as Hload.
  { intros s1 Hs1. rewrite Hs1.
    rewrite (proj2 (String.eqb_neq _ _) (stringify_nonempty v)).
    rewrite round_trip. cbn. apply lookup_insert_eq. }
  unfold handleViewResult, andThen.
  destruct (showResult cap) as [shown|] eqn:Eshown; [|by apply Hload].
  destruct (localAnalysisResults cap !! shown) as [w|]; [|by apply Hload].
  unfold when. destruct (truthy w); [|by apply Hload].
  apply Hload. cbn. rewrite lookup_insert_ne; [done|].
  intros Heq. apply Hshown. f_equal.
  clear -Heq. cbn in Heq. by injection Heq.
Qed.

(** C7. Persistence round trip. With a [JSON.parse] that reads back
    what [JSON.stringify] writes, once the result payloads, the
    progress records (which carry the statuses) and the two Sets of a
    session are written to local storage, by the setters of the
    variables and the two mirror effects, mounting the component from
    that storage gives the same payloads, records and Sets; the arrays
    the effects find stored must parse. And [handleViewResult] stores
    the payload of the result shown under its own key when the view is
    switched, and reads the payload stored under the key of an agent
    back into the results when that agent is viewed. *)
Theorem persistence_round_trip s :
  (storedArray "opportunityAnalyzingAgents" s ≠ None →
   storedArray "opportunityFinishedAgents" s ≠ None →
   localAnalysisResults (mount (localStorage (persistSession s))) = localAnalysisResults s
   ∧ agentProgress (mount (localStorage (persistSession s))) = agentProgress s
   ∧ analyzingAgents (mount (localStorage (persistSession s))) = analyzingAgents s
   ∧ finishedAgents (mount (localStorage (persistSession s))) = finishedAgents s)
  ∧ (∀ a b v,
       showResult s = Some a → localAnalysisResults s !! a = Some v → truthy v = true →
       localStorage (handleViewResult s b s) !! ("analysisResult_" ++ a)
       = Some (JSON_stringify v))
  ∧ (∀ cap a v,
       showResult cap ≠ Some a →
       localStorage s !! ("analysisResult_" ++ a) = Some (JSON_stringify v) →
       localAnalysisResults (handleViewResult cap a s) !! a = Some v).
Proof.
  split_and!.
  - apply mount_persistSession.
  - intros a b v. apply handleViewResult_saves.
  - intros cap a v. apply handleViewResult_loads.
Qed.
End Persistence.

(** ** Reset and new transcript *)

Section Lifecycle.
Context `{Browser}.

Lemma removeItems_lookup keys : ∀ s key,
  localStorage (removeItems keys s) !! key
  = if bool_decide (key ∈ keys) then None else localStorage s !! key.
Proof.
  unfold removeItems.
  induction keys as [|k keys IH]; intros s key; [done|].
  cbn [fold_left]. rewrite IH. cbn.
  destruct (decide (key = k)) as [->|Hne].
  - rewrite lookup_delete_eq. rewrite (bool_decide_true (k ∈ k :: keys)) by set_solver.
    by case_bool_decide.
  - rewrite lookup_delete_ne by done.
    destruct (decide (key ∈ keys)).
    + rewrite !bool_decide_true by set_solver. done.
    + rewrite !bool_decide_false by set_solver. done.
Qed.

(** Removing items changes the store only. *)
Lemma removeItems_eq keys s :
  removeItems keys s = with_localStorage (localStorage (removeItems keys s)) s.
Proof.
  unfold removeItems. revert s.
  induction keys as [|k keys IH]; intros s; [done|].
  cbn [fold_left]. by rewrite IH at 1.
Qed.

Lemma handleReset_session s :
  session (handleReset true s) = with_currentAgent (currentAgent s) initial.
Proof.
  unfold handleReset, when, andThen. rewrite removeItems_eq. reflexivity.
Qed.

Lemma handleReset_keys s key :
  key ∈ resetKeys → localStorage (handleReset true s) !! key = None.
Proof.
  intros Hk. unfold handleReset, when, andThen. cbn [emit localStorage with_trace].
  rewrite removeItems_lookup. by rewrite bool_decide_true.
Qed.

Lemma init_absent {A} key (dec : Value → option A) dflt store :
  store !! key = None → useLocalStorage_init key dec dflt store = dflt.
Proof. intros Hk. unfold useLocalStorage_init. by rewrite Hk. Qed.

(** What [handleReset] leaves in the store, read at the reload: the
    page of a first visit. *)
Lemma handleReset_reload s :
  session (mount (localStorage (handleReset true s))) = initial.
Proof.
  unfold mount, session.
  repeat match goal with
    | |- context [useLocalStorage_init ?k ?d ?x (localStorage (handleReset true s))] =>
        lazymatch k with
        | "llmApiKey" => fail
        | _ => rewrite (init_absent k d x (localStorage (handleReset true s)))
                 by (apply handleReset_keys; unfold resetKeys; set_solver)
        end
    end.
  reflexivity.
Qed.

(** *** The page left to itself after a reset *)

Lemma idle_previous p s : idle s → idle (with_previousTranscriptRef p s).
Proof. by destruct s. Qed.

Lemma previous_twice p q s :
  with_previousTranscriptRef p (with_previousTranscriptRef q s)
  = with_previousTranscriptRef p s.
Proof. by destruct s. Qed.

Lemma syncAnalyzingAgents_idle s : idle s → syncAnalyzingAgents s = s.
Proof.
  intros (_ & _ & _ & Han & _ & Hstored & _). unfold syncAnalyzingAgents.
  rewrite Hstored, Han, elements_empty. by rewrite String.eqb_refl.
Qed.

Lemma syncFinishedAgents_idle s : idle s → syncFinishedAgents s = s.
Proof.
  intros (_ & _ & _ & _ & Hfin & _ & Hstored). unfold syncFinishedAgents.
  rewrite Hstored, Hfin, elements_empty. by rewrite String.eqb_refl.
Qed.

(** In an idle session an effect writes nothing, but for the one that
    keeps the transcript in its ref. *)
Lemma effect_idle e refs cap s :
  idle cap → idle s →
  (effect e refs cap).2 s = s
  ∨ (effect e refs cap).2 s = with_previousTranscriptRef (transcript cap) s.
Proof.
  intros (Hhas & Hres & Hshow & _) Hs. destruct e; cbn.
  - left. by apply syncAnalyzingAgents_idle.
  - left. by apply syncFinishedAgents_idle.
  - left. unfold autoSelectView. rewrite Hhas. by rewrite andb_false_r.
  - by right.
  - left. unfold sequenceEffect. rewrite Hres.
    destruct (sequenceCompletedRef refs); [done|]. by rewrite bool_decide_true.
  - left. unfold chunkingViewGuard. rewrite Hshow.
    by rewrite (bool_decide_false (None = Some "longContextChunking")).
Qed.

Lemma effects_idle es : ∀ refs cap s,
  idle cap → idle s →
  (effects es refs cap).2 s = s
  ∨ (effects es refs cap).2 s = with_previousTranscriptRef (transcript cap) s.
Proof.
  induction es as [|e es IH]; intros refs cap s Hcap Hs; cbn; [by left|].
  pose proof (effect_idle e refs cap s Hcap Hs) as He.
  destruct (effect e refs cap) as [refs1 a].
  pose proof (IH refs1 cap) as IH'.
  destruct (effects es refs1 cap) as [refs2 b].
  cbn in *. unfold andThen.
  destruct He as [-> | ->].
  - by apply IH'.
  - destruct (IH' (with_previousTranscriptRef (transcript cap) s) Hcap) as [-> | ->];
      [by apply idle_previous|by right|].
    right. apply previous_twice.
Qed.

(** The page left to itself in an idle session with nothing in flight:
    renders and their effects leave the session as it is, but for the
    ref, and a pending reload stays pending. *)
Lemma idle_page w w' :
  idle (live w) → settled w →
  rtc (step rendering) w w' →
  (live w' = live w
   ∨ live w' = with_previousTranscriptRef (transcript (live w)) (live w))
  ∧ settled w' ∧ reloading w' = reloading w.
Proof.
  intros Hidle Hsettled Hrtc.
  eapply (rtc_ind_r
            (λ w', (live w' = live w
                    ∨ live w' = with_previousTranscriptRef (transcript (live w)) (live w))
                   ∧ settled w' ∧ reloading w' = reloading w));
    [ | | exact Hrtc]; [by split_and!; [left|..]|].
  clear w' Hrtc. intros w2 w3 _ Hstep (Hlive & Hset & Hre).
  assert (idle (live w2) ∧ transcript (live w2) = transcript (live w)) as [Hidle2 Htr].
  { destruct Hlive as [-> | ->]; [done|]. split; [by apply idle_previous|].
    by destruct (live w). }
  destruct Hstep as [i w2 Hi|n w2].
  - destruct i; try done; cbn [handler fire live pool reloading seg act reloads timers
                                 suspended fmap list_fmap].
    + split_and!.
      * unfold andThen. rewrite syncAnalyzingAgents_idle by done.
        by rewrite syncFinishedAgents_idle.
      * apply Forall_app_2; [done|]. by constructor.
      * by rewrite orb_false_r.
    + split_and!.
      * destruct (effects_idle es refs (live w2) (live w2) Hidle2 Hidle2) as [-> | ->];
          [done|].
        right. rewrite Htr. destruct Hlive as [-> | ->]; [done|]. apply previous_twice.
      * apply Forall_app_2; [done|]. by constructor.
      * by rewrite orb_false_r.
  - assert (resume n w2 = w2) as ->; [|done].
    unfold resume. destruct (pool w2 !! n) as [task|] eqn:Hn; [|done].
    by rewrite (Forall_lookup_1 _ _ _ _ Hset Hn).
Qed.

Lemma session_reload s : session (reload s) = session (mount (localStorage s)).
Proof. done. Qed.

Lemma handleReset_idle s : idle (handleReset true s).
Proof.
  unfold idle. split_and!; try done.
  - unfold storedArray. by rewrite handleReset_keys by (unfold resetKeys; set_solver).
  - unfold storedArray. by rewrite handleReset_keys by (unfold resetKeys; set_solver).
Qed.

(** [handleReset], confirmed with nothing in flight, and the page left
    to itself until the reload: the initial session is mounted. *)
Lemma handleReset_reloads w w' :
  settled w →
  rtc (step rendering) (fire (handler (live w) (Reset true)) w) w' →
  reloading w' = true ∧ session (live (unload w')) = initial ∧ pool (unload w') = [].
Proof.
  intros Hsettled Hrtc.
  apply idle_page in Hrtc as (Hlive & _ & Hre).
  - split_and!; [|
                 |done].
    + rewrite Hre. cbn. apply orb_true_r.
    + cbn [unload live]. rewrite session_reload.
      replace (localStorage (live w'))
        with (localStorage (handleReset true (live w)))
        by (destruct Hlive as [-> | ->]; cbn [fire handler live act];
            [done|by destruct (handleReset true (live w))]).
      apply handleReset_reload.
  - apply handleReset_idle.
  - cbn. apply Forall_app_2; [done|]. by constructor.
Qed.

Lemma handleContentChange_clears content s :
  analyzingAgents (handleContentChange content s) = ∅
  ∧ agentProgress (handleContentChange content s) = ∅
  ∧ localAnalysisResults (handleContentChange content s) = ∅
  ∧ currentAgent (handleContentChange content s) = None
  ∧ hasAnalyzed (handleContentChange content s) = false
  ∧ transcript (handleContentChange content s) = content.
Proof. done. Qed.

Lemma handleContentChange_keeps content s :
  finishedAgents (handleContentChange content s) = finishedAgents s
  ∧ finishedAgentsArray (handleContentChange content s) = finishedAgentsArray s
  ∧ showResult (handleContentChange content s) = showResult s
  ∧ isSequenceRunning (handleContentChange content s) = isSequenceRunning s
  ∧ currentRunningAgent (handleContentChange content s) = currentRunningAgent s
  ∧ longContextResults (handleContentChange content s) = longContextResults s.
Proof. done. Qed.
End Lifecycle.

(** ** Reset Evaluation *)

Section ResetEvaluation.
Context `{Browser}.
Hypothesis round_trip : ∀ v, JSON_parse (JSON_stringify v) = Some v.

(** "Reset Evaluation" puts every variable of the session back to its
    initial value. *)
Lemma handleClearData_session s :
  session (handleClearData s) = with_previousTranscriptRef (previousTranscriptRef s) initial.
Proof.
  unfold handleClearData, clearAllState, andThen.
  match goal with
  | |- context [ removeItems ?k ?x ] =>
      lazymatch x with
      | s => fail
      | _ => rewrite (removeItems_eq k x)
      end
  end.
  rewrite (removeItems_eq _ s).
  reflexivity.
Qed.

Lemma init_written {A} key (dec : Value → option A) dflt store v x :
  store !! key = Some (JSON_stringify v) → dec v = Some x →
  useLocalStorage_init key dec dflt store = x.
Proof.
  intros Hk Hd. unfold useLocalStorage_init. rewrite Hk, round_trip. cbn. by rewrite Hd.
Qed.

Lemma handleClearData_gone s key :
  key ∈ clearedKeys → localStorage (handleClearData s) !! key = None.
Proof.
  intros Hkey. unfold handleClearData, andThen. cbn [emit localStorage with_trace].
  rewrite removeItems_lookup. by rewrite bool_decide_true.
Qed.

Lemma handleClearData_kept s key :
  key ∉ clearedKeys →
  localStorage (handleClearData s) !! key
  = localStorage (setFinishedAgentsArray (λ _, [])
                    (setFinishedAgents (λ _, ∅) (clearAllState s))) !! key.
Proof.
  intros Hkey. unfold handleClearData, andThen. cbn [emit localStorage with_trace].
  rewrite removeItems_lookup. by rewrite bool_decide_false.
Qed.

Lemma handleClearData_written s key v :
  (key, v) ∈ clearedValues →
  localStorage (handleClearData s) !! key = Some (JSON_stringify v).
Proof.
  intros Hin. unfold clearedValues in Hin.
  repeat (apply elem_of_cons in Hin as [[= -> ->]|Hin];
          [ rewrite handleClearData_kept by (unfold clearedKeys; clear; set_solver);
            cbn; by simplify_map_eq |]).
  by apply elem_of_nil in Hin.
Qed.

(** What "Reset Evaluation" leaves in the store, read at the reload:
    the page of a first visit. *)
Lemma handleClearData_reload s :
  session (mount (localStorage (handleClearData s))) = initial.
Proof.
  unfold mount, session.
  rewrite !(init_absent "opportunityFinishedAgents"),
          !(init_absent "lastViewedOpportunityResult"),
          !(init_absent "opportunityLongContextResults"),
          !(init_absent "opportunityJtbdAnalysis"),
          !(init_absent "opportunityGainAnalysis")
    by (apply handleClearData_gone; unfold clearedKeys; clear; set_solver).
  rewrite (init_written "opportunityResults" dec_obj _ _ (enc_obj ∅) ∅),
          (init_written "opportunityAgentProgress" dec_obj _ _ (enc_obj ∅) ∅),
          (init_written "opportunityTranscript" dec_str _ _ (VStr "") ""),
          !(init_written "opportunityAnalyzingAgents" dec_strs _ _ (strs []) []),
          (init_written "opportunityHasAnalyzed" dec_bool _ _ (VBool false) false),
          (init_written "opportunityShowResult" dec_opt _ _ VNull None),
          (init_written "opportunityCurrentAgent" dec_opt _ _ VNull None),
          (init_written "opportunityIsSequenceRunning" dec_bool _ _ (VBool false) false),
          (init_written "opportunityUserSelectedView" dec_bool _ _ (VBool false) false),
          (init_written "opportunityIsOptimizing" dec_bool _ _ (VBool false) false),
          (init_written "opportunityOptimizationProgress" dec_num _ _ (VNum 0) 0)
    by (done || (apply handleClearData_written; unfold clearedValues; clear; set_solver)).
  reflexivity.
Qed.

Lemma handleClearData_idle s : idle (handleClearData s).
Proof.
  unfold idle. split_and!; try done.
  - unfold storedArray.
    rewrite (handleClearData_written s "opportunityAnalyzingAgents" (strs []))
      by (unfold clearedValues; clear; set_solver).
    rewrite round_trip. by destruct (String.eqb _ _).
  - unfold storedArray.
    by rewrite handleClearData_gone by (unfold clearedKeys; clear; set_solver).
Qed.

(** "Reset Evaluation" pressed with nothing in flight, and the page left
    to itself until the reload: the initial session is mounted. *)
Lemma handleClearData_reloads w w' :
  settled w →
  rtc (step rendering) (fire (handler (live w) ResetEvaluation) w) w' →
  reloading w' = true ∧ session (live (unload w')) = initial ∧ pool (unload w') = [].
Proof.
  intros Hsettled Hrtc.
  apply idle_page in Hrtc as (Hlive & _ & Hre).
  - split_and!; [|
                 |done].
    + rewrite Hre. cbn. apply orb_true_r.
    + cbn [unload live]. rewrite session_reload.
      replace (localStorage (live w'))
        with (localStorage (handleClearData (live w)))
        by (destruct Hlive as [-> | ->]; cbn [fire handler live act];
            [done|by destruct (handleClearData (live w))]).
      apply handleClearData_reload.
  - apply handleClearData_idle.
  - cbn. apply Forall_app_2; [done|]. by constructor.
Qed.
End ResetEvaluation.

(** ** Completion, selection, credentials and lifecycle *)

Section Orchestration.
Context `{Browser}.

(** C5. Termination on completion. On the Opportunity Evaluation page,
    when every agent of the sequence has a stored result,
    [runNextAgentInSequence] selects no agent: its call is a single
    segment without timers that adds nothing to the trace and leaves
    the sequence flag off. On the Grade Transcripts page the run of the
    last agent of the sequence that succeeds clears the sequence flag,
    with the flag off the progression effect is idle, and at the last
    index the effect never starts an agent. *)
Theorem sequence_terminates_when_complete :
  (∀ fuel cap,
     (∀ agentId, agentId ∈ AGENT_SEQUENCE →
                 is_Some (localAnalysisResults cap !! agentId)) →
     nextRunnable agents cap = None
     ∧ (∃ a, runNextAgentInSequence fuel cap = [seg a])
     ∧ trace (run (runNextAgentInSequence fuel cap) cap) = trace cap
     ∧ isSequenceRunning (run (runNextAgentInSequence fuel cap) cap) = false)
  ∧ (∀ MAX_RETRIES sequence r rest agentId content s,
       GradeTranscripts.checkApiKey s = None →
       (GradeTranscripts.retryCount (GradeTranscripts.agentStates s agentId)
        < MAX_RETRIES)%nat →
       last sequence = Some agentId →
       GradeTranscripts.isSequenceRunning
         (GradeTranscripts.runAnalysisRef MAX_RETRIES sequence
            (GradeTranscripts.Ok r :: rest) agentId content s s) = false
       ∧ GradeTranscripts.progression sequence
           (GradeTranscripts.runAnalysisRef MAX_RETRIES sequence
              (GradeTranscripts.Ok r :: rest) agentId content s s)
         = GradeTranscripts.Idle)
  ∧ (∀ sequence s nextIndex nextAgent,
       sequence !! S (GradeTranscripts.currentAnalysisIndex s) = None →
       GradeTranscripts.progression sequence s
       ≠ GradeTranscripts.Advance nextIndex nextAgent).
Proof.
  split_and!.
  - intros fuel cap Hall. by apply runNext_when_complete.
  - intros MAX_RETRIES sequence r rest agentId content s Hkey Hn Hlast.
    destruct (GradeProofs.last_agent_succeeds MAX_RETRIES sequence r rest agentId
                content s Hkey Hn Hlast) as [Hflag _].
    split; [done|]. by apply GradeProofs.halted_idle.
  - intros sequence s nextIndex nextAgent Hend.
    by destruct (GradeProofs.progression_at_end sequence s Hend) as [-> | ->].
Qed.

(** C6, amended. With the sequence flag of its render on,
    [runNextAgentInSequence] takes the first agent of the visible
    sequence (needsAnalysis, demandAnalyst, opportunityQualification,
    finalReport) that has no stored result; it runs that agent when all
    the prerequisites the registry declares for it have results, else
    the first of these prerequisites that has no result and whose own
    prerequisites have; with the flag off it selects nothing. In
    particular, when neither needsAnalysis nor longContextChunking has
    a result, longContextChunking is selected. *)
Theorem nextRunnable_selects registry cap :
  nextRunnable registry cap
  = (if isSequenceRunning cap then selection registry (localAnalysisResults cap)
     else None)
  ∧ (registry = agents →
     isSequenceRunning cap = true →
     localAnalysisResults cap !! "needsAnalysis" = None →
     localAnalysisResults cap !! "longContextChunking" = None →
     nextRunnable registry cap = Some "longContextChunking").
Proof.
  split.
  - destruct (isSequenceRunning cap) eqn:Hrun.
    + by apply nextRunnable_selection.
    + unfold nextRunnable, nextAction. by rewrite Hrun.
  - intros -> Hrun Hneeds Hchunk.
    rewrite nextRunnable_selection by done.
    unfold selection, candidate, visibleAgentSequence, completed.
    cbn [List.find]. rewrite Hneeds.
    rewrite bool_decide_false by (by intros [? ?]).
    cbn. unfold gated, met. cbn. by rewrite Hchunk.
Qed.

(** C8. A missing credential is fatal at once. [processWithAgent], for
    an agent other than the chunking one, run without an API key ends
    in its first segment with an error toast and [null]: the agent does
    not enter the analyzing set, no progress record and no result are
    written. [runAnalysisRef] with a key that [checkApiKey] refuses
    toasts the message of the check and resets the analysis state: the
    module of the agent is not called, the sequence flag is off, every
    agent is back in its initial state. A call that fails with a
    message about the API key is toasted and not retried. *)
Theorem missing_key_is_fatal :
  (∀ cap agentId s,
     keyMissing cap agentId = true →
     processWithAgent_result cap agentId = None
     ∧ trace (run (processWithAgent cap agentId) s)
       = ToastError "API key is missing. Please add it in Settings."
         :: ProcessWithAgent agentId :: trace s
     ∧ length (processWithAgent cap agentId) = 1%nat
     ∧ analyzingAgents (run (processWithAgent cap agentId) s) = analyzingAgents s
     ∧ agentProgress (run (processWithAgent cap agentId) s) = agentProgress s
     ∧ localAnalysisResults (run (processWithAgent cap agentId) s)
       = localAnalysisResults s)
  ∧ (∀ MAX_RETRIES sequence outcomes agentId content s msg,
       GradeTranscripts.checkApiKey s = Some msg →
       GradeTranscripts.trace
         (GradeTranscripts.runAnalysisRef MAX_RETRIES sequence outcomes agentId content s s)
       = GradeTranscripts.ToastError msg :: GradeTranscripts.trace s
       ∧ GradeTranscripts.isSequenceRunning
           (GradeTranscripts.runAnalysisRef MAX_RETRIES sequence outcomes agentId content
              s s) = false
       ∧ GradeTranscripts.agentStates
           (GradeTranscripts.runAnalysisRef MAX_RETRIES sequence outcomes agentId content
              s s) = GradeTranscripts.initialAgentStates)
  ∧ (∀ MAX_RETRIES sequence message rest agentId content s,
       GradeTranscripts.checkApiKey s = None →
       (GradeTranscripts.retryCount (GradeTranscripts.agentStates s agentId)
        < MAX_RETRIES)%nat →
       includes "API key" message = true →
       GradeTranscripts.trace
         (GradeTranscripts.runAnalysisRef MAX_RETRIES sequence
            (GradeTranscripts.Failed message :: rest) agentId content s s)
       = GradeTranscripts.ToastError message
         :: GradeTranscripts.Call agentId content :: GradeTranscripts.trace s
       ∧ GradeTranscripts.isSequenceRunning
           (GradeTranscripts.runAnalysisRef MAX_RETRIES sequence
              (GradeTranscripts.Failed message :: rest) agentId content s s) = false).
Proof.
  split_and!.
  - intros cap agentId s Hk. by apply processWithAgent_without_key.
  - intros MAX_RETRIES sequence outcomes agentId content s msg Hkey.
    by rewrite (GradeProofs.runAnalysisRef_without_key MAX_RETRIES sequence outcomes
                  agentId content s msg Hkey).
  - intros MAX_RETRIES sequence message rest agentId content s Hkey Hn Hmsg.
    by destruct (GradeProofs.key_failure_not_retried MAX_RETRIES sequence message rest
                   agentId content s Hkey Hn Hmsg) as (? & ? & _).
Qed.

(** C9, amended. [handleReset], once confirmed, puts every variable of
    the session except [currentAgent] back to its initial value,
    removes the sixteen keys of [resetKeys] from local storage and sets
    the timer that reloads the page; declined, it does nothing. "Reset
    Evaluation" ([handleClearData]) puts every variable of the session
    back to its initial value and sets the same timer. When nothing is
    in flight as the reset is made and the page is then left to itself
    (renders and their effects, no input), the reload is still pending
    and mounts the initial session, with nothing in flight; for "Reset
    Evaluation" this takes a [JSON.parse] that reads back what
    [JSON.stringify] writes. [handleContentChange] replaces the
    transcript and empties the analyzing set, the progress records and
    the results, and clears [currentAgent] and [hasAnalyzed]; it leaves
    the finished agents and their stored array, the result shown, the
    sequence flag, the running agent and the chunking results as they
    were, and what is in flight stays in flight. *)
Theorem reset_and_new_transcript s :
  session (handleReset true s) = with_currentAgent (currentAgent s) initial
  ∧ (∀ key, key ∈ resetKeys → localStorage (handleReset true s) !! key = None)
  ∧ handleReset false s = s
  ∧ session (handleClearData s)
    = with_previousTranscriptRef (previousTranscriptRef s) initial
  ∧ (∀ w,
       reloading (fire (handler (live w) (Reset true)) w) = true
       ∧ reloading (fire (handler (live w) ResetEvaluation) w) = true
       ∧ fire (handler (live w) (Reset false)) w
         = {| live := live w; pool := (pool w ++ [[]])%list; reloading := reloading w |})
  ∧ (∀ w w',
       settled w →
       rtc (step rendering) (fire (handler (live w) (Reset true)) w) w' →
       reloading w' = true
       ∧ session (live (unload w')) = initial
       ∧ pool (unload w') = [])
  ∧ ((∀ v, JSON_parse (JSON_stringify v) = Some v) →
     ∀ w w',
       settled w →
       rtc (step rendering) (fire (handler (live w) ResetEvaluation) w) w' →
       reloading w' = true
       ∧ session (live (unload w')) = initial
       ∧ pool (unload w') = [])
  ∧ (∀ content,
       (analyzingAgents (handleContentChange content s) = ∅
        ∧ agentProgress (handleContentChange content s) = ∅
        ∧ localAnalysisResults (handleContentChange content s) = ∅
        ∧ currentAgent (handleContentChange content s) = None
        ∧ hasAnalyzed (handleContentChange content s) = false
        ∧ transcript (handleContentChange content s) = content)
       ∧ (finishedAgents (handleContentChange content s) = finishedAgents s
          ∧ finishedAgentsArray (handleContentChange content s) = finishedAgentsArray s
          ∧ showResult (handleContentChange content s) = showResult s
          ∧ isSequenceRunning (handleContentChange content s) = isSequenceRunning s
          ∧ currentRunningAgent (handleContentChange content s) = currentRunningAgent s
          ∧ longContextResults (handleContentChange content s) = longContextResults s))
  ∧ (∀ content w,
       fire (handler (live w) (Upload content)) w
       = {| live := handleContentChange content (live w);
            pool := (pool w ++ [[]])%list; reloading := reloading w |}).
Proof.
  split_and!.
  - apply handleReset_session.
  - intros key Hkey. by apply handleReset_keys.
  - done.
  - apply handleClearData_session.
  - intros w. split_and!.
    + cbn. apply orb_true_r.
    + cbn. apply orb_true_r.
    + cbn. by rewrite orb_false_r.
  - intros w w'. apply handleReset_reloads.
  - intros round_trip w w'. by apply handleClearData_reloads.
  - intros content. split.
    + apply handleContentChange_clears.
    + apply handleContentChange_keeps.
  - intros content w. cbn. by rewrite orb_false_r.
Qed.

End Orchestration.

(** ** The sample sessions *)

Section Evaluation.
#[local] Existing Instance testBrowser.

(** Resuming the first suspended task any number of times is a run of
    the page. *)
Lemma rtc_resumes allowed n w : rtc (step allowed) w (Nat.iter n (resume 0) w).
Proof.
  induction n as [|n IH]; [done|].
  eapply rtc_r; [exact IH|]. apply step_resume.
Qed.

(** *** Dependency gating *)

(** C1, counterexample. [startAnalysisSequence] starts agents whose
    prerequisites have no result. In the sample run the final report is
    started (it is the agent of the analyzing set and its progress
    record has the status "loading") while "problemAwareness", which
    the registry declares as its prerequisite, has no stored result.
    And when "Reset Evaluation" is pressed during the wait that follows
    needsAnalysis, the loop goes on to start demandAnalyst, whose
    prerequisite is needsAnalysis, with no stored result at all. *)
Lemma startAnalysisSequence_not_gated :
  head (trace reportStarted) = Some (StartingAgent "finalReport")
  ∧ elements (analyzingAgents reportStarted) = ["finalReport"]
  ∧ agentProgress reportStarted !! "finalReport" ≫= prop "status"
    = Some (VStr "loading")
  ∧ prerequisites agents "finalReport" = ["problemAwareness"]
  ∧ localAnalysisResults reportStarted !! "problemAwareness" = None
  ∧ gated agents (localAnalysisResults reportStarted) "finalReport" = false
  ∧ head (trace clearedThenResumed) = Some (StartingAgent "demandAnalyst")
  ∧ elements (analyzingAgents clearedThenResumed) = ["demandAnalyst"]
  ∧ prerequisites agents "demandAnalyst" = ["needsAnalysis"]
  ∧ elements (dom (localAnalysisResults clearedThenResumed)) = []
  ∧ gated agents (localAnalysisResults clearedThenResumed) "demandAnalyst" = false.
Proof. split_and!; vm_compute; reflexivity. Qed.

(** The amended C1 on the sample render [ready]: the one agent
    [runNextAgentInSequence] hands to [processWithAgent] there is
    needsAnalysis, and its prerequisite has a result. *)
Lemma processWithAgent_gated_witness :
  trace (run (runNextAgentInSequence 0 ready) ready)
  = [Running "needsAnalysis"; ProcessWithAgent "needsAnalysis"]
  ∧ gated agents (localAnalysisResults ready) "needsAnalysis" = true.
Proof.
  split; [vm_compute; reflexivity|].
  destruct (processWithAgent_gated ready ready "needsAnalysis" eq_refl) as [Hnext _].
  apply (Hnext 0%nat).
  vm_compute. set_solver.
Defined.

(** *** Single flight *)

(** C2 on the sample page: a transcript is uploaded in the middle of
    the run. *)
Lemma single_flight_witness :
  elements (analyzingAgents (live interleaved)) = ["demandAnalyst"]
  ∧ (size (analyzingAgents (live interleaved)) ≤ 1)%nat.
Proof.
  split; [vm_compute; reflexivity|].
  apply (single_flight uploaded (Resolved [50] chunked) interleaved).
  - vm_compute. discriminate.
  - unfold interleaved.
    eapply rtc_trans; [apply (rtc_resumes sequenceInput 10)|].
    eapply rtc_l; [apply (step_input sequenceInput (Upload "Second interview")); exact I|].
    apply rtc_resumes.
Defined.

(** *** Cancellation *)

(** C4, counterexample. [stopAnalysisSequence] is called in the sample
    run while needsAnalysis is the agent of the analyzing set: the flag
    is cleared, and is still off five segments later, when the loop
    starts demandAnalyst (the agent of the analyzing set then, with a
    progress record "loading"); the run goes on to start
    opportunityQualification and finalReport, and ends with its success
    toast and the results of the five agents. With the control the
    page has, "Reset Evaluation", pressed during the wait that follows
    needsAnalysis: the flag is cleared and the reload is pending; the
    wait of the loop ends first and demandAnalyst is started, with the
    flag off; the reload then leaves nothing in flight, and the agent
    that was running has a progress record "loading" and no result. *)
Lemma agents_started_after_stop :
  (elements (analyzingAgents (live needsRunning)) = ["needsAnalysis"]
   ∧ isSequenceRunning (live needsRunning) = true
   ∧ isSequenceRunning (live stopped) = false
   ∧ trace (live stopped)
     = ToastInfo "Analysis sequence stopped." :: trace (live needsRunning)
   ∧ isSequenceRunning (live stoppedNext) = false
   ∧ head (trace (live stoppedNext)) = Some (StartingAgent "demandAnalyst")
   ∧ elements (analyzingAgents (live stoppedNext)) = ["demandAnalyst"]
   ∧ agentProgress (live stoppedNext) !! "demandAnalyst" ≫= prop "status"
     = Some (VStr "loading")
   ∧ trace (live stoppedOver)
     = [ToastSuccess "Analysis sequence completed successfully!";
        StartingAgent "finalReport";
        StartingAgent "opportunityQualification";
        StartingAgent "demandAnalyst";
        ToastInfo "Analysis sequence stopped.";
        StartingAgent "needsAnalysis";
        ChunkingCall "Interviewer: what slows you down?";
        StartingAgent "longContextChunking"]
   ∧ length (elements (dom (localAnalysisResults (live stoppedOver)))) = 5%nat)
  ∧ (isSequenceRunning (live needsDone) = true
     ∧ isSequenceRunning (live resetPressed) = false
     ∧ reloading resetPressed = true
     ∧ isSequenceRunning (live resetNext) = false
     ∧ head (trace (live resetNext)) = Some (StartingAgent "demandAnalyst")
     ∧ elements (analyzingAgents (live resetNext)) = ["demandAnalyst"]
     ∧ pool reloaded = []
     ∧ head (trace (live reloaded)) = Some Reload
     ∧ currentRunningAgent (live reloaded) = Some "demandAnalyst"
     ∧ agentProgress (live reloaded) !! "demandAnalyst" ≫= prop "status"
       = Some (VStr "loading")
     ∧ localAnalysisResults (live reloaded) !! "demandAnalyst" = None).
Proof. split_and!; vm_compute; reflexivity. Qed.

(** The amended C4 on the sample run: in the render in which the
    sequence has been stopped [runNextAgentInSequence] starts nothing,
    and the loop of [startAnalysisSequence], stopped while
    needsAnalysis is in flight, starts the three agents after it. *)
Lemma stop_in_the_sample_run :
  run (runNextAgentInSequence 1 (live stopped)) (live stopped) = live stopped
  ∧ trace stoppedThenResumed
    = ToastSuccess "Analysis sequence completed successfully!"
      :: started ["demandAnalyst"; "opportunityQualification"; "finalReport"]
      ++ ToastInfo "Analysis sequence stopped." :: StartingAgent "needsAnalysis"
      :: trace (run (take 8 theRun) uploaded).
Proof.
  destruct (stop_clears_the_flag_only (H := testBrowser)) as (_ & _ & Hnext & Hloop & _).
  split.
  - destruct (Hnext 1%nat (live stopped) (live stopped)) as (_ & _ & Hrun);
      [vm_compute; reflexivity|exact Hrun].
  - destruct (Hloop uploaded "longContextChunking" "needsAnalysis"
                ["demandAnalyst"; "opportunityQualification"; "finalReport"]
                (run (take 8 theRun) uploaded)) as (_ & _ & Htrace & _).
    exact Htrace.
Defined.

(** *** Completion *)

(** C5 on the sample session at the end of its run, and on the sample
    page when its last agent succeeds. *)
Lemma sequence_terminates_witness :
  (nextRunnable agents analysed = None
   ∧ isSequenceRunning (run (runNextAgentInSequence 1 analysed) analysed) = false)
  ∧ GradeTranscripts.progression GradeTranscripts.sampleSequence
      (GradeTranscripts.runAnalysisRef GradeTranscripts.sampleRetries
         GradeTranscripts.sampleSequence [GradeTranscripts.Ok (VStr "Recommendations")]
         GradeTranscripts.recommendations "Interviewer: what slows you down?"
         GradeTranscripts.page GradeTranscripts.page)
    = GradeTranscripts.Idle.
Proof.
  destruct (sequence_terminates_when_complete (H := testBrowser)) as (Hpage & Hgrade & _).
  split.
  - destruct (Hpage 1%nat analysed) as (Hnone & _ & _ & Hflag); [|by split].
    intros agentId Hin. unfold AGENT_SEQUENCE in Hin.
    repeat (apply elem_of_cons in Hin as [-> | Hin]; [vm_compute; eauto|]).
    by apply elem_of_nil in Hin.
  - apply Hgrade.
    + reflexivity.
    + vm_compute. lia.
    + reflexivity.
Defined.

(** *** Selection *)

(** C6, counterexample. With the chunking result alone, the code
    selects needsAnalysis where the first agent of the registry without
    a result and with its prerequisites met is jtbd; with the result of
    needsAnalysis alone, the code selects demandAnalyst where the first
    such agent, in the registry and in the sequence, is
    longContextChunking. *)
Lemma nextRunnable_not_registry_order :
  nextRunnable agents ready = Some "needsAnalysis"
  ∧ spec_nextRunnable agents (localAnalysisResults ready) = Some "jtbd"
  ∧ nextRunnable agents needsOnly = Some "demandAnalyst"
  ∧ spec_nextRunnable agents (localAnalysisResults needsOnly)
    = Some "longContextChunking"
  ∧ head AGENT_SEQUENCE = Some "longContextChunking".
Proof. split_and!; vm_compute; reflexivity. Qed.

(** The amended C6 on the sample render of a first visit on which the
    sequence flag is on: nothing has run, the chunking agent is
    selected. *)
Lemma nextRunnable_selects_witness :
  nextRunnable agents (setIsSequenceRunning true uploaded) = Some "longContextChunking".
Proof.
  destruct (nextRunnable_selects agents (setIsSequenceRunning true uploaded))
    as [_ Hscenario].
  apply Hscenario; reflexivity.
Defined.

(** *** Persistence *)

(** C7 on the sample session in the middle of its run. *)
Lemma persistence_round_trip_witness :
  localAnalysisResults (mount (localStorage (persistSession reportStarted)))
  = localAnalysisResults reportStarted
  ∧ agentProgress (mount (localStorage (persistSession reportStarted)))
    = agentProgress reportStarted
  ∧ analyzingAgents (mount (localStorage (persistSession reportStarted)))
    = analyzingAgents reportStarted
  ∧ finishedAgents (mount (localStorage (persistSession reportStarted)))
    = finishedAgents reportStarted.
Proof.
  destruct (persistence_round_trip (H := testBrowser) JsonFacts.parse_stringify
              JsonFacts.parse_nothing reportStarted) as [Hmount _].
  apply Hmount.
  - vm_compute. discriminate.
  - vm_compute. discriminate.
Defined.

(** *** Credentials *)

(** C8 on the sample sessions: needsAnalysis without a key, and the
    first agent of the sample page without a key. *)
Lemma missing_key_witness :
  trace (run (processWithAgent uploaded "needsAnalysis") uploaded)
  = [ToastError "API key is missing. Please add it in Settings.";
     ProcessWithAgent "needsAnalysis"]
  ∧ GradeTranscripts.trace
      (GradeTranscripts.runAnalysisRef GradeTranscripts.sampleRetries
         GradeTranscripts.sampleSequence [GradeTranscripts.Ok (VStr "Jobs")]
         GradeTranscripts.jtbd "Interviewer: what slows you down?"
         GradeTranscripts.keyless GradeTranscripts.keyless)
    = [GradeTranscripts.ToastError
         "OpenAI API key not found. Please set your API key in the settings."].
Proof.
  destruct (missing_key_is_fatal (H := testBrowser)) as (Hpage & Hgrade & _).
  split.
  - by destruct (Hpage uploaded "needsAnalysis" uploaded eq_refl) as (_ & Htrace & _).
  - by destruct (Hgrade GradeTranscripts.sampleRetries GradeTranscripts.sampleSequence
                   [GradeTranscripts.Ok (VStr "Jobs")] GradeTranscripts.jtbd
                   "Interviewer: what slows you down?" GradeTranscripts.keyless
                   "OpenAI API key not found. Please set your API key in the settings."
                   eq_refl) as (Htrace & _).
Defined.

(** *** Lifecycle *)

(** C9, counterexample. In the sample run, when the chunking call has
    resolved, the page still shows the upload form, enabled, also after
    a round of its effects. A transcript uploaded then leaves
    longContextChunking in the finished set and the sequence and
    optimizing flags on, and the run of the previous transcript stays
    in flight: at its end the session of the new transcript holds the
    results of the five agents, built in the render of the previous
    one (the processed transcript of demandAnalyst is the previous
    transcript), and the five agents are in the finished set. *)
Lemma new_transcript_keeps_previous_run :
  (showsResults (live optimized) = false
   ∧ size (analyzingAgents (live optimized)) = 0%nat
   ∧ showsResults ((effects allEffects freshRefs (live optimized)).2 (live optimized))
     = false)
  ∧ (transcript (live replaced) = "Second interview"
     ∧ elements (finishedAgents (live replaced)) = ["longContextChunking"]
     ∧ isSequenceRunning (live replaced) = true
     ∧ isOptimizingTranscript (live replaced) = true
     ∧ length <$> pool replaced = [26%nat; 0%nat])
  ∧ (transcript (live replacedOver) = "Second interview"
     ∧ length (elements (dom (localAnalysisResults (live replacedOver)))) = 5%nat
     ∧ localAnalysisResults (live replacedOver) !! "demandAnalyst"
         ≫= prop "processedTranscript"
       = Some (VStr "Interviewer: what slows you down?")
     ∧ length (elements (finishedAgents (live replacedOver))) = 5%nat).
Proof. split_and!; vm_compute; reflexivity. Qed.

(** The amended C9 on the sample session at the end of its run, with
    nothing in flight: both resets, followed by a render and the
    reload. *)
Lemma reset_and_new_transcript_witness :
  session
    (live (unload
       (fire (handler (handleReset true analysed) (Render allEffects freshRefs))
          (fire (handler analysed (Reset true))
             {| live := analysed; pool := []; reloading := false |}))))
  = initial
  ∧ session
      (live (unload
         (fire (handler (handleClearData analysed) (Render allEffects freshRefs))
            (fire (handler analysed ResetEvaluation)
               {| live := analysed; pool := []; reloading := false |}))))
    = initial
  ∧ localStorage (handleReset true analysed) !! "opportunityResults" = None.
Proof.
  destruct (reset_and_new_transcript (H := testBrowser) analysed)
    as (_ & Hkeys & _ & _ & _ & Hreset & Hcleared & _).
  split_and!.
  - destruct (Hreset {| live := analysed; pool := []; reloading := false |}
                (fire (handler (handleReset true analysed) (Render allEffects freshRefs))
                   (fire (handler analysed (Reset true))
                      {| live := analysed; pool := []; reloading := false |})))
      as (_ & Hsession & _); [constructor| |exact Hsession].
    apply rtc_once. exact (step_input rendering (Render allEffects freshRefs) _ I).
  - destruct (Hcleared JsonFacts.parse_stringify
                {| live := analysed; pool := []; reloading := false |}
                (fire (handler (handleClearData analysed) (Render allEffects freshRefs))
                   (fire (handler analysed ResetEvaluation)
                      {| live := analysed; pool := []; reloading := false |})))
      as (_ & Hsession & _); [constructor| |exact Hsession].
    apply rtc_once. exact (step_input rendering (Render allEffects freshRefs) _ I).
  - apply Hkeys. clear. unfold resetKeys. set_solver.
Defined.

(** *** Chunking failure *)

(** C10 on the sample session: the trace of the run whose chunking call
    is rejected, the agent of the analyzing set when that run has
    started needsAnalysis, and the result of the final report at its
    end. *)
Lemma chunking_failure_witness :
  trace (run theFailedRun uploaded)
  = [ToastSuccess "Analysis sequence completed successfully!";
     StartingAgent "finalReport"; StartingAgent "opportunityQualification";
     StartingAgent "demandAnalyst"; StartingAgent "needsAnalysis";
     ChunkingCall "Interviewer: what slows you down?";
     StartingAgent "longContextChunking"]
  ∧ analyzingAgents (run (take 9 theFailedRun) uploaded) = {["needsAnalysis"]}
  ∧ localAnalysisResults (run theFailedRun uploaded) !! "finalReport"
    = Some (dummyResult uploaded "finalReport")
  ∧ analyzingAgents (run theFailedRun uploaded) = ∅.
Proof.
  destruct (chunking_failure_continues uploaded [50] "Request timed out")
    as (_ & _ & _ & _ & _ & _ & _ & Hentered & Hover & Hnone & Htrace & _).
  - vm_compute. discriminate.
  - reflexivity.
  - split_and!; [exact Htrace| | |exact Hnone].
    + by destruct (Hentered 0%nat "needsAnalysis" eq_refl) as (_ & Han & _).
    + destruct (Hover "finalReport") as (Hres & _); [|exact Hres].
      unfold AGENT_SEQUENCE. clear. set_solver.
Defined.

End Evaluation.

Module GradeEvaluation.
Import GradeTranscripts.

Section Sample.
#[local] Existing Instance testBrowser.

(** C3 on the sample page: three failures of the first agent. *)
Lemma retry_bound_witness :
  calls jtbd
    (trace (runAnalysisRef sampleRetries sampleSequence
              [Failed "Network error"; Failed "Network error"; Failed "Network error"]
              jtbd "Interviewer: what slows you down?" page page)) = 3%nat
  ∧ isSequenceRunning
      (runAnalysisRef sampleRetries sampleSequence
         [Failed "Network error"; Failed "Network error"; Failed "Network error"]
         jtbd "Interviewer: what slows you down?" page page) = false.
Proof.
  destruct (GradeProofs.retry_bound sampleRetries sampleSequence
              [Failed "Network error"; Failed "Network error"; Failed "Network error"]
              [] jtbd "Interviewer: what slows you down?" page)
    as (_ & Hcalls & _ & Hflag & _).
  - reflexivity.
  - repeat constructor.
  - reflexivity.
  - split; [exact Hcalls | exact Hflag].
Defined.
End Sample.
End GradeEvaluation.

(* ===================================================================== *)
(** * Further properties of the code *)
(* ===================================================================== *)

(** ** The sequence of the Opportunity Evaluation page, from start to end *)

Section Run.
Context `{Browser}.

Lemma run_take_inv (P : State → Prop) (t : Task) : ∀ n s,
  P s → Forall (λ sg, ∀ x, P x → P (act sg x)) t → P (run (take n t) s).
Proof.
  induction t as [|sg t IH]; intros n s Hs Ht.
  - by rewrite take_nil.
  - destruct n as [|n]; [done|]. cbn [take]. rewrite run_cons.
    inversion Ht; subst. apply IH; auto.
Qed.

Lemma chunkingPhase_first cap outcome s :
  ∃ sg rest, chunkingPhase cap outcome = sg :: rest
             ∧ chunking s (act sg s)
             ∧ Forall (λ sg, ∀ x, chunking s x → chunking s (act sg x)) rest.
Proof.
  unfold chunkingPhase. destruct (blank (transcript cap)).
  - eexists _, []. split; [done|]. split; [|constructor].
    unfold chunking. cbn. split_and!; try done. right.
    split_and!; [by eexists|set_solver].
  - eexists _, _. split; [done|]. split.
    + unfold chunking. cbn. split_and!; try done. by left.
    + apply Forall_app. split.
      * apply Forall_fmap, Forall_forall. intros r _ x Hx. exact Hx.
      * constructor; [|constructor]. intros x Hx.
        unfold chunking in *. destruct Hx as (?&?&?&?&?&?&?&?&?&Hres).
        assert (finishedAgents x = finishedAgents s
                ∨ finishedAgents x = finishedAgents s ∪ {["longContextChunking"]})
          as Hfin by (destruct Hres as [[_ ?]|(_&?)]; auto).
        assert (∀ stored, <["longContextChunking" := stored]> (localAnalysisResults x)
                          = {["longContextChunking" := stored]}) as Hins.
        { intros stored. destruct Hres as [[-> _]|((old & -> & _)&_)]; [done|].
          apply insert_insert_eq. }
        destruct outcome as [reps r|reps message]; cbn;
          (split_and!; try done; right; rewrite Hins;
           split_and!; [by eexists|];
           destruct Hfin as [Hf|Hf];
           [exact (f_equal (λ X, X ∪ {["longContextChunking"]}) Hf)
           |etransitivity;
            [exact (f_equal (λ X, X ∪ {["longContextChunking"]}) Hf)
            |by rewrite <- (assoc_L (∪)), union_idemp_L]]).
Qed.

(** Every state of the chunking phase after its first segment. *)
Lemma chunkingPhase_states cap outcome s n :
  (0 < n)%nat → chunking s (run (take n (chunkingPhase cap outcome)) s).
Proof.
  intros Hn. destruct (chunkingPhase_first cap outcome s) as (sg & rest & -> & H1 & Hrest).
  destruct n as [|n]; [lia|]. cbn [take]. rewrite run_cons.
  by apply run_take_inv.
Qed.

(** What the page shows of the session a run of
    [startAnalysisSequence] ends in. *)
Lemma run_ends cap outcome s :
  transcript cap ≠ "" →
  showResult (run (startAnalysisSequence cap outcome) s) = Some "finalReport"
  ∧ hasAnalyzed (run (startAnalysisSequence cap outcome) s) = true
  ∧ analyzingAgents (run (startAnalysisSequence cap outcome) s) = ∅
  ∧ isOptimizingTranscript (run (startAnalysisSequence cap outcome) s) = false
  ∧ ∀ agentId, agentId ∈ AGENT_SEQUENCE →
      agentId ∈ finishedAgents (run (startAnalysisSequence cap outcome) s).
Proof.
  intros Hne. rewrite startAnalysisSequence_run by done.
  destruct (chunkingPhase_end cap outcome s)
    as (x & stored & failed & -> & _ & Han & _).
  destruct x. cbn in Han. subst.
  destruct failed; cbn -[dummyResult progressEntry];
    (split_and!; try reflexivity;
     intros agentId Hin; unfold AGENT_SEQUENCE in Hin; clear -Hin; set_solver).
Qed.

(** *** The effects between the segments of the run *)

Lemma agrees_refl s : agrees s s.
Proof. unfold agrees. by split_and!. Qed.

Ltac frame :=
  intros [] [] Hxy; unfold agrees in *; cbn in *; destruct_and!; simplify_eq;
  split_and!; try done.

Lemma steady_andThen a b : steady a → steady b → steady (a >> b).
Proof. intros Ha Hb x y Hxy. apply Hb, Ha, Hxy. Qed.

Lemma steady_when c a : steady a → steady (when c a).
Proof. intros Ha. destruct c; [done|]. by intros x y Hxy. Qed.

Lemma steady_setItem key v : steady (setItem key v).
Proof. frame. Qed.
Lemma steady_setShowResult v : steady (setShowResult v).
Proof. frame. Qed.
Lemma steady_setAnalyzingAgents f : steady (setAnalyzingAgents f).
Proof. frame. Qed.
Lemma steady_setLocalAnalysisResults f : steady (setLocalAnalysisResults f).
Proof. frame. Qed.
Lemma steady_setAgentProgress f : steady (setAgentProgress f).
Proof. frame. Qed.
Lemma steady_setHasAnalyzed v : steady (setHasAnalyzed v).
Proof. frame. Qed.
Lemma steady_setIsSequenceRunning v : steady (setIsSequenceRunning v).
Proof. frame. Qed.
Lemma steady_setIsOptimizingTranscript v : steady (setIsOptimizingTranscript v).
Proof. frame. Qed.
Lemma steady_setOptimizationProgress v : steady (setOptimizationProgress v).
Proof. frame. Qed.
Lemma steady_setFinishedAgents f : steady (setFinishedAgents f).
Proof. frame. Qed.
Lemma steady_setFinishedAgentsArray f : steady (setFinishedAgentsArray f).
Proof. frame. Qed.
Lemma steady_setCurrentRunningAgent v : steady (setCurrentRunningAgent v).
Proof. frame. Qed.
Lemma steady_emit e : steady (emit e).
Proof. frame. Qed.

Ltac steadiness :=
  repeat lazymatch goal with
    | |- steady (_ >> _) => apply steady_andThen
    | |- steady (when _ _) => apply steady_when
    | |- steady (if ?c then _ else _) => destruct c
    | |- steady (match ?c with _ => _ end) => destruct c
    | |- steady (setItem _ _) => apply steady_setItem
    | |- steady (setShowResult _) => apply steady_setShowResult
    | |- steady (setAnalyzingAgents _) => apply steady_setAnalyzingAgents
    | |- steady (setLocalAnalysisResults _) => apply steady_setLocalAnalysisResults
    | |- steady (setAgentProgress _) => apply steady_setAgentProgress
    | |- steady (setProgress _ _ _) => apply steady_setAgentProgress
    | |- steady (setHasAnalyzed _) => apply steady_setHasAnalyzed
    | |- steady (setIsSequenceRunning _) => apply steady_setIsSequenceRunning
    | |- steady (setIsOptimizingTranscript _) => apply steady_setIsOptimizingTranscript
    | |- steady (setOptimizationProgress _) => apply steady_setOptimizationProgress
    | |- steady (setFinishedAgents _) => apply steady_setFinishedAgents
    | |- steady (setFinishedAgentsArray _) => apply steady_setFinishedAgentsArray
    | |- steady (setCurrentRunningAgent _) => apply steady_setCurrentRunningAgent
    | |- steady (emit _) => apply steady_emit
    | |- steady (leave _) => apply steady_setAnalyzingAgents
    | |- steady (enter _) => unfold enter
    | |- steady (complete _ _) => unfold complete
    | |- steady (chunkingDone _ _) => unfold chunkingDone
    | |- steady resetForSequence => unfold resetForSequence
    | |- steady (?f ∘ ?g) => unfold compose
    end.

Lemma steady_seg a : steady a → steady (act (seg a)) ∧ timers (seg a) = [].
Proof. done. Qed.

Lemma steady_iterations cap : ∀ rest pending,
  steady pending → steadyTask (iterations cap pending rest).
Proof.
  induction rest as [|a rest IH]; intros pending Hp; cbn [iterations].
  - constructor; [|constructor]. apply steady_seg. by steadiness.
  - do 5 (constructor; [apply steady_seg; by steadiness|]).
    apply IH. steadiness.
Qed.

Lemma steady_startAnalysisSequence cap outcome :
  steadyTask (startAnalysisSequence cap outcome).
Proof.
  unfold startAnalysisSequence. destruct (String.eqb _ _).
  - constructor; [|constructor]. apply steady_seg. steadiness.
  - apply Forall_app_2.
    + unfold chunkingPhase. destruct (blank _).
      * constructor; [|constructor]. apply steady_seg. steadiness.
      * constructor; [apply steady_seg; steadiness|]. apply Forall_app_2.
        -- apply Forall_fmap, Forall_forall. intros r _. apply steady_seg.
           apply steady_setOptimizationProgress.
        -- constructor; [|constructor]. apply steady_seg. destruct outcome; steadiness.
    + unfold agentLoop.
      do 5 (constructor; [apply steady_seg; steadiness|]).
      apply steady_iterations. steadiness.
Qed.

Lemma aside_andThen a b : aside a → aside b → aside (a >> b).
Proof. intros Ha Hb x y Hxy. apply Hb, Ha, Hxy. Qed.

Lemma aside_nothing : aside (λ s, s).
Proof. by intros x y Hxy. Qed.

Lemma aside_setShowResult v : aside (setShowResult v).
Proof. frame. Qed.

Lemma aside_syncAnalyzingAgents : aside syncAnalyzingAgents.
Proof.
  intros x y Hxy. unfold syncAnalyzingAgents.
  repeat case_match; done.
Qed.

Lemma aside_syncFinishedAgents : aside syncFinishedAgents.
Proof.
  intros x y Hxy. unfold syncFinishedAgents.
  repeat case_match; done.
Qed.

(** No effect writes to the variables of [agrees]. *)
Lemma aside_effect e refs cap : aside (effect e refs cap).2.
Proof.
  destruct e; cbn.
  - apply aside_syncAnalyzingAgents.
  - apply aside_syncFinishedAgents.
  - intros x y Hxy. unfold autoSelectView. repeat case_match; exact Hxy.
  - intros x y Hxy. exact Hxy.
  - unfold sequenceEffect. repeat case_match; cbn; try apply aside_nothing;
      (apply aside_andThen;
       [ unfold when; case_match; [frame | apply aside_nothing]
       | intros x y Hxy; unfold when; repeat case_match; exact Hxy ]).
  - intros x y Hxy. unfold chunkingViewGuard. repeat case_match; exact Hxy.
Qed.

Lemma aside_effects es : ∀ refs cap, aside (effects es refs cap).2.
Proof.
  induction es as [|e es IH]; intros refs cap; cbn; [apply aside_nothing|].
  pose proof (aside_effect e refs cap) as He.
  destruct (effect e refs cap) as [refs1 a].
  specialize (IH refs1 cap). destruct (effects es refs1 cap) as [refs2 b].
  by apply aside_andThen.
Qed.

(** A steady task that is started and goes on among renders and their
    effects: when [k] of its segments have run, the session agrees with
    what these segments write by themselves. *)
Lemma effects_frame (t : Task) s w :
  steadyTask t → t ≠ [] →
  rtc (step rendering) (fire t {| live := s; pool := []; reloading := false |}) w →
  ∃ k rest, agrees (run (take k t) s) (live w)
            ∧ pool w = drop k t :: rest ∧ Forall (λ t' : Task, t' = []) rest.
Proof.
  intros Ht Hne Hrtc.
  eapply (rtc_ind_r
            (λ w, ∃ k rest, agrees (run (take k t) s) (live w)
                            ∧ pool w = drop k t :: rest
                            ∧ Forall (λ t' : Task, t' = []) rest));
    [ | | exact Hrtc].
  - destruct t as [|sg t']; [done|]. inversion_clear Ht as [|? ? [_ Htimers] _].
    exists 1%nat, []. cbn [fire live pool app]. unfold suspended. rewrite Htimers.
    split_and!; [apply agrees_refl|done|done].
  - clear w Hrtc. intros w2 w3 _ Hstep (k & rest & Hagree & Hpool & Hrest).
    destruct Hstep as [i w2 Hi|n w2].
    + assert (∃ a, handler (live w2) i = [seg a] ∧ aside a) as (a & -> & Ha).
      { destruct i; try done; cbn; eexists; (split; [done|]).
        - apply aside_andThen; [apply aside_syncAnalyzingAgents
                               |apply aside_syncFinishedAgents].
        - apply aside_effects. }
      exists k, (rest ++ [[]])%list. cbn. rewrite Hpool. split_and!.
      * by apply Ha.
      * done.
      * apply Forall_app_2; [done|]. by constructor.
    + unfold resume. destruct n as [|n].
      * rewrite Hpool. cbn [lookup list_lookup].
        destruct (drop k t) as [|sg rest'] eqn:Hdrop;
          [exists k, rest; by rewrite Hdrop|].
        assert (t !! k = Some sg) as Hk.
        { pose proof (lookup_drop t k 0) as Hl. rewrite Hdrop, Nat.add_0_r in Hl.
          symmetry. exact Hl. }
        pose proof (Forall_lookup_1 _ _ _ _ Ht Hk) as [Hsg Htimers].
        exists (S k), rest. cbn [live pool]. rewrite Htimers. cbn. split_and!.
        -- rewrite (take_S_r _ _ _ Hk), run_app. cbn. by apply Hsg.
        -- pose proof (drop_S _ _ _ Hk) as Hd. rewrite Hdrop in Hd.
           injection Hd as ->. by rewrite app_nil_r.
        -- done.
      * rewrite Hpool. change ((drop k t :: rest) !! S n) with (rest !! n).
        destruct (rest !! n) as [task|] eqn:Hn;
          [rewrite (Forall_lookup_1 _ _ _ _ Hrest Hn)|];
          exists k, rest; rewrite <- Hpool; done.
Qed.

(** X1. A run of [startAnalysisSequence] on a transcript that is not
    empty, with the renders and effects of the page coming in between
    its segments and after them in whatever way, always ends in the
    same results, whatever the chunking call returned or threw: every
    agent of the sequence, longContextChunking included, has the dummy
    result built from the render the button was pressed in, and a
    progress record of 100 with the status success; the analyzing set
    is empty and the five agents are in the finished set; the flags say
    analysed, not running, not optimizing, and [currentRunningAgent]
    still names the final report. (The result shown and the stored
    array, which the effects write to, are left out.) *)
Theorem startAnalysisSequence_final_state cap outcome s w :
  transcript cap ≠ "" →
  rtc (step rendering)
      (fire (startAnalysisSequence cap outcome)
         {| live := s; pool := []; reloading := false |}) w →
  settled w →
  (∀ agentId,
     localAnalysisResults (live w) !! agentId
     = if bool_decide (agentId ∈ AGENT_SEQUENCE)
       then Some (dummyResult cap agentId) else None)
  ∧ (∀ agentId,
       agentId ∈ AGENT_SEQUENCE →
       agentProgress (live w) !! agentId = Some (progressEntry 100 "success"))
  ∧ analyzingAgents (live w) = ∅
  ∧ finishedAgents (live w) = finishedAgents s ∪ list_to_set AGENT_SEQUENCE
  ∧ hasAnalyzed (live w) = true
  ∧ isSequenceRunning (live w) = false
  ∧ isOptimizingTranscript (live w) = false
  ∧ optimizationProgress (live w) = 100
  ∧ currentRunningAgent (live w) = Some "finalReport"
  ∧ userHasSelectedView (live w) = userHasSelectedView s
  ∧ transcript (live w) = transcript s.
Proof.
  intros Hne Hrtc Hsettled.
  assert (startAnalysisSequence cap outcome ≠ []) as Hsome.
  { unfold startAnalysisSequence. destruct (String.eqb _ _); [done|].
    unfold chunkingPhase. by destruct (blank _). }
  destruct (effects_frame _ s w (steady_startAnalysisSequence cap outcome) Hsome Hrtc)
    as (k & rest & Hagree & Hpool & _).
  unfold settled in Hsettled. rewrite Hpool in Hsettled.
  apply Forall_cons in Hsettled as [Hdrop _].
  assert (take k (startAnalysisSequence cap outcome) = startAnalysisSequence cap outcome)
    as Htake.
  { rewrite <- (take_drop k (startAnalysisSequence cap outcome)) at 2.
    rewrite Hdrop. by rewrite app_nil_r. }
  rewrite Htake in Hagree.
  destruct (run_final_state cap outcome s Hne)
    as (Hres & Hprog & Han & Hfin & _ & Hhas & Hrun & Hopt & Hdone & _ & Hcur & Huser
        & Htr).
  destruct Hagree as (A1 & A2 & A3 & A4 & A5 & _ & _ & _ & A9 & A10 & A11 & A12 & _ & _
                      & _ & A16 & _ & A18).
  split_and!.
  - intros agentId. rewrite A3. apply Hres.
  - intros agentId Hin. rewrite A4. by apply Hprog.
  - by rewrite A2.
  - by rewrite A11.
  - by apply A18.
  - by rewrite A12.
  - by rewrite A9.
  - by rewrite A10.
  - by rewrite A16.
  - by rewrite A5.
  - by rewrite A1.
Qed.

(** X2. What a run of [startAnalysisSequence] leaves in the trace,
    whatever the outcome of the chunking call: the chunking module is
    called once, with the transcript, unless [trim] leaves nothing of
    the transcript (it is made of white space and line terminators, of
    one byte or more), in which case the module is not called and the
    fallback result with the error "No transcript content to analyze"
    is stored; either way the four later agents are then started in
    order and the run ends with the success toast. No error toast is
    ever shown. *)
Theorem startAnalysisSequence_trace cap outcome s :
  transcript cap ≠ "" →
  trace (run (startAnalysisSequence cap outcome) s)
  = ToastSuccess "Analysis sequence completed successfully!"
    :: started ["needsAnalysis"; "demandAnalyst"; "opportunityQualification"; "finalReport"]
    ++ (if blank (transcript cap) then [] else [ChunkingCall (transcript cap)])
    ++ StartingAgent "longContextChunking" :: trace s
  ∧ (blank (transcript cap) = true →
     localAnalysisResults (run (chunkingPhase cap outcome) s) !! "longContextChunking"
     = Some (fallbackResult "No transcript content to analyze")).
Proof.
  intros Hne. rewrite startAnalysisSequence_run by done.
  rewrite agentLoop_trace. unfold chunkingPhase.
  destruct (blank (transcript cap)).
  - split; [reflexivity|]. intros _. cbn. apply lookup_insert_eq.
  - split; [|done]. rewrite run_cons, run_app.
    match goal with |- context [run (_ <$> reports outcome) ?y] =>
      destruct (reports_frame (reports outcome) y) as (p & store & ->) end.
    by destruct outcome.
Qed.

(** X3. While the transcript is being optimized, that is after each
    segment of the chunking phase, from its first to its last, the
    page still shows the upload form with "Analyze Transcript"
    enabled (the analyzing set is empty and nothing is shown), so a
    second sequence can be started; the first card carries the grey
    bar, the others no badge, and the view effects change nothing. *)
Theorem analyze_offered_while_optimizing cap outcome s n refs :
  transcript s ≠ "" →
  (0 < n)%nat →
  analyzeOffered (run (take n (chunkingPhase cap outcome)) s) = true
  ∧ badges (run (take n (chunkingPhase cap outcome)) s)
    = [OptimizingTranscript; NoBadge; NoBadge; NoBadge]
  ∧ viewEffects refs (run (take n (chunkingPhase cap outcome)) s)
    = (refs, run (take n (chunkingPhase cap outcome)) s).
Proof.
  intros Hne Hn.
  destruct (chunkingPhase_states cap outcome s n Hn)
    as (Han & Hshow & Hhas & Hrun & Hopt & Hprog & Htr & Huser & Harr & Hres).
  set (x := run (take n (chunkingPhase cap outcome)) s) in *. clearbody x.
  apply String.eqb_neq in Hne.
  destruct x. cbn in Han, Hshow, Hhas, Hrun, Hopt, Hprog, Htr, Huser, Harr, Hres. subst.
  split_and!.
  - unfold analyzeOffered, showsResults, analyzeDisabled. cbn. by rewrite Hne.
  - reflexivity.
  - unfold viewEffects, autoSelectView, sequenceEffect, chunkingViewGuard. cbn.
    rewrite (bool_decide_false (None = Some "longContextChunking")) by done.
    rewrite andb_false_r. cbn.
    destruct (sequenceCompletedRef refs); [done|].
    destruct Hres as [[-> _]|[(stored & -> & Hstored) _]]; [done|].
    rewrite bool_decide_false by apply insert_non_empty.
    unfold met. rewrite !lookup_singleton_ne by discriminate. cbn.
    by destruct (userHasSelectedView s).
Qed.

(** X4. When a run of [startAnalysisSequence] is over, the results
    panel has replaced the upload form, so "Analyze Transcript" is no
    longer on the page; every card has its "View Results" button and
    none a progress bar; [getCurrentAgent] finds no agent left. *)
Theorem results_panel_after_run cap outcome s :
  transcript cap ≠ "" →
  showsResults (run (startAnalysisSequence cap outcome) s) = true
  ∧ analyzeOffered (run (startAnalysisSequence cap outcome) s) = false
  ∧ Forall (λ agent,
              viewResultsButton (run (startAnalysisSequence cap outcome) s) agent = true)
           cards
  ∧ badges (run (startAnalysisSequence cap outcome) s)
    = [NoBadge; NoBadge; NoBadge; NoBadge]
  ∧ getCurrentAgent (run (startAnalysisSequence cap outcome) s) = None.
Proof.
  intros Hne.
  destruct (run_ends cap outcome s Hne) as (Hshow & Hhas & Han & Hopt & Hfin).
  set (x := run (startAnalysisSequence cap outcome) s) in *. clearbody x.
  assert (∀ agentId, agentId ∈ AGENT_SEQUENCE → isDone x agentId = true) as Hdone.
  { intros agentId Hin. unfold isDone.
    rewrite (bool_decide_true (agentId ∈ finishedAgents x)) by (by apply Hfin).
    rewrite orb_true_r. by destruct (_ && _)%bool. }
  clear Hfin. destruct x. cbn in Han, Hhas, Hopt, Hshow. subst.
  split_and!.
  - reflexivity.
  - reflexivity.
  - unfold cards, viewResultsButton. cbn.
    repeat constructor; rewrite Hdone; (done || (unfold AGENT_SEQUENCE; clear; set_solver)).
  - reflexivity.
  - unfold getCurrentAgent. unfold AGENT_SEQUENCE at 1. cbn [List.find].
    rewrite !Hdone by (unfold AGENT_SEQUENCE; clear; set_solver). done.
Qed.

End Run.

(** ** The view effects *)

Section ViewEffects.
Context `{Browser}.

Lemma viewEffects_round refs s :
  userHasSelectedView s = false →
  hasAnalyzed s = true →
  met (localAnalysisResults s) "longContextChunking" = true →
  userHasSelectedView (viewEffects refs s).2 = false
  ∧ hasAnalyzed (viewEffects refs s).2 = true
  ∧ localAnalysisResults (viewEffects refs s).2 = localAnalysisResults s
  ∧ isSequenceRunning (viewEffects refs s).2 = isSequenceRunning s
  ∧ analyzingAgents (viewEffects refs s).2 = analyzingAgents s
  ∧ (showResult (viewEffects refs s).2,
     contextChunkingFixedRef (viewEffects refs s).1,
     sequenceCompletedRef (viewEffects refs s).1)
    = viewStep (shownInstead (localAnalysisResults s))
               (lastCompleted (localAnalysisResults s))
               (negb (isSequenceRunning s) && (size (analyzingAgents s) =? 0)%nat)
               (showResult s, contextChunkingFixedRef refs, sequenceCompletedRef refs).
Proof.
  intros Huser Hhas Hchunk.
  assert (localAnalysisResults s ≠ ∅) as Hne.
  { intros Hemp. unfold met in Hchunk. by rewrite Hemp in Hchunk. }
  destruct s as [text arr analyzing analysed results progress shown user key agent viewed
                   optimizing optimized farr finished running chunks jtbd gains previous
                   current store events],
    refs as [completed fixed].
  cbn in Huser, Hhas, Hchunk, Hne. subst.
  unfold viewEffects, viewStep, autoSelectView, sequenceEffect, chunkingViewGuard,
    shownInstead, lastCompleted.
  set (l := List.find _ (rev visibleAgentSequence)).
  set (g := List.find _ ["needsAnalysis"; "demandAnalyst"; "opportunityQualification"]).
  cbn [userHasSelectedView hasAnalyzed localAnalysisResults showResult isSequenceRunning
       analyzingAgents sequenceCompletedRef contextChunkingFixedRef negb andb].
  unfold AGENT_SEQUENCE. cbn [List.find]. rewrite Hchunk.
  rewrite (bool_decide_false (results = ∅)) by done.
  set (m := (met results "needsAnalysis" || met results "demandAnalyst"
             || met results "opportunityQualification")%bool).
  set (over := (negb running && (size analyzing =? 0)%nat)%bool).
  clearbody l g m over. clear Hchunk Hne.
  assert (shown = None ∧ bool_decide (shown = None) = true
            ∧ bool_decide (shown = Some "longContextChunking") = false
          ∨ shown = Some "longContextChunking"
            ∧ bool_decide (shown = None) = false
            ∧ bool_decide (shown = Some "longContextChunking") = true
          ∨ bool_decide (shown = None) = false
            ∧ bool_decide (shown = Some "longContextChunking") = false)
    as [(-> & -> & ->)|[(-> & -> & ->)|(-> & ->)]].
  { destruct shown as [shown|]; [|by left].
    right. destruct (decide (shown = "longContextChunking")) as [->|Hshown]; [by left|].
    right. by rewrite !bool_decide_false by congruence. }
  all: destruct completed, fixed; cbn; try done.
  all: destruct m, l, g, over; cbn; done.
Qed.

(** The rounds of the effects, seen from the result shown and the
    refs. *)
Lemma viewRounds_steps refs s n :
  userHasSelectedView s = false →
  hasAnalyzed s = true →
  met (localAnalysisResults s) "longContextChunking" = true →
  userHasSelectedView (viewRounds n refs s).2 = false
  ∧ hasAnalyzed (viewRounds n refs s).2 = true
  ∧ localAnalysisResults (viewRounds n refs s).2 = localAnalysisResults s
  ∧ isSequenceRunning (viewRounds n refs s).2 = isSequenceRunning s
  ∧ analyzingAgents (viewRounds n refs s).2 = analyzingAgents s
  ∧ (showResult (viewRounds n refs s).2,
     contextChunkingFixedRef (viewRounds n refs s).1,
     sequenceCompletedRef (viewRounds n refs s).1)
    = Nat.iter n
        (viewStep (shownInstead (localAnalysisResults s))
                  (lastCompleted (localAnalysisResults s))
                  (negb (isSequenceRunning s) && (size (analyzingAgents s) =? 0)%nat))
        (showResult s, contextChunkingFixedRef refs, sequenceCompletedRef refs).
Proof.
  intros Huser Hhas Hchunk. induction n as [|n IH]; [done|].
  destruct IH as (IH1 & IH2 & IH3 & IH4 & IH5 & IH6).
  change (viewRounds (S n) refs s)
    with (viewEffects (viewRounds n refs s).1 (viewRounds n refs s).2).
  rewrite Nat.iter_succ, <- IH6.
  set (p := viewRounds n refs s) in *. clearbody p.
  destruct (viewEffects_round p.1 p.2 IH1 IH2) as (R1 & R2 & R3 & R4 & R5 & R6);
    [by rewrite IH3|].
  split_and!; [done|done|congruence|congruence|congruence|].
  rewrite R6. by rewrite IH3, IH4, IH5.
Qed.

Lemma viewStep_chunking instead lastDone over fixed completed :
  viewStep instead lastDone over (Some "longContextChunking", fixed, completed)
  = (if fixed then Some "longContextChunking" else instead, true, (completed || over)%bool).
Proof.
  unfold viewStep. rewrite bool_decide_true by done.
  destruct fixed; cbn; done.
Qed.

Lemma viewStep_other instead lastDone over shown fixed completed :
  shown ≠ "longContextChunking" →
  viewStep instead lastDone over (Some shown, fixed, completed)
  = (Some "longContextChunking", fixed, (completed || over)%bool).
Proof.
  intros Hshown. unfold viewStep.
  rewrite (bool_decide_false (Some shown = Some "longContextChunking")) by congruence.
  rewrite (bool_decide_false (Some shown = None)) by done.
  cbn. by rewrite orb_false_r.
Qed.

Lemma viewStep_nothing instead lastDone over fixed completed :
  viewStep instead lastDone over (None, fixed, completed)
  = (if completed then Some "longContextChunking"
     else match lastDone with
          | Some agentId => Some agentId
          | None => Some "longContextChunking"
          end,
     fixed, (completed || over)%bool).
Proof.
  unfold viewStep.
  rewrite (bool_decide_false (None = Some "longContextChunking")) by done.
  rewrite (bool_decide_true (None = None)) by done.
  cbn. rewrite orb_false_r. by destruct completed.
Qed.

(** Once longContextChunking is shown and the safeguard has fired,
    nothing changes any more; and this is reached in five rounds at
    most. *)
Lemma viewStep_settles instead lastDone over v n :
  instead ≠ Some "longContextChunking" →
  lastDone ≠ Some "longContextChunking" →
  (5 ≤ n)%nat →
  ∃ completed,
    Nat.iter n (viewStep instead lastDone over) v
    = (Some "longContextChunking", true, completed).
Proof.
  intros Hi Hl Hn.
  set (step := viewStep instead lastDone over).
  set (reach := λ (k : nat) (v : option string * bool * bool),
         ∃ c, Nat.iter k step v = (Some "longContextChunking", true, c)).
  assert (∀ k v, reach k v → reach (S k) v) as Hmore.
  { intros k x [c Hc]. unfold reach. rewrite Nat.iter_succ, Hc.
    unfold step. rewrite viewStep_chunking. by eexists. }
  assert (∀ k v, reach k (step v) → reach (S k) v) as Hpre.
  { intros k x [c Hc]. exists c. by rewrite Nat.iter_succ_r. }
  assert (∀ c, reach 0%nat (Some "longContextChunking", true, c)) as H0
    by (intros c; by exists c).
  assert (∀ x f c, x ≠ "longContextChunking" → f = true → reach 1%nat (Some x, f, c))
    as Hother.
  { intros x f c Hx ->. apply Hpre. unfold step. rewrite viewStep_other by done.
    apply H0. }
  assert (∀ c, reach 2%nat (None, true, c)) as Hnone.
  { intros c. apply Hpre. unfold step. rewrite viewStep_nothing.
    destruct c; [apply Hmore, H0|].
    destruct lastDone as [a|]; [|apply Hmore, H0].
    apply Hother; [congruence|done]. }
  assert (∀ f c, reach 3%nat (Some "longContextChunking", f, c)) as Hchunk.
  { intros f c. destruct f; [do 3 apply Hmore; apply H0|].
    apply Hpre. unfold step. rewrite viewStep_chunking.
    destruct instead as [y|]; [|apply Hnone].
    apply Hmore, Hother; [congruence|done]. }
  assert (reach 5%nat v) as H5.
  { destruct v as [[[x|] f] c].
    - destruct (decide (x = "longContextChunking")) as [->|Hx].
      + do 2 apply Hmore. apply Hchunk.
      + apply Hmore, Hpre. unfold step. rewrite viewStep_other by done. apply Hchunk.
    - apply Hpre. unfold step. rewrite viewStep_nothing.
      destruct c; [apply Hmore, Hchunk|].
      destruct lastDone as [a|]; [|apply Hmore, Hchunk].
      apply Hpre. unfold step. rewrite viewStep_other by congruence.
      apply Hchunk. }
  replace n with ((n - 5) + 5)%nat by lia.
  induction (n - 5)%nat as [|k IH]; [exact H5|].
  by apply Hmore.
Qed.

Lemma find_in {A} (p : A → bool) l x : List.find p l = Some x → x ∈ l.
Proof.
  intros Hfind. apply find_some in Hfind as [Hin _]. by apply list_elem_of_In.
Qed.

(** X5. In a session that has been analysed and holds a result for
    longContextChunking, as at the end of a run of
    [startAnalysisSequence], and in which the user has chosen no view,
    the view effects put longContextChunking on show: whatever was
    shown, after five rounds of the effects at most the result shown is
    longContextChunking and stays so. The safeguard against this view
    has fired by then and does not fire again. *)
Theorem view_settles_on_longContextChunking refs s n :
  userHasSelectedView s = false →
  hasAnalyzed s = true →
  met (localAnalysisResults s) "longContextChunking" = true →
  (5 ≤ n)%nat →
  showResult (viewRounds n refs s).2 = Some "longContextChunking"
  ∧ contextChunkingFixedRef (viewRounds n refs s).1 = true
  ∧ localAnalysisResults (viewRounds n refs s).2 = localAnalysisResults s.
Proof.
  intros Huser Hhas Hchunk Hn.
  destruct (viewRounds_steps refs s n Huser Hhas Hchunk) as (_ & _ & Hres & _ & _ & Hsteps).
  destruct (viewStep_settles (shownInstead (localAnalysisResults s))
              (lastCompleted (localAnalysisResults s))
              (negb (isSequenceRunning s) && (size (analyzingAgents s) =? 0)%nat)
              (showResult s, contextChunkingFixedRef refs, sequenceCompletedRef refs) n)
    as [c Hc]; [| |done|].
  - intros Hfind. apply find_in in Hfind. set_solver.
  - intros Hfind. apply find_in in Hfind. set_solver.
  - rewrite Hc in Hsteps. by injection Hsteps as -> -> _.
Qed.

End ViewEffects.

(** ** The cards *)

Section Cards.
Context `{Browser}.

Lemma statusBadge_analyzing s index agent :
  statusBadge s index agent = AnalysisInProgress → id agent ∈ analyzingAgents s.
Proof.
  unfold statusBadge.
  destruct (_ && isOptimizingTranscript s)%bool; [done|].
  rewrite orb_false_r, andb_true_r. by case_bool_decide.
Qed.

(** Cards of different agents that carry the green bar stand for
    different members of the analyzing set. *)
Lemma greenBars_members (A : gset string) (l : list Agent) :
  ∀ f : nat → Agent → StatusBadge,
    (∀ i a, f i a = AnalysisInProgress → id a ∈ A) →
    NoDup (id <$> l) →
    (length (List.filter (λ badge, bool_decide (badge = AnalysisInProgress)) (imap f l))
     ≤ size (A ∩ list_to_set (id <$> l)))%nat.
Proof.
  induction l as [|a l IH]; intros f Hf Hnd; [cbn; lia|].
  cbn [imap List.filter fmap list_fmap list_to_set] in *.
  apply NoDup_cons in Hnd as [Hnotin Hnd].
  specialize (IH (f ∘ S) (λ i, Hf (S i)) Hnd).
  case_bool_decide as Hgreen.
  - apply Hf in Hgreen. cbn [length].
    replace (A ∩ ({[id a]} ∪ list_to_set (id <$> l)))
      with ({[id a]} ∪ A ∩ list_to_set (id <$> l)) by set_solver.
    rewrite size_union by set_solver. rewrite size_singleton. lia.
  - etransitivity; [exact IH|]. apply subseteq_size. set_solver.
Qed.

Lemma greenBars_single s : single s → (greenBars s ≤ 1)%nat.
Proof.
  unfold single, greenBars, badges. intros Hsize.
  etransitivity; [apply (greenBars_members (analyzingAgents s))|].
  - intros i a. apply statusBadge_analyzing.
  - vm_compute. repeat (constructor; [set_solver|]). constructor.
  - etransitivity; [|exact Hsize]. apply subseteq_size. set_solver.
Qed.

(** X6. Through a run of [startAnalysisSequence], whatever the order
    in which its timers and the other suspended tasks are resumed and
    whatever else the user does on the page in between, at most one of
    the four cards shows the green "Analysis in progress" bar. *)
Theorem one_green_bar cap outcome w :
  transcript cap ≠ "" →
  rtc (step sequenceInput)
      (fire (startAnalysisSequence cap outcome)
         {| live := cap; pool := []; reloading := false |}) w →
  (greenBars (live w) ≤ 1)%nat.
Proof.
  intros Hne Hrtc. apply greenBars_single.
  assert (inv w) as [Hw _]; [|exact Hw].
  eapply (rtc_ind_r (λ w, inv w)); [ |  | exact Hrtc].
  - by apply start_single.
  - intros w1 w2 _ Hstep Hinv. by eapply inv_step.
Qed.

End Cards.

(** ** [processWithAgent] and its callers *)

Section Agents.
Context `{Browser}.

Lemma testResult_truthy agentId : truthy (testResult agentId) = true.
Proof.
  unfold testResult.
  repeat match goal with |- context [if ?b then _ else _] => destruct b end; reflexivity.
Qed.

(** X7. [processWithAgent] with a key (or for longContextChunking)
    resolves to the test data of the agent and stores it as the result
    of the agent, leaving the results of the other agents alone; the
    progress record of the agent ends at 100 with status success. The
    agent is put in the analyzing set and stays there: the function
    ends with the agent in the set, and none of the timers it has set
    takes anything out of the set. *)
Theorem processWithAgent_stays_analyzing cap agentId s :
  keyMissing cap agentId = false →
  processWithAgent_result cap agentId = Some (testResult agentId)
  ∧ localAnalysisResults (run (processWithAgent cap agentId) s) !! agentId
    = Some (testResult agentId)
  ∧ (∀ other, other ≠ agentId →
       localAnalysisResults (run (processWithAgent cap agentId) s) !! other
       = localAnalysisResults s !! other)
  ∧ agentProgress (run (processWithAgent cap agentId) s) !! agentId
    = Some (VObj [("progress", VNum 100); ("status", VStr "success");
                  ("error", VNull); ("timestamp", VStr Date_now)])
  ∧ analyzingAgents (run (processWithAgent cap agentId) s)
    = analyzingAgents s ∪ {[agentId]}
  ∧ Forall (λ sg,
              Forall (Forall (λ a : Act, ∀ x, analyzingAgents (a x) = analyzingAgents x))
                     (timers sg))
           (processWithAgent cap agentId).
Proof.
  intros Hkey. unfold processWithAgent_result, processWithAgent. rewrite Hkey.
  assert (∀ m : gmap string Value,
            met (<[agentId := testResult agentId]> m) agentId = true) as Hmet.
  { intros m. unfold met. rewrite lookup_insert_eq. apply testResult_truthy. }
  split_and!.
  - done.
  - destruct s. unfold when.
    destruct (String.eqb agentId "longContextChunking");
      cbn -[testResult]; rewrite Hmet; apply lookup_insert_eq.
  - intros other Hother. destruct s. unfold when.
    destruct (String.eqb agentId "longContextChunking");
      cbn -[testResult]; rewrite Hmet; by rewrite lookup_insert_ne.
  - destruct s. unfold when.
    destruct (String.eqb agentId "longContextChunking");
      cbn -[testResult]; rewrite !lookup_insert_eq; cbn; by rewrite lookup_insert_eq.
  - destruct s. unfold when.
    by destruct (String.eqb agentId "longContextChunking").
  - repeat (constructor; [by cbn|]).
    constructor; [|constructor]. cbn [timers].
    apply Forall_app. split.
    + destruct (_ || _)%bool; [|constructor].
      constructor; [|constructor]. constructor; [|constructor].
      intros x. unfold andThen, when. by destruct (_ && _)%bool.
    + by repeat constructor.
Qed.

(** X8. The final report is out of reach of the two functions that
    run agents through [processWithAgent]. Its prerequisite in the
    registry is problemAwareness, which is not an agent of this page:
    as long as problemAwareness has no result, [handleRunSingleAgent]
    answers "finalReport" with the toast that names it and does
    nothing else, and [runNextAgentInSequence] never selects
    finalReport. When the three agents before it have results and
    painExtractor has none either, [runNextAgentInSequence] gives up
    with the toast "Cannot run Final Research Analysis Report. Missing
    required prerequisite analyses." and clears the sequence flag. *)
Theorem finalReport_out_of_reach cap :
  met (localAnalysisResults cap) "problemAwareness" = false →
  (transcript cap ≠ "" →
   handleRunSingleAgent cap "finalReport"
   = [seg (emit (ToastError "Final Research Analysis Report requires Problem Awareness Level to be run first."))])
  ∧ nextRunnable agents cap ≠ Some "finalReport"
  ∧ (isSequenceRunning cap = true →
     completed (localAnalysisResults cap) "needsAnalysis" = true →
     completed (localAnalysisResults cap) "demandAnalyst" = true →
     completed (localAnalysisResults cap) "opportunityQualification" = true →
     completed (localAnalysisResults cap) "finalReport" = false →
     met (localAnalysisResults cap) "painExtractor" = false →
     ∀ fuel s,
       trace (run (runNextAgentInSequence fuel cap) s)
       = ToastError "Cannot run Final Research Analysis Report. Missing required prerequisite analyses."
         :: trace s
       ∧ isSequenceRunning (run (runNextAgentInSequence fuel cap) s) = false
       ∧ localAnalysisResults (run (runNextAgentInSequence fuel cap) s)
         = localAnalysisResults s).
Proof.
  intros Hpa. split_and!.
  - intros Hne. unfold handleRunSingleAgent.
    apply String.eqb_neq in Hne. rewrite Hne. cbn. by rewrite Hpa.
  - destruct (isSequenceRunning cap) eqn:Hrun;
      [|unfold nextRunnable, nextAction; by rewrite Hrun].
    rewrite nextRunnable_selection by done.
    unfold selection. destruct (candidate (localAnalysisResults cap)) as [c|] eqn:Hc;
      [|done].
    apply find_in in Hc. unfold visibleAgentSequence in Hc.
    cbn [mbind option_bind].
    assert (c = "needsAnalysis" ∨ c = "demandAnalyst" ∨ c = "opportunityQualification"
            ∨ c = "finalReport") as [->|[->|[->| ->]]] by (clear -Hc; set_solver).
    + unfold gated. cbn. repeat match goal with
               | |- context [met ?r ?a] => destruct (met r a)
               end; cbn; congruence.
    + unfold gated. cbn. repeat match goal with
               | |- context [met ?r ?a] => destruct (met r a)
               end; cbn; congruence.
    + unfold gated. cbn. repeat match goal with
               | |- context [met ?r ?a] => destruct (met r a)
               end; cbn; congruence.
    + unfold gated. cbn. rewrite Hpa. cbn.
      repeat match goal with
             | |- context [met ?r ?a] => destruct (met r a)
             end; cbn; congruence.
  - intros Hrun Hneeds Hdemand Hopp Hfinal Hpain fuel s.
    assert (nextAction agents cap = Blocked "Final Research Analysis Report") as Hnext.
    { unfold nextAction. rewrite Hrun. cbn [negb].
      unfold visibleAgentSequence. cbn [findIndex].
      rewrite Hneeds, Hdemand, Hopp, Hfinal. cbn.
      rewrite Hpa. cbn. unfold canRun. cbn. by rewrite Hpain. }
    destruct fuel; cbn [runNextAgentInSequence]; rewrite Hnext;
      (split_and!; [|done|]).
    all: cbn [run fold_left act seg]; unfold andThen.
    all: try (change (trace (setIsSequenceRunning false ?x)) with (trace x);
              change (trace (emit ?e ?x)) with (e :: trace x);
              f_equal; apply (guards_trace _ _ s)).
    all: unfold when; repeat match goal with
               | |- context [if ?b then _ else _] => destruct b
               end; done.
Qed.

End Agents.

(** ** A new transcript after a run *)

Section Stale.
Context `{Browser}.
Hypothesis round_trip : ∀ v, JSON_parse (JSON_stringify v) = Some v.
Hypothesis parse_empty : JSON_parse "" = None.

Lemma saved_key_inj a b : "analysisResult_" ++ a = "analysisResult_" ++ b → a = b.
Proof. intros Heq. by simplify_eq/=. Qed.

(** The iterations for other agents leave what has been saved for an
    agent alone. *)
Lemma iterations_frame cap a rest : ∀ pending y,
  a ∉ rest →
  (∀ x, localStorage (pending x) = localStorage x) →
  localStorage (run (iterations cap pending rest) y) !! ("analysisResult_" ++ a)
  = localStorage y !! ("analysisResult_" ++ a).
Proof.
  induction rest as [|b rest IH]; intros pending y Hnotin Hpending.
  - cbn. rewrite Hpending. by look.
  - cbn [iterations]. rewrite !run_cons.
    rewrite IH by (done || set_solver).
    assert (b ≠ a) as Hba by set_solver.
    cbn [act seg]. unfold complete, enter, andThen, when.
    destruct (negb (String.eqb b "longContextChunking"));
      cbn -[dummyResult progressEntry enc_obj String.append]; rewrite ?Hpending;
      repeat first [ rewrite lookup_insert_ne by discriminate
                   | rewrite lookup_insert_ne
                       by (intros Heq; by apply saved_key_inj in Heq) ];
      reflexivity.
Qed.

(** What the loop has saved for the agents on the cards. *)
Lemma iterations_saves cap a rest : ∀ pending y,
  a ∈ rest →
  NoDup rest →
  a ≠ "longContextChunking" →
  localStorage (run (iterations cap pending rest) y) !! ("analysisResult_" ++ a)
  = Some (JSON_stringify (dummyResult cap a)).
Proof.
  induction rest as [|b rest IH]; intros pending y Hin Hnd Ha; [set_solver|].
  apply NoDup_cons in Hnd as [Hnotin Hnd].
  cbn [iterations]. rewrite !run_cons.
  destruct (decide (a = b)) as [<-|Hab].
  - rewrite iterations_frame by done.
    cbn [act seg]. unfold complete, andThen, when.
    apply String.eqb_neq in Ha. rewrite Ha.
    cbn -[dummyResult progressEntry enc_obj String.append].
    rewrite lookup_insert_ne by discriminate. apply lookup_insert_eq.
  - apply IH; [set_solver|done..].
Qed.

Lemma run_saves cap outcome s agentId :
  transcript cap ≠ "" →
  agentId ∈ visibleAgentSequence →
  localStorage (run (startAnalysisSequence cap outcome) s) !! ("analysisResult_" ++ agentId)
  = Some (JSON_stringify (dummyResult cap agentId)).
Proof.
  intros Hne Hin. rewrite startAnalysisSequence_run by done.
  unfold agentLoop. rewrite !run_cons. apply iterations_saves.
  - exact Hin.
  - repeat (constructor; [set_solver|]). constructor.
  - unfold visibleAgentSequence in Hin. clear -Hin. set_solver.
Qed.

(** X9. [handleContentChange] does not touch what the loop of
    [startAnalysisSequence] has saved under [analysisResult_<agent>].
    When a new transcript is entered after a run, the results are
    emptied, but each of the four agents on the cards still counts as
    done, and [handleViewResult] for it reads the result of the run on
    the earlier transcript back into the results and shows it, with a
    [JSON.parse] that reads back what [JSON.stringify] writes. *)
Theorem earlier_results_come_back cap outcome s content agentId :
  transcript cap ≠ "" →
  agentId ∈ visibleAgentSequence →
  transcript (handleContentChange content (run (startAnalysisSequence cap outcome) s))
  = content
  ∧ localAnalysisResults
      (handleContentChange content (run (startAnalysisSequence cap outcome) s)) = ∅
  ∧ isDone (handleContentChange content (run (startAnalysisSequence cap outcome) s))
      agentId = true
  ∧ localAnalysisResults
      (handleViewResult
         (handleContentChange content (run (startAnalysisSequence cap outcome) s))
         agentId
         (handleContentChange content (run (startAnalysisSequence cap outcome) s)))
    !! agentId = Some (dummyResult cap agentId)
  ∧ showsResults
      (handleViewResult
         (handleContentChange content (run (startAnalysisSequence cap outcome) s))
         agentId
         (handleContentChange content (run (startAnalysisSequence cap outcome) s)))
    = true.
Proof.
  intros Hne Hin.
  pose proof (run_saves cap outcome s agentId Hne Hin) as Hsaved.
  destruct (run_ends cap outcome s Hne) as (Hshow & _ & _ & _ & Hfin).
  set (x := run (startAnalysisSequence cap outcome) s) in *. clearbody x.
  assert (agentId ∈ finishedAgents x) as Hdone.
  { apply Hfin. unfold visibleAgentSequence in Hin. unfold AGENT_SEQUENCE.
    clear -Hin. set_solver. }
  clear Hfin.
  assert (agentId ≠ "" ∧ agentId ≠ "longContextChunking") as [Hne1 Hne2].
  { unfold visibleAgentSequence in Hin. clear -Hin. set_solver. }
  apply String.eqb_neq in Hne1, Hne2.
  pose proof (stringify_nonempty round_trip parse_empty (dummyResult cap agentId)) as Hnonempty.
  apply String.eqb_neq in Hnonempty.
  destruct x. cbn in Hsaved, Hshow, Hdone. subst.
  split_and!.
  - reflexivity.
  - reflexivity.
  - unfold isDone. cbn. rewrite (bool_decide_true (agentId ∈ _)) by done.
    rewrite orb_true_r. by destruct (_ && _)%bool.
  - unfold handleViewResult, andThen. cbn -[dummyResult String.append].
    rewrite lookup_empty. cbn -[dummyResult String.append].
    rewrite !lookup_insert_ne by discriminate.
    rewrite Hsaved, Hnonempty, round_trip. cbn -[dummyResult]. apply lookup_insert_eq.
  - unfold showsResults, handleViewResult, andThen. cbn -[dummyResult String.append].
    rewrite lookup_empty. cbn -[dummyResult String.append].
    rewrite !lookup_insert_ne by discriminate.
    rewrite Hsaved, Hnonempty, round_trip. cbn -[dummyResult].
    by rewrite Hne1, Hne2.
Qed.

End Stale.

(** ** The finished agents *)

Section FinishedAgents.
Context `{Browser}.

Lemma grows_andThen a b : grows a → grows b → grows (a >> b).
Proof. intros Ha Hb s. etransitivity; [apply Ha|apply Hb]. Qed.

Lemma grows_when c a : grows a → grows (when c a).
Proof. intros Ha. destruct c; [done|]. by intros s. Qed.

(** An action that leaves the finished set alone. *)
Lemma grows_frame a : (∀ s, finishedAgents (a s) = finishedAgents s) → grows a.
Proof. intros Ha s. by rewrite Ha. Qed.

Lemma grows_add a : grows (setFinishedAgents (λ prev, prev ∪ {[a]})).
Proof. intros s. cbn. set_solver. Qed.

Lemma grows_seg a : grows a → growsSeg (seg a).
Proof. intros Ha. split; [done|]. constructor. Qed.

Ltac growth :=
  repeat lazymatch goal with
    | H : grows ?a |- grows ?a => exact H
    | H : ∀ x, grows (?f x) |- grows (?f _) => apply H
    | H : ∀ x y, grows (?f x y) |- grows (?f _ _) => apply H
    | |- growsSeg (seg _) => apply grows_seg
    | |- grows (_ >> _) => apply grows_andThen
    | |- grows (when _ _) => apply grows_when
    | |- grows (setFinishedAgents (λ prev, prev ∪ {[_]})) => apply grows_add
    | |- grows (if ?c then _ else _) => destruct c
    | |- grows (match ?c with _ => _ end) => destruct c
    | |- grows _ => first [ assumption | apply grows_frame; intros; reflexivity ]
    end.

Lemma grows_enter a : grows (enter a).
Proof. unfold enter. growth. Qed.

Lemma grows_complete cap a : grows (complete cap a).
Proof. unfold complete. growth. Qed.

Lemma grows_iterations cap pending rest :
  grows pending → growsTask (iterations cap pending rest).
Proof.
  revert pending. induction rest as [|a rest IH]; intros pending Hp; cbn.
  - constructor; [|constructor]. growth.
  - pose proof (grows_enter a). pose proof (grows_complete cap a).
    do 5 (constructor; [growth|]). apply IH. unfold leave. growth.
Qed.

Lemma grows_chunkingDone v failed : grows (chunkingDone v failed).
Proof. unfold chunkingDone. growth. Qed.

Lemma grows_startAnalysisSequence cap outcome :
  growsTask (startAnalysisSequence cap outcome).
Proof.
  pose proof grows_chunkingDone.
  unfold startAnalysisSequence. destruct (String.eqb _ _).
  - constructor; [growth | constructor].
  - apply Forall_app_2.
    + unfold chunkingPhase, resetForSequence. destruct (blank _).
      * constructor; [growth | constructor].
      * constructor; [growth|]. apply Forall_app_2.
        -- induction (reports outcome) as [|r l IH]; constructor; [|done].
           cbn. growth.
        -- constructor; [|constructor]. destruct outcome; growth.
    + pose proof (grows_enter "longContextChunking").
      pose proof (grows_complete cap "longContextChunking").
      unfold agentLoop.
      do 5 (constructor; [growth|]). apply grows_iterations. unfold leave. growth.
Qed.

Lemma grows_processWithAgent cap agentId : growsTask (processWithAgent cap agentId).
Proof.
  unfold processWithAgent, cleanupAgentState.
  destruct (keyMissing cap agentId).
  - constructor; [|constructor]. split; [cbn [act]; growth|].
    constructor; [|constructor].
    destruct (negb _); repeat (constructor; [growth|]); constructor.
  - do 4 (constructor; [growth|]). constructor; [|constructor].
    split; [cbn [act]; growth|]. cbn [timers]. apply Forall_app_2.
    + destruct (_ || _)%bool; [|constructor].
      constructor; [|constructor]. constructor; [growth|constructor].
    + constructor; [|constructor]. constructor; [growth|constructor].
Qed.

Lemma growsTask_tseq t1 t2 : growsTask t1 → growsTask t2 → growsTask (tseq t1 t2).
Proof.
  revert t2. induction t1 as [|a t1 IH]; intros t2 H1 H2; [done|].
  inversion_clear H1 as [|? ? Ha Ht1]. destruct t1 as [|b t1].
  - destruct t2 as [|c t2]; cbn; [by constructor|].
    inversion_clear H2 as [|? ? Hc Ht2]. constructor; [|done].
    destruct Ha as [Ha Hta], Hc as [Hc Htc]. split; cbn.
    + by apply grows_andThen.
    + by apply Forall_app_2.
  - cbn [tseq]. constructor; [done|]. by apply IH.
Qed.

Lemma grows_runNextAgentInSequence fuel cap :
  growsTask (runNextAgentInSequence fuel cap).
Proof.
  pose proof grows_processWithAgent as Hp.
  induction fuel as [|fuel IH]; cbn [runNextAgentInSequence];
    (destruct (nextAction agents cap);
     [ constructor; [growth|constructor]
     | constructor; [growth|constructor]
     | constructor; [growth|]; apply Forall_app_2; [apply Hp|];
       destruct (isSequenceRunning cap); [first [exact IH|constructor]|];
       constructor; [growth|constructor]
     | apply growsTask_tseq;
       [ apply growsTask_tseq; [|apply Hp]; constructor; [growth|constructor]
       | destruct (isSequenceRunning cap); [first [exact IH|constructor]|constructor] ]
     | constructor; [growth|constructor] ]).
Qed.

Lemma grows_effects es : ∀ refs cap, grows (effects es refs cap).2.
Proof.
  induction es as [|e es IH]; intros refs cap; cbn; [by intros s|].
  assert (grows (effect e refs cap).2) as He.
  { apply grows_frame. intros s.
    destruct e; cbn; unfold syncAnalyzingAgents, syncFinishedAgents, autoSelectView,
      sequenceEffect, chunkingViewGuard, andThen, when; by repeat case_match. }
  destruct (effect e refs cap) as [refs1 a].
  specialize (IH refs1 cap). destruct (effects es refs1 cap) as [refs2 b].
  by apply grows_andThen.
Qed.

Lemma grows_handler cap i : keepsFinished i → growsTask (handler cap i).
Proof.
  destruct i as [outcome| |content|agentId| |confirmed| |agentId|fuel|es refs]; cbn;
    try done.
  - intros _. apply grows_startAnalysisSequence.
  - intros _. constructor; [|constructor]. unfold stopAnalysisSequence. growth.
  - intros _. constructor; [|constructor]. unfold handleContentChange. growth.
  - intros _. constructor; [|constructor]. apply grows_seg, grows_frame.
    intros s. unfold handleViewResult, andThen, when. by repeat case_match.
  - destruct confirmed; [done|]. intros _. constructor; [|constructor].
    apply grows_seg. by intros s.
  - intros _. constructor; [|constructor]. apply grows_seg, grows_frame.
    intros s. unfold syncAnalyzingAgents, syncFinishedAgents, andThen.
    by repeat case_match.
  - intros _. unfold handleRunSingleAgent.
    destruct (String.eqb _ _); [constructor; [growth|constructor]|].
    destruct (List.filter _ _); [apply grows_processWithAgent|].
    constructor; [growth|constructor].
  - intros _. apply grows_runNextAgentInSequence.
  - intros _. constructor; [|constructor]. apply grows_seg, grows_effects.
Qed.

Lemma grows_timers (sg : Seg) :
  growsSeg sg → Forall growsTask ((λ chain : Chain, seg <$> chain) <$> timers sg).
Proof.
  intros [_ Ht]. apply Forall_fmap. eapply Forall_impl; [exact Ht|].
  intros chain Hc. apply Forall_fmap. eapply Forall_impl; [exact Hc|].
  intros a Ha. by apply grows_seg.
Qed.

Lemma grows_step w w' :
  step keepsFinished w w' →
  Forall growsTask (pool w) →
  finishedAgents (live w) ⊆ finishedAgents (live w') ∧ Forall growsTask (pool w').
Proof.
  intros [i w0 Hi|n w0] Hp.
  - pose proof (grows_handler (live w0) i Hi) as Ht.
    unfold fire. destruct (handler (live w0) i) as [|sg rest]; [done|].
    inversion_clear Ht as [|? ? Hsg Hrest]. split; cbn.
    + apply Hsg.
    + apply Forall_app_2; [done|]. constructor; [done|]. by apply grows_timers.
  - unfold resume. destruct (pool w0 !! n) as [[|sg rest]|] eqn:Hn; [done| |done].
    pose proof (Forall_lookup_1 _ _ _ _ Hp Hn) as Ht.
    inversion_clear Ht as [|? ? Hsg Hrest]. split; cbn.
    + apply Hsg.
    + apply Forall_app_2; [|by apply grows_timers]. by apply Forall_insert.
Qed.

Lemma grows_steps w w' :
  rtc (step keepsFinished) w w' →
  Forall growsTask (pool w) →
  finishedAgents (live w) ⊆ finishedAgents (live w') ∧ Forall growsTask (pool w').
Proof.
  induction 1 as [w|w1 w2 w3 Hstep _ IH]; intros Hp; [done|].
  destruct (grows_step w1 w2 Hstep Hp) as [Hsub Hp2].
  destruct (IH Hp2) as [Hsub' Hp3]. split; [|done]. by etransitivity.
Qed.

(** X16. The finished agents are only cleared by a reset. On a page
    on which nothing is pending, whatever the user does other than
    "Reset Evaluation" and a confirmed reset, and in whatever order
    the tasks started are resumed, an agent that is in the finished
    set stays in it: the set never shrinks, so [isDone] stays true for
    that agent and its card keeps its "View Results" button. *)
Theorem finished_agents_persist s w w' :
  rtc (step keepsFinished) {| live := s; pool := []; reloading := false |} w →
  rtc (step keepsFinished) w w' →
  finishedAgents (live w) ⊆ finishedAgents (live w')
  ∧ ∀ agent, id agent ∈ finishedAgents (live w) → viewResultsButton (live w') agent = true.
Proof.
  intros Hstart Hsteps.
  destruct (grows_steps _ _ Hstart) as [_ Hp]; [constructor|].
  destruct (grows_steps _ _ Hsteps Hp) as [Hsub _].
  split; [done|]. intros agent Hin.
  unfold viewResultsButton, isDone.
  rewrite (bool_decide_true (id agent ∈ finishedAgents (live w'))) by set_solver.
  rewrite orb_true_r. by destruct (_ && _)%bool.
Qed.

End FinishedAgents.

(** ** The analysis modules *)

(** The cases of a module, once its conditions are decided. *)
Ltac settle1 :=
  first [ done
        | by eexists
        | by intros ? [=]
        | by intros [=]
        | by (split; [intros [? ?]|intros (? & ? & ? & ?)]; congruence)
        | by (split; [intros [? ?]|intros (? & ? & ?)]; congruence)
        | by (split; [intros [? ?]|intros (? & ?)]; congruence)
        | by (split; [done|intros _; eexists])
        | split; [done|intros ?; exfalso; set_solver]
        | split; [intros _; set_solver|done] ].
Ltac settle := split_and!; settle1.

Module AnalystFacts.
Import Analysts.

Section Modules.
Context `{Browser}.

Lemma truthy_property k o :
  truthyO (o ≫= prop k) = true → truthyO o = true.
Proof. destruct o as [[]|]; done. Qed.

(** X10. [analyzeJTBDGains] sends a request to the model exactly
    when it is given a key, a callback, a summary and JTBD results,
    and it returns a value only after a request. The values it
    reports to the callback are an initial part of 10, 30, 50, 80,
    100, and 100 is reported exactly when it returns a value. Without
    a key it reports nothing and throws the error that asks for the
    key. *)
Theorem analyzeJTBDGains_requests chunkingResults progressCallback apiKey completion :
  (is_Some (requested (analyzeJTBDGains chunkingResults progressCallback apiKey
                         completion))
   ↔ apiKey ≠ "" ∧ progressCallback = true
     ∧ truthyO (chunkingResults ≫= prop "finalSummary") = true
     ∧ truthyO (chunkingResults ≫= prop "jtbdResults") = true)
  ∧ (returns (analyzeJTBDGains chunkingResults progressCallback apiKey completion) = true
     → is_Some (requested (analyzeJTBDGains chunkingResults progressCallback apiKey
                             completion)))
  ∧ reported (analyzeJTBDGains chunkingResults progressCallback apiKey completion)
      `prefix_of` [10; 30; 50; 80; 100]
  ∧ (returns (analyzeJTBDGains chunkingResults progressCallback apiKey completion) = true
     ↔ 100 ∈ reported (analyzeJTBDGains chunkingResults progressCallback apiKey
                         completion))
  ∧ (apiKey = "" →
     reported (analyzeJTBDGains chunkingResults progressCallback apiKey completion) = []
     ∧ outcome (analyzeJTBDGains chunkingResults progressCallback apiKey completion)
       = inr (Error "OpenAI API key is required. Please set your API key first.")).
Proof.
  unfold analyzeJTBDGains, returns.
  pose proof (truthy_property "finalSummary" chunkingResults) as Hsummary.
  destruct (String.eqb apiKey "") eqn:Hkey;
    [apply String.eqb_eq in Hkey|apply String.eqb_neq in Hkey];
    [cbn; settle|].
  destruct progressCallback; cbn [negb]; [|cbn; settle].
  destruct (truthyO (chunkingResults ≫= prop "finalSummary"));
    [|rewrite orb_true_r; cbn; settle].
  rewrite Hsummary by done. cbn [negb orb].
  destruct (truthyO (chunkingResults ≫= prop "jtbdResults")); cbn [negb];
    [|cbn; settle].
  destruct completion as [content|e]; [destruct (noContent content)|];
    [| destruct (JSON_parse (default "" content)) |]; cbn; settle.
Qed.

Lemma lacks_nothing keys parsed :
  lacks keys parsed = Some false →
  Forall (λ k, truthyO (prop k parsed) = true) keys.
Proof.
  unfold lacks. intros Hl. apply Forall_forall. intros k Hk.
  assert (forallb (λ k, truthyO (prop k parsed)) keys = true) as Hall.
  { destruct parsed; try done; by destruct (forallb _ keys). }
  rewrite forallb_forall in Hall. apply Hall. by apply list_elem_of_In.
Qed.

(** X11. [analyzeJTBDPrimaryGoal] returns only a value parsed from
    the content of the completion in which both [primaryGoal] and
    [jobComponents] are present. It sends a request exactly when it
    is given a key and a summary; before that it reports nothing.
    Given a callback, when it fails after the request the last value
    it reports is 0, and when it returns it has reported 10, 30, 80,
    100. *)
Theorem analyzeJTBDPrimaryGoal_validates chunkingResults progressCallback apiKey
    completion :
  (∀ v,
     outcome (analyzeJTBDPrimaryGoal chunkingResults progressCallback apiKey completion)
     = inl v →
     truthyO (prop "primaryGoal" v) = true
     ∧ truthyO (prop "jobComponents" v) = true
     ∧ ∃ text, completion = Responds (Some text) ∧ JSON_parse text = Some v)
  ∧ (is_Some (requested (analyzeJTBDPrimaryGoal chunkingResults progressCallback apiKey
                           completion))
     ↔ apiKey ≠ "" ∧ truthyO (chunkingResults ≫= prop "finalSummary") = true)
  ∧ (requested (analyzeJTBDPrimaryGoal chunkingResults progressCallback apiKey
                  completion) = None →
     reported (analyzeJTBDPrimaryGoal chunkingResults progressCallback apiKey
                 completion) = [])
  ∧ (progressCallback = true →
     is_Some (requested (analyzeJTBDPrimaryGoal chunkingResults progressCallback apiKey
                           completion)) →
     returns (analyzeJTBDPrimaryGoal chunkingResults progressCallback apiKey
                completion) = false →
     last (reported (analyzeJTBDPrimaryGoal chunkingResults progressCallback apiKey
                       completion)) = Some 0)
  ∧ (progressCallback = true →
     returns (analyzeJTBDPrimaryGoal chunkingResults progressCallback apiKey
                completion) = true →
     reported (analyzeJTBDPrimaryGoal chunkingResults progressCallback apiKey
                 completion) = [10; 30; 80; 100]).
Proof.
  unfold analyzeJTBDPrimaryGoal, returns.
  pose proof (truthy_property "finalSummary" chunkingResults) as Hsummary.
  destruct progressCallback.
  all: destruct (String.eqb apiKey "") eqn:Hkey;
    [apply String.eqb_eq in Hkey|apply String.eqb_neq in Hkey];
    [cbn; settle|].
  all: destruct (truthyO (chunkingResults ≫= prop "finalSummary"));
    [|rewrite orb_true_r; cbn; settle].
  all: rewrite Hsummary by done; cbn [negb orb].
  all: destruct completion as [content|e]; [|cbn; settle].
  all: destruct content as [text|]; [|cbn; settle].
  all: unfold noContent; destruct (String.eqb text "");
    [cbn; settle|].
  all: change (default "" (Some text)) with text.
  all: destruct (JSON_parse text) as [parsed|] eqn:Hparse;
    [|cbn; settle].
  all: pose proof (lacks_nothing ["primaryGoal"; "jobComponents"] parsed) as Hfields.
  all: destruct (lacks ["primaryGoal"; "jobComponents"] parsed) as [[]|];
    cbn; split_and!; try settle1.
  all: intros v [= <-]; specialize (Hfields eq_refl).
  all: apply Forall_cons in Hfields as [Hgoal Hrest].
  all: apply Forall_cons in Hrest as [Hjob _]; eauto.
Qed.

(** X12. The [analyzeNeeds] of the Opportunity Evaluation page
    returns only a value in which both [immediateNeeds] and
    [latentNeeds] are present. It sends a request exactly when it is
    given a key, a chunking result with a summary and a callback; the
    missing key is reported before a missing summary. The values it
    reports are an initial part of 5, 10, 25, 60, 100, nothing is
    reported before the request is prepared, and 100 is reported
    exactly when it returns a value. *)
Theorem analyzeNeeds_validates analysisResults progressCallback apiKey completion :
  (∀ v,
     outcome (analyzeNeeds analysisResults progressCallback apiKey completion) = inl v →
     truthyO (prop "immediateNeeds" v) = true
     ∧ truthyO (prop "latentNeeds" v) = true)
  ∧ (is_Some (requested (analyzeNeeds analysisResults progressCallback apiKey
                           completion))
     ↔ apiKey ≠ ""
       ∧ truthyO (optional_prop "finalSummary"
                    (optional_prop "longContextChunking" analysisResults)) = true
       ∧ progressCallback = true)
  ∧ (apiKey = "" →
     outcome (analyzeNeeds analysisResults progressCallback apiKey completion)
     = inr (Error "OpenAI API key is required. Please set your API key first."))
  ∧ reported (analyzeNeeds analysisResults progressCallback apiKey completion)
      `prefix_of` [5; 10; 25; 60; 100]
  ∧ (requested (analyzeNeeds analysisResults progressCallback apiKey completion) = None →
     reported (analyzeNeeds analysisResults progressCallback apiKey completion) = [])
  ∧ (returns (analyzeNeeds analysisResults progressCallback apiKey completion) = true
     ↔ 100 ∈ reported (analyzeNeeds analysisResults progressCallback apiKey
                         completion)).
Proof.
  unfold analyzeNeeds, returns.
  destruct (String.eqb apiKey "") eqn:Hkey;
    [apply String.eqb_eq in Hkey|apply String.eqb_neq in Hkey];
    [cbn; settle|].
  destruct (truthyO (optional_prop "finalSummary"
                       (optional_prop "longContextChunking" analysisResults)));
    cbn [negb]; [|cbn; settle].
  destruct progressCallback; cbn [negb]; [|cbn; settle].
  destruct completion as [content|e]; [|cbn; settle].
  destruct (noContent content); [cbn; settle|].
  destruct (JSON_parse (default "" content)) as [parsed|]; [|cbn; settle].
  pose proof (lacks_nothing ["immediateNeeds"; "latentNeeds"] parsed) as Hfields.
  destruct (lacks ["immediateNeeds"; "latentNeeds"] parsed) as [[]|];
    cbn; split_and!; try settle1.
  intros v [= <-]. specialize (Hfields eq_refl).
  apply Forall_cons in Hfields as [Hnow Hrest].
  apply Forall_cons in Hrest as [Hlatent _]. done.
Qed.

End Modules.
End AnalystFacts.

(** ** The Grade Transcripts page *)

(** Counting the calls in a trace that has just been extended. *)
Ltac tally :=
  unfold GradeTranscripts.calls in *; cbn;
  rewrite ?bool_decide_true by done; cbn; lia.

Module GradeFacts.
Import GradeTranscripts GradePage.

Section Page.
Context `{Browser}.
Variable MAX_RETRIES : nat.
Variable AGENT_SEQUENCE : list AgentId.

Abbreviation runAnalysisRef := (runAnalysisRef MAX_RETRIES AGENT_SEQUENCE).
Abbreviation handleAnalyze := (handleAnalyze MAX_RETRIES AGENT_SEQUENCE).
Abbreviation progression := (progression AGENT_SEQUENCE).
Abbreviation exhausted := (exhausted MAX_RETRIES).

Lemma calls_cons_call agentId content events :
  calls agentId (Call agentId content :: events) = S (calls agentId events).
Proof. unfold calls. cbn. by rewrite bool_decide_true. Qed.

Lemma calls_cons_toast agentId msg events :
  calls agentId (ToastError msg :: events) = calls agentId events.
Proof. done. Qed.

(** X13. However the calls to the analysis module end, successes,
    failures and failures about the API key in any order, a run of an
    agent makes at most as many calls as the agent has retries left,
    and none for another agent. *)
Theorem calls_bounded outcomes : ∀ agentId content s,
  (calls agentId (trace (runAnalysisRef outcomes agentId content s s))
   ≤ calls agentId (trace s) + (MAX_RETRIES - retryCount (agentStates s agentId)))%nat
  ∧ (∀ other, other ≠ agentId →
       calls other (trace (runAnalysisRef outcomes agentId content s s))
       = calls other (trace s)).
Proof.
  intros agentId content s. split; [|intros other Hother; by apply GradeProofs.calls_other].
  revert s. induction outcomes as [|o outcomes IH]; intros s.
  - cbn [GradeTranscripts.runAnalysisRef].
    destruct (checkApiKey s); [tally|].
    destruct (MAX_RETRIES <=? _)%nat eqn:Hle; [tally|].
    apply Nat.leb_gt in Hle. tally.
  - cbn [GradeTranscripts.runAnalysisRef].
    destruct (checkApiKey s); [tally|].
    destruct (MAX_RETRIES <=? _)%nat eqn:Hle; [tally|].
    apply Nat.leb_gt in Hle.
    destruct o as [r|message].
    + destruct (decide (last AGENT_SEQUENCE = Some agentId)); tally.
    + destruct (includes "API key" message); [tally|].
      destruct (_ <? MAX_RETRIES)%nat; [|tally].
      etransitivity; [apply IH|].
      cbn. rewrite GradeProofs.update_same. tally.
Qed.

Lemma handleAnalyze_first first rest outcomes s :
  AGENT_SEQUENCE = first :: rest →
  transcript s ≠ "" →
  checkApiKey s = None →
  handleAnalyze outcomes s
  = runAnalysisRef outcomes first (transcript s) s
      (setIsSequenceRunning true (setIsAnalyzing true (resetAnalysisState s))).
Proof.
  intros Hseq Hne Hkey. unfold GradeTranscripts.handleAnalyze.
  apply String.eqb_neq in Hne. rewrite Hne, Hkey.
  destruct AGENT_SEQUENCE; by simplify_eq.
Qed.

(** The page after a run in which every call failed. *)
Lemma failed_run failures : ∀ agentId content s,
  checkApiKey s = None →
  Forall (transient) failures →
  failures ≠ [] →
  (retryCount (agentStates s agentId) + length failures = MAX_RETRIES)%nat →
  pageIsAnalyzing (runAnalysisRef failures agentId content s s) = false
  ∧ isSequenceRunning (runAnalysisRef failures agentId content s s) = false
  ∧ retryCount (agentStates (runAnalysisRef failures agentId content s s) agentId)
    = MAX_RETRIES
  ∧ transcript (runAnalysisRef failures agentId content s s) = transcript s
  ∧ llmApiKey (runAnalysisRef failures agentId content s s) = llmApiKey s
  ∧ calls agentId (trace (runAnalysisRef failures agentId content s s))
    = (calls agentId (trace s) + length failures)%nat.
Proof.
  induction failures as [|o failures IH]; intros agentId content s Hkey Htr Hne Hn;
    [done|].
  apply Forall_cons in Htr as [Ho Htr].
  destruct o as [r|message]; [done|]. cbn in Ho, Hn.
  cbn [GradeTranscripts.runAnalysisRef]. rewrite Hkey.
  assert ((MAX_RETRIES <=? retryCount (agentStates s agentId))%nat = false) as ->
    by (apply Nat.leb_gt; lia).
  rewrite Ho. cbn [trace agentStates emit setAgentStates].
  rewrite GradeProofs.update_same. cbn [retryCount].
  destruct failures as [|o' failures].
  - assert ((S (retryCount (agentStates s agentId)) <? MAX_RETRIES)%nat = false) as ->
      by (apply Nat.ltb_ge; cbn in Hn; lia).
    cbn. rewrite GradeProofs.update_same. cbn.
    split_and!; try done; [cbn in *; lia|tally].
  - assert ((S (retryCount (agentStates s agentId)) <? MAX_RETRIES)%nat = true) as ->
      by (apply Nat.ltb_lt; cbn in Hn; lia).
    match goal with |- context [GradeTranscripts.runAnalysisRef _ _ _ _ _ ?x ?x] =>
      destruct (IH agentId content x) as (I1 & I2 & I3 & I4 & I5 & I6) end;
      [exact Hkey|done|done| |].
    + cbn. rewrite GradeProofs.update_same. cbn in *. lia.
    + split_and!; [exact I1|exact I2|exact I3|by rewrite I4|by rewrite I5|].
      etransitivity; [exact I6|]. tally.
Qed.

(** X14. "Please try again" cannot be followed at once. When the
    first agent of the sequence has used up its retries, the run
    ends with "Analyze" enabled again; but the next press of
    "Analyze" calls no module: it toasts that the agent failed after
    [MAX_RETRIES] attempts and leaves the page with "Analyze"
    disabled and "Stop Analysis" shown although no sequence is
    running and the progression effect is idle. After "Stop
    Analysis" a press of "Analyze" runs the agent again. *)
Theorem analyze_again_is_refused first rest failures s :
  AGENT_SEQUENCE = first :: rest →
  transcript s ≠ "" →
  checkApiKey s = None →
  (retryCount (agentStates s first) < MAX_RETRIES)%nat →
  Forall (transient) failures →
  length failures = MAX_RETRIES →
  analyzeDisabled (handleAnalyze failures s) = false
  ∧ calls first (trace (handleAnalyze failures s))
    = (calls first (trace s) + MAX_RETRIES)%nat
  ∧ ∀ outcomes,
      trace (handleAnalyze outcomes (handleAnalyze failures s))
      = ToastError ("Failed to complete " ++ agentName first ++ " analysis after "
                    ++ pretty MAX_RETRIES ++ " attempts")
        :: trace (handleAnalyze failures s)
      ∧ analyzeDisabled (handleAnalyze outcomes (handleAnalyze failures s)) = true
      ∧ stopShown (handleAnalyze outcomes (handleAnalyze failures s)) = true
      ∧ isSequenceRunning (handleAnalyze outcomes (handleAnalyze failures s)) = false
      ∧ progression (handleAnalyze outcomes (handleAnalyze failures s)) = Idle
      ∧ ∀ r outcomes',
          results
            (agentStates
               (handleAnalyze (Ok r :: outcomes')
                  (handleStopAnalysis
                     (handleAnalyze outcomes (handleAnalyze failures s)))) first)
          = Some r.
Proof.
  intros Hseq Hne Hkey Hfresh Htr Hlen.
  assert (pageIsAnalyzing (handleAnalyze failures s) = false
          ∧ retryCount (agentStates (handleAnalyze failures s) first) = MAX_RETRIES
          ∧ transcript (handleAnalyze failures s) = transcript s
          ∧ llmApiKey (handleAnalyze failures s) = llmApiKey s
          ∧ calls first (trace (handleAnalyze failures s))
            = (calls first (trace s) + MAX_RETRIES)%nat) as (Hpage & Hretry & Htext & Hk & Hcalls).
  { rewrite (handleAnalyze_first first rest) by done.
    destruct failures as [|o failures]; [cbn in Hlen; lia|].
    apply Forall_cons in Htr as [Ho Htr].
    destruct o as [r|message]; [done|]. cbn in Ho, Hlen.
    cbn [GradeTranscripts.runAnalysisRef].
    change (checkApiKey (setIsSequenceRunning true (setIsAnalyzing true
              (resetAnalysisState s)))) with (checkApiKey s). rewrite Hkey.
    assert ((MAX_RETRIES <=? retryCount (agentStates s first))%nat = false) as ->
      by (apply Nat.leb_gt; lia).
    rewrite Ho. cbn [trace agentStates emit setAgentStates].
    rewrite GradeProofs.update_same.
    cbn [retryCount agentStates resetAnalysisState setIsSequenceRunning setIsAnalyzing
           initialAgentStates initialAgentState].
    destruct failures as [|o' failures].
    - assert ((1 <? MAX_RETRIES)%nat = false) as ->
        by (apply Nat.ltb_ge; cbn in Hlen; lia).
      cbn. rewrite GradeProofs.update_same. cbn. cbn in Hlen.
      split_and!; try done; try (cbn in *; lia); tally.
    - assert ((1 <? MAX_RETRIES)%nat = true) as ->
        by (apply Nat.ltb_lt; cbn in Hlen; lia).
      match goal with |- context [GradeTranscripts.runAnalysisRef _ _ _ _ _ ?x ?x] =>
        destruct (failed_run (o' :: failures) first (transcript s) x)
          as (I1 & I2 & I3 & I4 & I5 & I6) end; [exact Hkey|done|done| |].
      + cbn. rewrite GradeProofs.update_same. cbn in *. lia.
      + split_and!; [exact I1|exact I3|by rewrite I4|by rewrite I5|].
        etransitivity; [exact I6|]. cbn in Hlen. tally. }
  set (halted := handleAnalyze failures s) in *. clearbody halted.
  assert (checkApiKey halted = None) as Hkey'
    by (unfold checkApiKey in *; by rewrite Hk).
  split_and!.
  - unfold analyzeDisabled. rewrite Htext, Hpage.
    apply String.eqb_neq in Hne. by rewrite Hne.
  - done.
  - intros outcomes.
    assert (handleAnalyze outcomes halted
            = emit (ToastError ("Failed to complete " ++ agentName first
                                ++ " analysis after " ++ pretty MAX_RETRIES
                                ++ " attempts"))
                (setSessionItem "isSequenceRunning" "false"
                   (setIsSequenceRunning false
                      (setIsSequenceRunning true
                         (setIsAnalyzing true (resetAnalysisState halted)))))) as ->.
    { rewrite (handleAnalyze_first first rest) by (done || by rewrite Htext).
      destruct outcomes; cbn [GradeTranscripts.runAnalysisRef];
        change (checkApiKey (setIsSequenceRunning true (setIsAnalyzing true
                  (resetAnalysisState halted)))) with (checkApiKey halted);
        rewrite Hkey';
        (assert ((MAX_RETRIES <=? retryCount (agentStates halted first))%nat = true)
           as -> by (apply Nat.leb_le; lia)); done. }
    split_and!; try done.
    + unfold analyzeDisabled. cbn. by rewrite orb_true_r.
    + intros r outcomes'.
      rewrite (handleAnalyze_first first rest) by (done || by cbn; rewrite Htext).
      cbn [GradeTranscripts.runAnalysisRef].
      match goal with |- context [checkApiKey ?x] =>
        change (checkApiKey x) with (checkApiKey halted) end.
      rewrite Hkey'. cbn [agentStates emit resetAnalysisState initialAgentStates
                            initialAgentState retryCount handleStopAnalysis
                            setSessionItem setIsSequenceRunning setIsAnalyzing].
      assert ((MAX_RETRIES <=? 0)%nat = false) as -> by (apply Nat.leb_gt; lia).
      destruct (decide (last AGENT_SEQUENCE = Some first));
        cbn; by rewrite GradeProofs.update_same.
Qed.

(** *** A sequence in which every call succeeds *)

Lemma agentName_inj a b : agentName a ++ "Results" = agentName b ++ "Results" → a = b.
Proof. by destruct a, b. Qed.

Lemma sequence_split n b :
  AGENT_SEQUENCE !! n = Some b →
  take (S n) AGENT_SEQUENCE = (take n AGENT_SEQUENCE ++ [b])%list.
Proof. intros Hb. by apply take_S_r. Qed.

Lemma not_yet n b :
  NoDup AGENT_SEQUENCE → AGENT_SEQUENCE !! n = Some b → b ∉ take n AGENT_SEQUENCE.
Proof.
  intros Hnd Hb Hin.
  apply list_elem_of_lookup in Hin as [i Hi].
  assert (i < n)%nat as Hlt.
  { apply lookup_lt_Some in Hi. rewrite length_take in Hi. lia. }
  rewrite lookup_take_lt in Hi by done.
  pose proof (NoDup_lookup _ _ _ _ Hnd Hi Hb). lia.
Qed.

Lemma last_position n b :
  NoDup AGENT_SEQUENCE → AGENT_SEQUENCE !! n = Some b →
  last AGENT_SEQUENCE = Some b ↔ S n = length AGENT_SEQUENCE.
Proof.
  intros Hnd Hb. rewrite last_lookup. split.
  - intros Hlast. pose proof (NoDup_lookup _ _ _ _ Hnd Hlast Hb) as Hn.
    apply lookup_lt_Some in Hb. lia.
  - intros Hn. by rewrite <- Hn.
Qed.

Lemma whole_sequence n b :
  AGENT_SEQUENCE !! n = Some b → S n = length AGENT_SEQUENCE →
  AGENT_SEQUENCE = (take n AGENT_SEQUENCE ++ [b])%list.
Proof.
  intros Hb Hn. rewrite <- (sequence_split n b Hb).
  symmetry. apply take_ge. lia.
Qed.

(** The run of the agent at position [n] when its call succeeds. *)
Lemma run_next results0 content before n b ref s :
  NoDup AGENT_SEQUENCE →
  AGENT_SEQUENCE !! n = Some b →
  (retryCount (agentStates ref b) < MAX_RETRIES)%nat →
  ranThrough AGENT_SEQUENCE results0 content before n s →
  ((S n < length AGENT_SEQUENCE)%nat →
   ranThrough AGENT_SEQUENCE results0 content before (S n)
     (runAnalysisRef [Ok (results0 b)] b content ref s)
   ∧ currentAnalysisIndex (runAnalysisRef [Ok (results0 b)] b content ref s)
     = currentAnalysisIndex s)
  ∧ (S n = length AGENT_SEQUENCE →
     ranAll AGENT_SEQUENCE results0 content before
       (runAnalysisRef [Ok (results0 b)] b content ref s)).
Proof.
  intros Hnd Hb Hfresh (Hrun & Hpage & Hkey & Htext & Hdone & Hrest & Htrace).
  pose proof (not_yet n b Hnd Hb) as Hnot.
  pose proof (last_position n b Hnd Hb) as Hlast.
  pose proof (Hrest b Hnot) as Hinit.
  cbn [GradeTranscripts.runAnalysisRef]. rewrite Hkey.
  assert ((MAX_RETRIES <=? retryCount (agentStates ref b))%nat = false) as ->
    by (apply Nat.leb_gt; lia).
  destruct (decide (last AGENT_SEQUENCE = Some b)) as [Hl|Hl].
  - apply Hlast in Hl. split; [lia|]. intros _.
    pose proof (whole_sequence n b Hb Hl) as Hall.
    unfold ranAll. split_and!; try done.
    + cbn [analysisResult setIsAnalyzing setIsSequenceRunning showFinal].
      f_equal. unfold finalResults, compiled.
      assert (∀ a, default VNull
                     (results
                        (agentStates
                           (emit (Call b content)
                              (setAgentStates
                                 (update b (λ st,
                                    {| isAnalyzing := true; progress := 0;
                                       results := results st;
                                       showResults := showResults st;
                                       retryCount := S (retryCount st) |})) s)) a))
                   = if bool_decide (a ∈ removelast AGENT_SEQUENCE)
                     then results0 a else VNull) as Hr.
      { intros a. rewrite Hall, removelast_last.
        cbn [agentStates emit setAgentStates].
        destruct (decide (a = b)) as [->|Hab].
        - rewrite GradeProofs.update_same, Hinit. cbn.
          by rewrite bool_decide_false.
        - rewrite GradeProofs.update_other by done.
          case_bool_decide as Hin.
          + by destruct (Hdone a Hin) as (-> & _).
          + by rewrite (Hrest a Hin). }
      rewrite !Hr. do 6 f_equal.
      rewrite (proj2 Hlast Hl). done.
    + intros a Hin. rewrite Hall in Hin.
      apply elem_of_app in Hin as [Hin|Hin%list_elem_of_singleton].
      * destruct (Hdone a Hin) as (Hres & _ & Hstore).
        assert (a ≠ b) as Hab by (intros ->; done).
        cbn. rewrite GradeProofs.update_other by done.
        rewrite GradeProofs.update_other by done.
        rewrite lookup_insert_ne by (intros Heq; by apply agentName_inj in Heq).
        done.
      * subst a. cbn. rewrite GradeProofs.update_same. cbn.
        by rewrite lookup_insert_eq.
    + cbn. rewrite Htrace. rewrite Hall at 2.
      by rewrite rev_unit.
  - split; [|intros Hn; by apply Hlast in Hn]. intros _.
    split; [|done].
    unfold ranThrough. rewrite (sequence_split n b Hb).
    split_and!; try done.
    + intros a Hin.
      apply elem_of_app in Hin as [Hin|Hin%list_elem_of_singleton].
      * destruct (Hdone a Hin) as (Hres & Hprog & Hstore).
        assert (a ≠ b) as Hab by (intros ->; done).
        cbn. rewrite GradeProofs.update_other by done.
        rewrite GradeProofs.update_other by done.
        rewrite lookup_insert_ne by (intros Heq; by apply agentName_inj in Heq).
        done.
      * subst a. cbn. rewrite GradeProofs.update_same. cbn.
        by rewrite lookup_insert_eq.
    + intros a Hin.
      assert (a ≠ b) as Hab by (intros ->; set_solver).
      cbn. rewrite GradeProofs.update_other by done.
      rewrite GradeProofs.update_other by done.
      apply Hrest. set_solver.
    + cbn. rewrite Htrace. by rewrite rev_unit.
Qed.

(** The progression from there to the end of the sequence. *)
Lemma proceed_all results0 content before later : ∀ n s,
  NoDup AGENT_SEQUENCE →
  (0 < MAX_RETRIES)%nat →
  drop n AGENT_SEQUENCE = later →
  later ≠ [] →
  (0 < n)%nat →
  currentAnalysisIndex s = pred n →
  ranThrough AGENT_SEQUENCE results0 content before n s →
  ranAll AGENT_SEQUENCE results0 content before
    (proceed MAX_RETRIES AGENT_SEQUENCE ((λ a, [Ok (results0 a)]) <$> later) s).
Proof.
  induction later as [|b later IH]; intros n s Hnd Hmax Hdrop Hne Hn Hindex Hran;
    [done|].
  assert (AGENT_SEQUENCE !! n = Some b) as Hb.
  { rewrite <- (Nat.add_0_r n), <- lookup_drop, Hdrop. done. }
  assert (drop (S n) AGENT_SEQUENCE = later) as Hdrop'.
  { replace (S n) with (n + 1)%nat by lia. rewrite <- drop_drop, Hdrop. done. }
  pose proof Hran as (Hrun & Hpage & Hkey & Htext & Hdone & Hrest & Htrace).
  assert (∃ a, AGENT_SEQUENCE !! pred n = Some a ∧ a ∈ take n AGENT_SEQUENCE)
    as (a & Ha & Hin).
  { apply lookup_lt_Some in Hb.
    destruct (lookup_lt_is_Some_2 AGENT_SEQUENCE (pred n)) as [a Ha]; [lia|].
    exists a. split; [done|]. apply list_elem_of_lookup. exists (pred n).
    rewrite lookup_take_lt by lia. done. }
  assert (progression s = Advance n b) as Hadvance.
  { unfold GradeTranscripts.progression. rewrite Hrun, Hindex, Ha. cbn [negb].
    replace (S (pred n)) with n by lia. rewrite Hb.
    destruct (Hdone a Hin) as (_ & -> & _). done. }
  cbn [fmap list_fmap proceed]. rewrite Hadvance.
  unfold advance at 1. rewrite Htext.
  destruct (run_next results0 content before n b s (setCurrentAnalysisIndex n s))
    as [Hmore Hlast]; [done|done| |done|].
  { rewrite (Hrest b) by (by apply not_yet). cbn. lia. }
  assert (length later = (length AGENT_SEQUENCE - S n)%nat) as Hlen
    by (by rewrite <- Hdrop', length_drop).
  apply lookup_lt_Some in Hb as Hlt.
  destruct later as [|c later].
  - cbn [fmap list_fmap proceed].
    destruct Hlast as (Hflag & Hrest'); [cbn in Hlen; lia|].
    rewrite GradeProofs.halted_idle by done. by split.
  - destruct Hmore as [Hran' Hindex']; [cbn in Hlen; lia|].
    apply (IH (S n)); try done. lia.
Qed.

(** X15. A sequence in which every call succeeds at once. From a
    page with a transcript, a key that passes the check and an
    untouched first agent, "Analyze" followed by the progression
    effect and its timers calls the module of each agent of the
    sequence once, in the order of the sequence, on the transcript;
    every agent ends with its result, also kept in the session
    storage; the results dialog is opened on the compiled results,
    which hold the results of the agents before the last one and, as
    recommendations, the result of the last; the sequence flag and
    the page-level flag are off. *)
Theorem sequence_of_successes results0 first rest s :
  AGENT_SEQUENCE = first :: rest →
  NoDup AGENT_SEQUENCE →
  transcript s ≠ "" →
  checkApiKey s = None →
  (retryCount (agentStates s first) < MAX_RETRIES)%nat →
  isSequenceRunning
    (analyze MAX_RETRIES AGENT_SEQUENCE
       ((λ a, [Ok (results0 a)]) <$> first :: rest) s) = false
  ∧ pageIsAnalyzing
      (analyze MAX_RETRIES AGENT_SEQUENCE
         ((λ a, [Ok (results0 a)]) <$> first :: rest) s) = false
  ∧ showResult
      (analyze MAX_RETRIES AGENT_SEQUENCE
         ((λ a, [Ok (results0 a)]) <$> first :: rest) s) = true
  ∧ analysisResult
      (analyze MAX_RETRIES AGENT_SEQUENCE
         ((λ a, [Ok (results0 a)]) <$> first :: rest) s)
    = Some (compiled AGENT_SEQUENCE results0)
  ∧ (∀ a, a ∈ AGENT_SEQUENCE →
       results
         (agentStates
            (analyze MAX_RETRIES AGENT_SEQUENCE
               ((λ a, [Ok (results0 a)]) <$> first :: rest) s) a)
       = Some (results0 a)
       ∧ sessionStorage
           (analyze MAX_RETRIES AGENT_SEQUENCE
              ((λ a, [Ok (results0 a)]) <$> first :: rest) s)
           !! (agentName a ++ "Results")
         = Some (JSON_stringify (results0 a)))
  ∧ trace
      (analyze MAX_RETRIES AGENT_SEQUENCE
         ((λ a, [Ok (results0 a)]) <$> first :: rest) s)
    = (((λ a, Call a (transcript s)) <$> rev AGENT_SEQUENCE) ++ trace s)%list.
Proof.
  intros Hseq Hnd Hne Hkey Hfresh.
  change (ranAll AGENT_SEQUENCE results0 (transcript s) (trace s)
            (analyze MAX_RETRIES AGENT_SEQUENCE
               ((λ a, [Ok (results0 a)]) <$> first :: rest) s)).
  cbn [fmap list_fmap analyze].
  rewrite (handleAnalyze_first first rest) by done.
  assert (AGENT_SEQUENCE !! 0%nat = Some first) as Hfirst by (by rewrite Hseq).
  destruct (run_next results0 (transcript s) (trace s) 0 first s
              (setIsSequenceRunning true (setIsAnalyzing true (resetAnalysisState s))))
    as [Hmore Hlast]; [done|done|done| |].
  { unfold ranThrough. cbn [take]. split_and!; try done.
    intros a Hin. by apply elem_of_nil in Hin. }
  destruct rest as [|c rest].
  - cbn [fmap list_fmap proceed].
    destruct Hlast as (Hflag & Hrest'); [by rewrite Hseq|].
    rewrite GradeProofs.halted_idle by done. by split.
  - destruct Hmore as [Hran' Hindex']; [rewrite Hseq; cbn; lia|].
    apply (proceed_all results0 (transcript s) (trace s) (c :: rest) 1); try done.
    + lia.
    + by rewrite Hseq.
    + lia.
Qed.

End Page.
End GradeFacts.

(** ** The further properties on the sample sessions *)

Section Instances.
#[local] Existing Instance testBrowser.

(** X1 on the sample run, with a render and its effects when
    needsAnalysis is shown as running and another when the run is over;
    the result shown is then longContextChunking. *)
Lemma startAnalysisSequence_final_state_witness :
  analyzingAgents (live renderedOver) = ∅
  ∧ hasAnalyzed (live renderedOver) = true
  ∧ currentRunningAgent (live renderedOver) = Some "finalReport"
  ∧ showResult (live renderedOver) = Some "longContextChunking".
Proof.
  destruct (startAnalysisSequence_final_state uploaded (Resolved [50] chunked) uploaded
              renderedOver)
    as (_ & _ & Han & _ & Hhas & _ & _ & _ & Hcur & _).
  - vm_compute. discriminate.
  - unfold renderedOver, renderedMidway, needsRunning.
    eapply rtc_trans; [apply (rtc_resumes rendering 8)|].
    eapply rtc_l;
      [apply (step_input rendering (Render allEffects freshRefs)); exact I|].
    eapply rtc_trans; [apply (rtc_resumes rendering 20)|].
    apply rtc_once.
    apply (step_input rendering (Render allEffects freshRefs)). exact I.
  - unfold settled. vm_compute. repeat constructor.
  - split_and!; [exact Han|exact Hhas|exact Hcur|vm_compute; reflexivity].
Defined.

(** X2 on the sample run, and on a transcript made of a no-break
    space: the chunking module is not called, and the fallback result
    is stored. *)
Lemma startAnalysisSequence_trace_witness :
  trace analysed
  = ToastSuccess "Analysis sequence completed successfully!"
    :: started ["needsAnalysis"; "demandAnalyst"; "opportunityQualification"; "finalReport"]
    ++ [ChunkingCall "Interviewer: what slows you down?"]
    ++ StartingAgent "longContextChunking" :: trace uploaded
  ∧ trace (run (startAnalysisSequence spaced (Resolved [50] chunked)) spaced)
    = ToastSuccess "Analysis sequence completed successfully!"
      :: started ["needsAnalysis"; "demandAnalyst"; "opportunityQualification";
                  "finalReport"]
      ++ StartingAgent "longContextChunking" :: trace spaced
  ∧ localAnalysisResults (run (chunkingPhase spaced (Resolved [50] chunked)) spaced)
      !! "longContextChunking"
    = Some (fallbackResult "No transcript content to analyze").
Proof.
  destruct (startAnalysisSequence_trace uploaded (Resolved [50] chunked) uploaded)
    as [Htrace _]; [vm_compute; discriminate|].
  destruct (startAnalysisSequence_trace spaced (Resolved [50] chunked) spaced)
    as [Hspaced Hfallback]; [vm_compute; discriminate|].
  split_and!; [exact Htrace|exact Hspaced|exact (Hfallback eq_refl)].
Defined.

(** X3 on the sample run, when the chunking module has reported its
    progress. *)
Lemma analyze_offered_while_optimizing_witness :
  analyzeOffered (run (take 2 (chunkingPhase uploaded (Resolved [50] chunked))) uploaded)
  = true.
Proof.
  destruct (analyze_offered_while_optimizing uploaded (Resolved [50] chunked) uploaded 2
              {| sequenceCompletedRef := false; contextChunkingFixedRef := false |})
    as [Hoffered _].
  - vm_compute. discriminate.
  - lia.
  - exact Hoffered.
Defined.

(** X4 on the sample run. *)
Lemma results_panel_after_run_witness :
  showsResults analysed = true ∧ getCurrentAgent analysed = None.
Proof.
  destruct (results_panel_after_run uploaded (Resolved [50] chunked) uploaded)
    as (Hshows & _ & _ & _ & Hcurrent).
  - vm_compute. discriminate.
  - split; [exact Hshows|exact Hcurrent].
Defined.

(** X5 at the end of the sample run. *)
Lemma view_settles_witness :
  showResult
    (viewRounds 5 {| sequenceCompletedRef := false; contextChunkingFixedRef := false |}
       analysed).2
  = Some "longContextChunking".
Proof.
  destruct (view_settles_on_longContextChunking
              {| sequenceCompletedRef := false; contextChunkingFixedRef := false |}
              analysed 5) as [Hshow _].
  - vm_compute. reflexivity.
  - vm_compute. reflexivity.
  - vm_compute. reflexivity.
  - lia.
  - exact Hshow.
Defined.

(** X6 on the sample page: a transcript is uploaded in the middle of
    the run. *)
Lemma one_green_bar_witness : (greenBars (live interleaved) ≤ 1)%nat.
Proof.
  apply (one_green_bar uploaded (Resolved [50] chunked) interleaved).
  - vm_compute. discriminate.
  - unfold interleaved.
    eapply rtc_trans; [apply (rtc_resumes sequenceInput 10)|].
    eapply rtc_l; [apply (step_input sequenceInput (Upload "Second interview")); exact I|].
    apply rtc_resumes.
Defined.

(** X7 on the sample render with a key. *)
Lemma processWithAgent_stays_analyzing_witness :
  analyzingAgents (run (processWithAgent ready "needsAnalysis") ready)
  = analyzingAgents ready ∪ {["needsAnalysis"]}.
Proof.
  destruct (processWithAgent_stays_analyzing ready "needsAnalysis" ready)
    as (_ & _ & _ & _ & Han & _).
  - reflexivity.
  - exact Han.
Defined.

(** X8 on the sample render with a key. *)
Lemma finalReport_out_of_reach_witness :
  handleRunSingleAgent ready "finalReport"
  = [seg (emit (ToastError "Final Research Analysis Report requires Problem Awareness Level to be run first."))].
Proof.
  destruct (finalReport_out_of_reach ready) as (Hsingle & _).
  - vm_compute. reflexivity.
  - apply Hsingle. vm_compute. discriminate.
Defined.

(** X9 on the sample run, followed by a second transcript. *)
Lemma earlier_results_come_back_witness :
  isDone (handleContentChange "Second interview" analysed) "needsAnalysis" = true
  ∧ localAnalysisResults
      (handleViewResult (handleContentChange "Second interview" analysed) "needsAnalysis"
         (handleContentChange "Second interview" analysed))
    !! "needsAnalysis" = Some (dummyResult uploaded "needsAnalysis").
Proof.
  destruct (earlier_results_come_back (H := testBrowser) JsonFacts.parse_stringify
              JsonFacts.parse_nothing uploaded (Resolved [50] chunked) uploaded
              "Second interview" "needsAnalysis") as (_ & _ & Hdone & Hback & _).
  - vm_compute. discriminate.
  - unfold visibleAgentSequence. apply list_elem_of_here.
  - split; [exact Hdone|exact Hback].
Defined.

(** X16 on the sample page: the finished agents before and after a
    transcript is uploaded in the middle of the run. *)
Lemma finished_agents_persist_witness :
  finishedAgents (live (Nat.iter 10 (resume 0) launched))
  ⊆ finishedAgents (live interleaved).
Proof.
  destruct (finished_agents_persist uploaded (Nat.iter 10 (resume 0) launched) interleaved)
    as [Hsub _].
  - eapply rtc_l;
      [apply (step_input keepsFinished (Analyze (Resolved [50] chunked))); exact I|].
    apply (rtc_resumes keepsFinished 10).
  - unfold interleaved.
    eapply rtc_l; [apply (step_input keepsFinished (Upload "Second interview")); exact I|].
    apply rtc_resumes.
  - exact Hsub.
Defined.

End Instances.

Module GradeInstances.
Import GradeTranscripts GradePage.

Section Sample.
#[local] Existing Instance testBrowser.

(** X14 on the sample page: three failures, then "Analyze" again. *)
Lemma analyze_again_is_refused_witness :
  analyzeDisabled
    (handleAnalyze sampleRetries sampleSequence
       [Failed "Network error"; Failed "Network error"; Failed "Network error"] page)
  = false
  ∧ calls jtbd
      (trace
         (handleAnalyze sampleRetries sampleSequence
            [Failed "Network error"; Failed "Network error"; Failed "Network error"]
            page))
    = (calls jtbd (trace page) + sampleRetries)%nat.
Proof.
  destruct (GradeFacts.analyze_again_is_refused sampleRetries sampleSequence jtbd
              [curse; problemFit; priming; recommendations]
              [Failed "Network error"; Failed "Network error"; Failed "Network error"]
              page) as (Hoffered & Hcalls & _).
  - reflexivity.
  - vm_compute. discriminate.
  - reflexivity.
  - vm_compute. lia.
  - repeat constructor.
  - reflexivity.
  - split; [exact Hoffered|exact Hcalls].
Defined.

(** X15 on the sample page, each agent answering with its name. *)
Lemma sequence_of_successes_witness :
  trace
    (analyze sampleRetries sampleSequence
       ((λ a, [Ok (VStr (agentName a))]) <$> sampleSequence) page)
  = [Call recommendations "Interviewer: what slows you down?";
     Call priming "Interviewer: what slows you down?";
     Call problemFit "Interviewer: what slows you down?";
     Call curse "Interviewer: what slows you down?";
     Call jtbd "Interviewer: what slows you down?"].
Proof.
  destruct (GradeFacts.sequence_of_successes sampleRetries sampleSequence
              (λ a, VStr (agentName a)) jtbd
              [curse; problemFit; priming; recommendations] page)
    as (_ & _ & _ & _ & _ & Htrace).
  - reflexivity.
  - refine (bool_decide_unpack (NoDup sampleSequence) _). vm_compute. exact I.
  - vm_compute. discriminate.
  - reflexivity.
  - vm_compute. lia.
  - exact Htrace.
Defined.

End Sample.
End GradeInstances.
